(** * Fourwings tile decoding: [src/loaders/lib/parse-fourwings.ts]

    A shallow embedding of [getCellTimeseries] and [parseFourwings], and the
    properties of the decoder stated over it.

    JavaScript numbers that the decoder uses as integers (stream tokens, frames,
    indices, lengths, the number of bands) are embedded as [Z], which is exact
    for the integers a floating-point number represents exactly; the numbers
    it computes with ([scale], [offset], the transformed samples and the
    aggregates) are kept abstract behind the [JSNumber] interface. [undefined]
    and [NaN] in integer positions are embedded as [None].

    The file has three parts: the embedding of the source, the vocabulary of
    the specification (records of a stream, entries of a sublayer, closed
    forms), and the properties. *)

From Stdlib Require Import ZArith QArith Lia String.
From stdpp Require Import base option list numbers sorting pretty.

Local Open Scope Z_scope.

(** ** Outcomes of a JavaScript computation *)

Inductive JSError :=
  | RangeError      (* [new Array(n)] with an invalid length *)
  | TypeError       (* property access on [undefined] *)
  | LibraryError.   (* an exception raised inside an imported library *)

Inductive outcome (A : Type) :=
  | Returns (a : A)
  | Throws (e : JSError)
  | OutOfFuel.      (* the loop was cut off by the model's fuel bound *)

Arguments Returns {A} a.
Arguments Throws {A} e.
Arguments OutOfFuel {A}.

Definition obind {A B} (m : outcome A) (k : A -> outcome B) : outcome B :=
  match m with
  | Returns a => k a
  | Throws e => Throws e
  | OutOfFuel => OutOfFuel
  end.

Notation "'let*' x ':=' m 'in' k" := (obind m (fun x => k))
  (at level 10, x pattern, m at level 100, k at level 200).

(** ** JavaScript arrays

    An array is its list of slots; [None] is a hole (a slot that was never
    assigned, read back as [undefined]). Properties of an array that are not
    array indices are not part of the model. *)

Abbreviation jsarray A := (list (option A)).

Definition MAX_ARRAY_LENGTH : Z := 4294967295.

(** [new Array(n)] for an integer [n]. *)
Definition new_Array {A} (n : Z) : outcome (jsarray A) :=
  if (0 <=? n) && (n <=? MAX_ARRAY_LENGTH)
  then Returns (replicate (Z.to_nat n) None)
  else Throws RangeError.

(** [a[i]] for an integer [i]; a plain list stands for an array without holes. *)
Definition js_index {A} (l : list A) (i : Z) : option A :=
  if 0 <=? i then l !! Z.to_nat i else None.

Definition array_get {A} (a : jsarray A) (i : Z) : option A :=
  mjoin (js_index a i).

(** [a[i] = v] for an integer [i]: inside the array the slot is overwritten,
    beyond its end the array grows (the new slots in between are holes); a
    key that is not an array index leaves the slots alone. *)
Definition array_set {A} (a : jsarray A) (i : Z) (v : A) : jsarray A :=
  if (0 <=? i) && (i <? MAX_ARRAY_LENGTH) then
    let n := Z.to_nat i in
    if (n <? length a)%nat then <[n := Some v]> a
    else a ++ replicate (n - length a)%nat None ++ [Some v]
  else a.

(** ** JavaScript objects keyed by a number

    [features] is an ordinary object used as [Record<number, _>]. It is
    embedded as the list of its properties in creation order. The key of a
    property is the value used to index the object: [Some n] for the number
    [n], [None] for [undefined]. *)

Definition jskey := option Z.

Abbreviation jsobject V := (list (jskey * V)).

(** [o[k]] *)
Fixpoint obj_get {V} (o : jsobject V) (k : jskey) : option V :=
  match o with
  | [] => None
  | (k', v') :: o' => if decide (k' = k) then Some v' else obj_get o' k
  end.

(** [o[k] = v] *)
Fixpoint obj_set {V} (o : jsobject V) (k : jskey) (v : V) : jsobject V :=
  match o with
  | [] => [(k, v)]
  | (k', v') :: o' =>
      if decide (k' = k) then (k, v) :: o' else (k', v') :: obj_set o' k v
  end.

(** A key is an array index when it is an integer in [0, 2^32 - 2]. *)
Definition is_array_index (k : jskey) : bool :=
  match k with
  | Some n => (0 <=? n) && (n <? MAX_ARRAY_LENGTH)
  | None => false
  end.

Definition index_of_key (k : jskey) : Z := default 0 k.

Definition entry_le {V} (a b : jskey * V) : Prop :=
  (index_of_key a.1 <= index_of_key b.1)%Z.

Global Instance entry_le_dec {V} (a b : jskey * V) : Decision (entry_le a b).
Proof. unfold entry_le. apply _. Defined.

(** The own properties of an object are enumerated with the array indices
    first, in ascending numeric order, then the other keys in creation
    order. *)
Definition own_properties {V} (o : jsobject V) : jsobject V :=
  merge_sort entry_le (filter (fun kv => is_array_index kv.1 = true) o)
  ++ filter (fun kv => is_array_index kv.1 <> true) o.

Definition Object_values {V} (o : jsobject V) : list V :=
  snd <$> own_properties o.

(** ** Numbers

    The arithmetic of JavaScript numbers on the transformed samples. [of_int]
    is the number denoted by an integer, [NaN] what [undefined] converts to. *)

Class JSNumber (num : Type) := {
  of_int : Z -> num;
  NaN : num;
  js_add : num -> num -> num;
  js_sub : num -> num -> num;
  js_mul : num -> num -> num;
  js_div : num -> num -> num
}.

(** [ToNumber] of a value read from a slot that may be [undefined]. *)
Definition to_number {num} `{JSNumber num} (v : option num) : num :=
  default NaN v.

(** ** Imported helpers

    [../helpers/time], [../helpers/cells] and the [pbf] package are imported by
    the decoder and are not part of it; they are taken as parameters. Frames,
    instants and timestamps are integers. *)

Record IntervalConfig := {
  getIntervalFrame : Z -> Z;
  getIntervalTimestamp : Z -> Z
}.

Class TimeHelpers := {
  CONFIG_BY_INTERVAL : string -> option IntervalConfig;
  getTimeRangeKey : Z -> Z -> string
}.

Class CellHelpers := {
  coord : Type;
  ring : Type;
  (* getCellProperties(tileBBox, cellNum, cols) = { col, row } *)
  getCellProperties : coord * coord * coord * coord -> option Z -> Z -> Z * Z;
  (* getCellCoordinates({ cellIndex, cols, rows, tileBBox }) *)
  getCellCoordinates : option Z -> Z -> Z -> coord * coord * coord * coord -> ring;
  generateUniqueId : Z -> Z -> option Z -> Z
}.

(** [new Pbf(buffer).readFields(readData, [])]: one array of integers per
    packed field of the buffer, or an exception of the library. *)
Class PbfLibrary := {
  readFields_readData : list Byte.byte -> outcome (list (list Z))
}.

(** ** Data model

    Modelled from the spec: the declarations of [./types] are not among the
    sources. The records hold the fields that the decoder reads from its
    options (lines 29-41 and 190) and writes into a feature (lines 95-118); a
    field is optional where the decoder gives it a default or tests its
    absence. *)

Abbreviation BBox := (coord * coord * coord * coord)%type.

Abbreviation FourwingsRawData := (list Z).

Section Types.
Context {num : Type} `{CellHelpers}.

Record GeoBoundingBox := { west : coord; south : coord; east : coord; north : coord }.

Record TileIndex := { x : Z; y : Z }.

Record Tile := { bbox : GeoBoundingBox; index : TileIndex }.

Record TimeRange := { start : Z; end_ : Z }.

Record ParseFourwingsOptions := {
  bufferedStartDate : Z;
  interval : string;
  sublayers : Z;
  initialTimeRange : option TimeRange;
  aggregationOperation : option string;
  scale : option num;
  offset : option num;
  noDataValue : option Z;
  tile : option Tile;
  cols : Z;
  rows : Z;
  buffersLength : option (list Z)
}.

Record FourwingsLoaderOptions := { fourwings : option ParseFourwingsOptions }.

(** [initialValues] is an object with the single property [timeRangeKey]. *)
Record FeatureProperties := {
  col : Z;
  row : Z;
  values : jsarray (jsarray num);
  dates : jsarray (jsarray Z);
  cellId : Z;
  cellNum : option Z;
  startOffsets : jsarray Z;
  initialValues : string * jsarray num
}.

Record Geometry := { geometry_type : string; coordinates : list ring }.

Record FourwingsFeature := {
  type : string;
  geometry : Geometry;
  properties : FeatureProperties
}.

End Types.

Arguments ParseFourwingsOptions num {_}.
Arguments FourwingsLoaderOptions num {_}.
Arguments FeatureProperties num : clear implicits.
Arguments FourwingsFeature num {_}.

(** ** [getCellTimeseries] *)

Definition NO_DATA_VALUE : Z := 4294967295.
Definition SCALE_VALUE : Z := 1.
Definition OFFSET_VALUE : Z := 0.
Definition CELL_NUM_INDEX : Z := 0.
Definition CELL_START_INDEX : Z := 1.
Definition CELL_END_INDEX : Z := 2.
Definition CELL_VALUES_START_INDEX : Z := 3.

(** The loop variables of the scan of one sublayer. [None] stands for
    [undefined] in [cellNum] and for [NaN] in the two frames. *)
Record ScanVars := {
  v_cellNum : option Z;
  v_startFrame : option Z;
  v_endFrame : option Z;
  v_startIndex : Z;
  v_indexInCell : Z
}.

(** The object [features], together with the list of the cell numbers the
    cell helpers were called for, in call order. *)
Record DecodeState {num} `{CellHelpers} := {
  features : jsobject (FourwingsFeature num);
  materialized : list (option Z)
}.

Arguments DecodeState num {_}.

(** The constants of one call, as destructured and computed in lines 29-63. *)
Record Constants {num} `{CellHelpers} := {
  k_cfg : IntervalConfig;            (* CONFIG_BY_INTERVAL[interval] *)
  k_sublayers : Z;
  k_aggregationOperation : string;
  k_scale : num;
  k_offset : num;
  k_noDataValue : Z;
  k_tile : Tile;
  k_cols : Z;
  k_rows : Z;
  k_tileStartFrame : Z;
  k_timeRangeStartFrame : Z;
  k_timeRangeEndFrame : Z;
  k_timeRangeKey : string;
  k_tileBBox : BBox;
  k_sublayersLength : nat
}.

Arguments Constants num {_}.

Section Assembler.
Context {num : Type} `{JSNumber num} `{CellHelpers}.
Variable K : Constants num.

Local Abbreviation cfg := (k_cfg K).
Local Abbreviation sublayers := (k_sublayers K).
Local Abbreviation aggregationOperation := (k_aggregationOperation K).
Local Abbreviation scale := (k_scale K).
Local Abbreviation offset := (k_offset K).
Local Abbreviation noDataValue := (k_noDataValue K).
Local Abbreviation tile := (k_tile K).
Local Abbreviation cols := (k_cols K).
Local Abbreviation rows := (k_rows K).
Local Abbreviation tileStartFrame := (k_tileStartFrame K).
Local Abbreviation timeRangeStartFrame := (k_timeRangeStartFrame K).
Local Abbreviation timeRangeEndFrame := (k_timeRangeEndFrame K).
Local Abbreviation timeRangeKey := (k_timeRangeKey K).
Local Abbreviation tileBBox := (k_tileBBox K).
Local Abbreviation sublayersLength := (k_sublayersLength K).


Definition set_sublayer (p : FeatureProperties num) (vs : jsarray (jsarray num))
    (ds : jsarray (jsarray Z)) (so : jsarray Z) (iv : jsarray num)
    : FeatureProperties num :=
  {| col := col p; row := row p; values := vs; dates := ds;
     cellId := cellId p; cellNum := cellNum p; startOffsets := so;
     initialValues := ((initialValues p).1, iv) |}.

(** Lines 93-119: the feature created for a cell number that has none. *)
Definition newFeature (cellNum : option Z) : FourwingsFeature num :=
  let '(col, row) := getCellProperties tileBBox cellNum cols in
  {| type := "Feature";
     geometry := {| geometry_type := "Polygon";
                    coordinates :=
                      [getCellCoordinates cellNum cols rows tileBBox] |};
     properties :=
       {| col := col; row := row;
          values := replicate sublayersLength None;
          dates := replicate sublayersLength None;
          cellId := generateUniqueId (x (index tile)) (y (index tile)) cellNum;
          cellNum := cellNum;
          startOffsets := replicate sublayersLength None;
          initialValues := (timeRangeKey, replicate sublayersLength None) |} |}.

Definition addFeature (cellNum : option Z) (st : DecodeState num)
    : DecodeState num :=
  match obj_get (features st) cellNum with
  | Some _ => st
  | None =>
      {| features := obj_set (features st) cellNum (newFeature cellNum);
         materialized := materialized st ++ [cellNum] |}
  end.

(** Lines 124-137: the properties of the sublayer, created at its first
    value. *)
Definition initSublayer (subLayerIndex numCellValues startFrame : Z)
    (p : FeatureProperties num) : outcome (FeatureProperties num) :=
  match array_get (values p) subLayerIndex with
  | Some _ => Returns p
  | None =>
      let* vs := new_Array numCellValues in
      let* ds := new_Array numCellValues in
      Returns (set_sublayer p
        (array_set (values p) subLayerIndex vs)
        (array_set (dates p) subLayerIndex ds)
        (array_set (startOffsets p) subLayerIndex startFrame)
        (array_set (initialValues p).2 subLayerIndex (of_int 0)))
  end.

(** [a[s][i] = v]; assigning into [a[s]] when it is [undefined] is a
    [TypeError]. *)
Definition array_set2 {A} (a : jsarray (jsarray A)) (s i : Z) (v : A)
    : outcome (jsarray (jsarray A)) :=
  match array_get a s with
  | Some inner => Returns (array_set a s (array_set inner i v))
  | None => Throws TypeError
  end.

(** [cellValue * scale - offset] *)
Definition transform (cellValue : option Z) : num :=
  js_sub (js_mul (to_number (of_int <$> cellValue)) scale) offset.

(** [cellValue !== noDataValue] *)
Definition is_data (cellValue : option Z) : bool :=
  match cellValue with
  | Some v => negb (v =? noDataValue)
  | None => true
  end.

Definition in_time_range (frame : Z) : bool :=
  (timeRangeStartFrame <=? frame) && (frame <? timeRangeEndFrame).

(** Lines 122-160: the body of the loop over [j]. The state is the
    properties of [features[cellNum]] and [numValuesBySubLayer], whose index
    [subLayerIndex] is below its length [sublayersLength]. *)
Definition cellValueStep (subLayerIntArray : FourwingsRawData)
    (subLayerIndex startFrame startIndex numCellValues : Z) (j : Z)
    (acc : FeatureProperties num * list Z)
    : outcome (FeatureProperties num * list Z) :=
  let '(p, numValuesBySubLayer) := acc in
  let cellValue := js_index subLayerIntArray (j + startIndex) in
  if is_data cellValue then
    let* p := initSublayer subLayerIndex numCellValues startFrame p in
    let* vs := array_set2 (values p) subLayerIndex (j / sublayers)
                 (transform cellValue) in
    let* ds := array_set2 (dates p) subLayerIndex (j / sublayers)
                 (getIntervalTimestamp cfg (startFrame + tileStartFrame + j)) in
    let p := set_sublayer p vs ds (startOffsets p) (initialValues p).2 in
    if in_time_range (j + startFrame) then
      let iv := (initialValues p).2 in
      Returns
        (set_sublayer p (values p) (dates p) (startOffsets p)
           (array_set iv subLayerIndex
              (js_add (to_number (array_get iv subLayerIndex))
                      (transform cellValue))),
         <[Z.to_nat subLayerIndex :=
             numValuesBySubLayer !!! Z.to_nat subLayerIndex + 1]>
           numValuesBySubLayer)
    else Returns (p, numValuesBySubLayer)
  else Returns acc.

(** [for (let j = ...; j < numCellValues; j++)], with [n] iterations left. *)
Fixpoint cellValuesLoop (subLayerIntArray : FourwingsRawData)
    (subLayerIndex startFrame startIndex numCellValues : Z)
    (n : nat) (j : Z) (acc : FeatureProperties num * list Z)
    : outcome (FeatureProperties num * list Z) :=
  match n with
  | O => Returns acc
  | S n' =>
      let* acc := cellValueStep subLayerIntArray subLayerIndex startFrame
                    startIndex numCellValues j acc in
      cellValuesLoop subLayerIntArray subLayerIndex startFrame startIndex
        numCellValues n' (j + 1) acc
  end.

(** Lines 162-169 *)
Definition aggregate (subLayerIndex : Z)
    (acc : FeatureProperties num * list Z) : FeatureProperties num :=
  let '(p, numValuesBySubLayer) := acc in
  if String.eqb aggregationOperation "avg" then
    let iv := (initialValues p).2 in
    set_sublayer p (values p) (dates p) (startOffsets p)
      (array_set iv subLayerIndex
         (js_div (to_number (array_get iv subLayerIndex))
            (of_int (numValuesBySubLayer !!! Z.to_nat subLayerIndex))))
  else p.

Definition set_properties (f : FourwingsFeature num)
    (p : FeatureProperties num) : FourwingsFeature num :=
  {| type := type f; geometry := geometry f; properties := p |}.

(** Lines 86-173: the branch taken at the end-frame token, from the
    computation of [numCellValues] to the new value of [i]. [None] for the new
    [i] is [NaN]. *)
Definition processCell (subLayerIntArray : FourwingsRawData)
    (subLayerIndex : Z) (cellNum startFrame endFrame : option Z)
    (startIndex : Z) (st : DecodeState num)
    : outcome (option Z * DecodeState num) :=
  let numCellValues :=
    s ← startFrame; e ← endFrame; Some ((e - s + 1) * sublayers) in
  let numValuesBySubLayer := replicate sublayersLength 0 in
  let st := addFeature cellNum st in
  match obj_get (features st) cellNum with
  | None => Throws TypeError
  | Some f =>
      let* acc :=
        match numCellValues, startFrame with
        | Some n, Some s =>
            cellValuesLoop subLayerIntArray subLayerIndex s startIndex n
              (Z.to_nat n) 0 (properties f, numValuesBySubLayer)
        | _, _ => Returns (properties f, numValuesBySubLayer)
        end in
      let p := aggregate subLayerIndex acc in
      Returns
        ((fun n => startIndex + n - 1) <$> numCellValues,
         {| features := obj_set (features st) cellNum (set_properties f p);
            materialized := materialized st |})
  end.

(** Lines 76-175: the body of the loop over [i]; the result carries the value
    of [i] at the end of the body. *)
Definition scanStep (subLayerIntArray : FourwingsRawData) (subLayerIndex : Z)
    (i : Z) (v : ScanVars) (st : DecodeState num)
    : outcome (option Z * ScanVars * DecodeState num) :=
  let value := js_index subLayerIntArray i in
  if v_indexInCell v =? CELL_NUM_INDEX then
    Returns (Some i,
      {| v_cellNum := value; v_startFrame := v_startFrame v;
         v_endFrame := v_endFrame v;
         v_startIndex := i + CELL_VALUES_START_INDEX;
         v_indexInCell := v_indexInCell v + 1 |}, st)
  else if v_indexInCell v =? CELL_START_INDEX then
    Returns (Some i,
      {| v_cellNum := v_cellNum v;
         v_startFrame := (fun x => x - tileStartFrame) <$> value;
         v_endFrame := v_endFrame v; v_startIndex := v_startIndex v;
         v_indexInCell := v_indexInCell v + 1 |}, st)
  else if v_indexInCell v =? CELL_END_INDEX then
    let endFrame := (fun x => x - tileStartFrame) <$> value in
    let* (i', st') :=
      processCell subLayerIntArray subLayerIndex (v_cellNum v)
        (v_startFrame v) endFrame (v_startIndex v) st in
    Returns (i',
      {| v_cellNum := v_cellNum v; v_startFrame := v_startFrame v;
         v_endFrame := endFrame; v_startIndex := v_startIndex v;
         v_indexInCell := -1 + 1 |}, st')
  else
    Returns (Some i,
      {| v_cellNum := v_cellNum v; v_startFrame := v_startFrame v;
         v_endFrame := v_endFrame v; v_startIndex := v_startIndex v;
         v_indexInCell := v_indexInCell v + 1 |}, st).

(** [for (let i = ...; i < subLayerIntArray.length; i++)]. The body may move
    [i] backwards, so the loop is bounded by [fuel] iterations. *)
Fixpoint scanLoop (fuel : nat) (subLayerIntArray : FourwingsRawData)
    (subLayerIndex : Z) (i : Z) (v : ScanVars) (st : DecodeState num)
    : outcome (DecodeState num) :=
  match fuel with
  | O => OutOfFuel
  | S fuel' =>
      if i <? Z.of_nat (length subLayerIntArray) then
        let* (i', v', st') := scanStep subLayerIntArray subLayerIndex i v st in
        match i' with
        | Some i' =>
            scanLoop fuel' subLayerIntArray subLayerIndex (i' + 1) v' st'
        | None => Returns st'
        end
      else Returns st
  end.

Definition initialScanVars : ScanVars :=
  {| v_cellNum := Some 0; v_startFrame := Some 0; v_endFrame := Some 0;
     v_startIndex := 0; v_indexInCell := 0 |}.

(** Lines 64-177: the loop over the sublayers, [rest] being
    [intArrays] from [subLayerIndex] on. Reading [length] of an [undefined]
    entry is a [TypeError]. *)
Fixpoint sublayersLoop (fuel : nat) (rest : list (option FourwingsRawData))
    (subLayerIndex : Z) (st : DecodeState num) : outcome (DecodeState num) :=
  match rest with
  | [] => Returns st
  | None :: _ => Throws TypeError
  | Some subLayerIntArray :: rest' =>
      let* st := scanLoop fuel subLayerIntArray subLayerIndex 0
                   initialScanVars st in
      sublayersLoop fuel rest' (subLayerIndex + 1) st
  end.

End Assembler.

Section Decoder.
Context {num : Type} `{JSNumber num} `{CellHelpers} `{TimeHelpers} `{PbfLibrary}.

(** Lines 29-63: the constants of the call, for options that have a time
    range, a known interval and a tile. *)
Definition callConstants (o : ParseFourwingsOptions num) (range : TimeRange)
    (cfg : IntervalConfig) (t : Tile) (sublayersLength : nat)
    : Constants num :=
  let tileStartFrame := getIntervalFrame cfg (bufferedStartDate o) in
  let timeRangeStartFrame :=
    getIntervalFrame cfg (start range) - tileStartFrame in
  let timeRangeEndFrame :=
    getIntervalFrame cfg (end_ range) - tileStartFrame in
  {| k_cfg := cfg;
     k_sublayers := sublayers o;
     k_aggregationOperation := default "sum"%string (aggregationOperation o);
     k_scale := default (of_int SCALE_VALUE) (scale o);
     k_offset := default (of_int OFFSET_VALUE) (offset o);
     k_noDataValue := default NO_DATA_VALUE (noDataValue o);
     k_tile := t;
     k_cols := cols o;
     k_rows := rows o;
     k_tileStartFrame := tileStartFrame;
     k_timeRangeStartFrame := timeRangeStartFrame;
     k_timeRangeEndFrame := timeRangeEndFrame;
     k_timeRangeKey := getTimeRangeKey timeRangeStartFrame timeRangeEndFrame;
     k_tileBBox :=
       (west (bbox t), south (bbox t), east (bbox t), north (bbox t));
     k_sublayersLength := sublayersLength |}.

Definition emptyState : DecodeState num :=
  {| features := []; materialized := [] |}.

(** Lines 25-180. [options?.fourwings || {}] leaves every destructured name
    [undefined] when the options are missing; a missing interval configuration
    or tile is a [TypeError] at its first property access. *)
Definition getCellTimeseries (fuel : nat)
    (intArrays : list (option FourwingsRawData))
    (options : option (FourwingsLoaderOptions num))
    : outcome (list (FourwingsFeature num)) :=
  match options ≫= fourwings with
  | None => Returns []
  | Some o =>
      match initialTimeRange o with
      | None => Returns []
      | Some range =>
          match CONFIG_BY_INTERVAL (interval o) with
          | None => Throws TypeError
          | Some cfg =>
              match tile o with
              | None => Throws TypeError
              | Some t =>
                  let* st :=
                    sublayersLoop
                      (callConstants o range cfg t (length intArrays))
                      fuel intArrays 0 emptyState in
                  Returns (Object_values (features st))
              end
          end
      end
  end.

(** [buffer.slice(begin, end)] of an [ArrayBuffer]; [None] is an [undefined]
    end. *)
Definition ArrayBuffer_slice (buffer : list Byte.byte) (begin : Z)
    (end' : option Z) : list Byte.byte :=
  let len := Z.of_nat (length buffer) in
  let relative (k : Z) := if k <? 0 then Z.max (len + k) 0 else Z.min k len in
  let first := relative begin in
  let final := from_option relative len end' in
  take (Z.to_nat (Z.max (final - first) 0)) (drop (Z.to_nat first) buffer).

(** Lines 196-206: [buffersLength.map(...)], [rest] being the lengths from
    position [index] on and [start] the running offset. *)
Fixpoint readBuffers (datasetsBuffer : list Byte.byte) (buffersLength : list Z)
    (rest : list Z) (index : nat) (start : Z)
    : outcome (list (option FourwingsRawData)) :=
  match rest with
  | [] => Returns []
  | length_ :: rest' =>
      if length_ =? 0 then
        let* tl := readBuffers datasetsBuffer buffersLength rest' (S index)
                     start in
        Returns (Some [] :: tl)
      else
        let buffer :=
          ArrayBuffer_slice datasetsBuffer start
            (if decide (index ≠ length buffersLength)
             then Some (start + length_) else None) in
        let* fields := readFields_readData buffer in
        let* tl := readBuffers datasetsBuffer buffersLength rest' (S index)
                     (start + length_) in
        Returns (fields !! 0%nat :: tl)
  end.

(** Lines 186-209 *)
Definition parseFourwings (fuel : nat) (datasetsBuffer : list Byte.byte)
    (options : option (FourwingsLoaderOptions num))
    : outcome (list (FourwingsFeature num)) :=
  match (options ≫= fourwings) ≫= buffersLength with
  | None | Some [] => Returns []
  | Some lengths =>
      let* intArrays := readBuffers datasetsBuffer lengths lengths 0 0 in
      getCellTimeseries fuel intArrays options
  end.

End Decoder.


(** * Specification vocabulary *)

(** ** The entries of one sublayer in a feature

    [values[s]], [dates[s]], [startOffsets[s]] and
    [initialValues[timeRangeKey][s]] of the properties of a feature. *)

Record SublayerView {num} := {
  view_values : option (jsarray num);
  view_dates : option (jsarray Z);
  view_startOffset : option Z;
  view_initialValue : option num
}.

Arguments SublayerView num : clear implicits.

Definition view {num} (p : FeatureProperties num) (s : Z) : SublayerView num :=
  {| view_values := array_get (values p) s;
     view_dates := array_get (dates p) s;
     view_startOffset := array_get (startOffsets p) s;
     view_initialValue := array_get (initialValues p).2 s |}.

Definition unset {num} : SublayerView num :=
  {| view_values := None; view_dates := None;
     view_startOffset := None; view_initialValue := None |}.

(** [p'] differs from [p] in the entries of sublayer [s] at most. *)
Definition same_except {num} (s : Z) (p p' : FeatureProperties num) : Prop :=
  col p' = col p /\ row p' = row p /\ cellId p' = cellId p /\
  cellNum p' = cellNum p /\ (initialValues p').1 = (initialValues p).1 /\
  length (values p') = length (values p) /\
  length (dates p') = length (dates p) /\
  length (startOffsets p') = length (startOffsets p) /\
  length (initialValues p').2 = length (initialValues p).2 /\
  forall s', s' <> s -> view p' s' = view p s'.

(** The four arrays of a feature have one slot per sublayer, and [dates[s]]
    exists whenever [values[s]] does. *)
Definition well_formed {num} (n : nat) (p : FeatureProperties num) : Prop :=
  length (values p) = n /\ length (dates p) = n /\
  length (startOffsets p) = n /\ length (initialValues p).2 = n /\
  forall s, is_Some (array_get (values p) s) -> is_Some (array_get (dates p) s).

(** [f] and [g] agree on everything but their per-sublayer arrays. *)
Definition same_cell {num} `{CellHelpers} (f g : FourwingsFeature num) : Prop :=
  type f = type g /\ geometry f = geometry g /\
  col (properties f) = col (properties g) /\
  row (properties f) = row (properties g) /\
  cellId (properties f) = cellId (properties g) /\
  cellNum (properties f) = cellNum (properties g) /\
  (initialValues (properties f)).1 = (initialValues (properties g)).1.

(** ** Cell records

    The grammar of a sublayer stream: a record is its cell number, its first
    and last frame and its values. *)

Record CellRecord := {
  rec_cellNum : Z;
  rec_startFrame : Z;
  rec_endFrame : Z;
  rec_values : list Z
}.

Definition encode (r : CellRecord) : FourwingsRawData :=
  rec_cellNum r :: rec_startFrame r :: rec_endFrame r :: rec_values r.

Definition stream_of (rs : list CellRecord) : FourwingsRawData :=
  rs ≫= encode.

(** The number of values a record declares, and a record that holds exactly
    that many. *)
Definition declared_values (bandsPerFrame : Z) (r : CellRecord) : Z :=
  (rec_endFrame r - rec_startFrame r + 1) * bandsPerFrame.

Definition whole (bandsPerFrame : Z) (r : CellRecord) : Prop :=
  Z.of_nat (length (rec_values r)) = declared_values bandsPerFrame r.

Definition well_sized (bandsPerFrame : Z) (r : CellRecord) : Prop :=
  declared_values bandsPerFrame r <= MAX_ARRAY_LENGTH.

(** The record read from the tokens that follow the last whole record of a
    stream, when they hold its three leading tokens. *)
Definition tail_records (tl : FourwingsRawData) : list CellRecord :=
  match tl with
  | c :: s :: e :: vals =>
      [{| rec_cellNum := c; rec_startFrame := s; rec_endFrame := e;
          rec_values := vals |}]
  | _ => []
  end.

(** Such tokens hold no more values than their record declares. *)
Definition tail_ok (bandsPerFrame : Z) (tl : FourwingsRawData) : Prop :=
  Forall (fun r => Z.of_nat (length (rec_values r))
                     <= declared_values bandsPerFrame r) (tail_records tl).

(** A proper prefix of the encoding of a whole record. *)
Definition truncated (bandsPerFrame : Z) (tl : FourwingsRawData) : Prop :=
  exists r (n : nat),
    whole bandsPerFrame r /\ well_sized bandsPerFrame r /\
    (n < length (encode r))%nat /\ tl = take n (encode r).

(** A stream that is a concatenation of whole records. *)
Definition aligned (bandsPerFrame : Z) (arr : FourwingsRawData) : Prop :=
  exists rs, Forall (whole bandsPerFrame) rs /\ arr = stream_of rs.

(** The tokens of a stream taken three at a time, and the tokens left. *)
Fixpoint triples (arr : FourwingsRawData) : list CellRecord * FourwingsRawData :=
  match arr with
  | c :: s :: e :: arr' =>
      ({| rec_cellNum := c; rec_startFrame := s; rec_endFrame := e;
          rec_values := [] |} :: (triples arr').1, (triples arr').2)
  | _ => ([], arr)
  end.

(** [r] is the one record of its cell among [rs]. *)
Definition only_record (rs : list CellRecord) (r : CellRecord) : Prop :=
  exists rs1 rs2, rs = rs1 ++ r :: rs2 /\
    (rec_cellNum r ∉ rec_cellNum <$> rs1) /\
    (rec_cellNum r ∉ rec_cellNum <$> rs2).

(** The cell numbers in [cells] appended to [seen] in order, each at its
    first occurrence only. *)
Definition first_seen (seen : list jskey) (cells : list Z) : list jskey :=
  fold_left (fun acc c => if decide (Some c ∈ acc) then acc else acc ++ [Some c])
    cells seen.

Section ViewSemantics.
Context {num : Type} `{JSNumber num} `{CellHelpers}.
Variable K : Constants num.

Local Abbreviation cfg := (k_cfg K).
Local Abbreviation sublayers := (k_sublayers K).
Local Abbreviation tileStartFrame := (k_tileStartFrame K).

(** The effect of lines 124-137 on the entries of the sublayer. *)
Definition view_init (numCellValues startFrame : Z) (w : SublayerView num)
    : SublayerView num :=
  match view_values w with
  | Some _ => w
  | None =>
      {| view_values := Some (replicate (Z.to_nat numCellValues) None);
         view_dates := Some (replicate (Z.to_nat numCellValues) None);
         view_startOffset := Some startFrame;
         view_initialValue := Some (of_int 0) |}
  end.

(** The effect of one iteration of the loop over [j] on the entries of the
    sublayer and on its counter of samples in the time range. *)
Definition view_step (subLayerIntArray : FourwingsRawData)
    (startFrame startIndex numCellValues : Z) (j : Z)
    (wc : SublayerView num * Z) : SublayerView num * Z :=
  let cellValue := js_index subLayerIntArray (j + startIndex) in
  if is_data K cellValue then
    let w := view_init numCellValues startFrame wc.1 in
    let vs := (fun a => array_set a (j / sublayers) (transform K cellValue))
                <$> view_values w in
    let ds := (fun a => array_set a (j / sublayers)
                 (getIntervalTimestamp cfg (startFrame + tileStartFrame + j)))
                <$> view_dates w in
    if in_time_range K (j + startFrame) then
      ({| view_values := vs; view_dates := ds;
          view_startOffset := view_startOffset w;
          view_initialValue :=
            Some (js_add (to_number (view_initialValue w))
                    (transform K cellValue)) |},
       wc.2 + 1)
    else
      ({| view_values := vs; view_dates := ds;
          view_startOffset := view_startOffset w;
          view_initialValue := view_initialValue w |}, wc.2)
  else wc.

Fixpoint view_loop (subLayerIntArray : FourwingsRawData)
    (startFrame startIndex numCellValues : Z) (n : nat) (j : Z)
    (wc : SublayerView num * Z) : SublayerView num * Z :=
  match n with
  | O => wc
  | S n' =>
      view_loop subLayerIntArray startFrame startIndex numCellValues n' (j + 1)
        (view_step subLayerIntArray startFrame startIndex numCellValues j wc)
  end.

(** *** Closed forms for a record written into a sublayer that has no
    entries yet *)

(** The positions [j] of [[0, numCellValues)] whose value is not the
    sentinel. *)
Definition data_positions (subLayerIntArray : FourwingsRawData)
    (startIndex numCellValues : Z) : list Z :=
  filter (fun j => is_data K (js_index subLayerIntArray (j + startIndex)) = true)
    (seqZ 0 numCellValues).

(** The dense arrays after the values at the positions [js] were stored, in
    order. *)
Definition stored_values (subLayerIntArray : FourwingsRawData)
    (startIndex : Z) (js : list Z) (a : jsarray num) : jsarray num :=
  fold_left (fun a j => array_set a (j / sublayers)
               (transform K (js_index subLayerIntArray (j + startIndex)))) js a.

Definition stored_dates (startFrame : Z) (js : list Z) (d : jsarray Z)
    : jsarray Z :=
  fold_left (fun d j => array_set d (j / sublayers)
               (getIntervalTimestamp cfg (startFrame + tileStartFrame + j))) js d.

(** The sum of the transformed values at the positions [js], added in
    order to [acc]. *)
Definition accumulated (subLayerIntArray : FourwingsRawData) (startIndex : Z)
    (js : list Z) (acc : num) : num :=
  fold_left (fun acc j =>
               js_add acc (transform K (js_index subLayerIntArray (j + startIndex))))
    js acc.

(** The positions among [js] that the code counts in the time range. *)
Definition counted (startFrame : Z) (js : list Z) : list Z :=
  filter (fun j => in_time_range K (j + startFrame) = true) js.

(** The entries of a sublayer after the first record with data positions [js]
    (not empty) was written. *)
Definition written (subLayerIntArray : FourwingsRawData)
    (startFrame startIndex numCellValues : Z) (js : list Z)
    : SublayerView num * Z :=
  ({| view_values :=
        Some (stored_values subLayerIntArray startIndex js
                (replicate (Z.to_nat numCellValues) None));
      view_dates :=
        Some (stored_dates startFrame js
                (replicate (Z.to_nat numCellValues) None));
      view_startOffset := Some startFrame;
      view_initialValue :=
        Some (accumulated subLayerIntArray startIndex (counted startFrame js)
                (of_int 0)) |},
   Z.of_nat (length (counted startFrame js))).

(** Line 89, [NaN] being [None]. *)
Definition numCellValues_of (startFrame endFrame : option Z) : option Z :=
  s ← startFrame; e ← endFrame; Some ((e - s + 1) * sublayers).

(** The effect of lines 162-169. *)
Definition view_aggregate (wc : SublayerView num * Z) : SublayerView num :=
  if String.eqb (k_aggregationOperation K) "avg" then
    {| view_values := view_values wc.1; view_dates := view_dates wc.1;
       view_startOffset := view_startOffset wc.1;
       view_initialValue :=
         Some (js_div (to_number (view_initialValue wc.1)) (of_int wc.2)) |}
  else wc.1.

(** The effect of [processCell] on the entries of its sublayer in the feature
    of its cell. *)
Definition view_cell (subLayerIntArray : FourwingsRawData)
    (startFrame endFrame : option Z) (startIndex : Z) (w : SublayerView num)
    : SublayerView num :=
  view_aggregate
    match startFrame, endFrame with
    | Some s, Some e =>
        let numCellValues := (e - s + 1) * sublayers in
        view_loop subLayerIntArray s startIndex numCellValues
          (Z.to_nat numCellValues) 0 (w, 0)
    | _, _ => (w, 0)
    end.

(** The properties [processCell] starts from: those of the feature of the
    cell, or of the feature it creates. *)
Definition prior_properties (st : DecodeState num) (cellNum : option Z)
    : FeatureProperties num :=
  match obj_get (features st) cellNum with
  | Some f => properties f
  | None => properties (newFeature K cellNum)
  end.

(** The invariant of the decoding state: one property per cell number, the
    helpers called once for each, in the order of creation; every feature
    well formed and as created, apart from its per-sublayer arrays. *)
Definition state_ok (st : DecodeState num) : Prop :=
  NoDup (features st).*1 /\
  materialized st = (features st).*1 /\
  forall c f, obj_get (features st) c = Some f ->
    well_formed (k_sublayersLength K) (properties f) /\
    same_cell f (newFeature K c).

(** [processCell] at the record [r] whose first token is at [pos]. *)
Definition processRecord (subLayerIntArray : FourwingsRawData)
    (subLayerIndex pos : Z) (r : CellRecord) (st : DecodeState num)
    : outcome (option Z * DecodeState num) :=
  processCell K subLayerIntArray subLayerIndex (Some (rec_cellNum r))
    (Some (rec_startFrame r - tileStartFrame))
    (Some (rec_endFrame r - tileStartFrame))
    (pos + CELL_VALUES_START_INDEX) st.

(** The records [rs] processed in order, the first starting at [pos]. *)
Fixpoint processRecords (subLayerIntArray : FourwingsRawData)
    (subLayerIndex pos : Z) (rs : list CellRecord) (st : DecodeState num)
    : outcome (DecodeState num) :=
  match rs with
  | [] => Returns st
  | r :: rs' =>
      let* (_, st') := processRecord subLayerIntArray subLayerIndex pos r st in
      processRecords subLayerIntArray subLayerIndex
        (pos + Z.of_nat (length (encode r))) rs' st'
  end.

(** The sublayers processed in order, the first with index
    [subLayerIndex]; each is a stream and the records read from it. *)
Fixpoint processSublayers
    (streams : list (FourwingsRawData * list CellRecord)) (subLayerIndex : Z)
    (st : DecodeState num) : outcome (DecodeState num) :=
  match streams with
  | [] => Returns st
  | (arr, rs) :: streams' =>
      let* st' := processRecords arr subLayerIndex 0 rs st in
      processSublayers streams' (subLayerIndex + 1) st'
  end.

(** The entries of a sublayer in the feature of cell [c] after the records
    [rs] of the stream of that sublayer, which start at [pos]: only the
    records of [c] count. *)
Fixpoint cell_view_at (subLayerIntArray : FourwingsRawData) (pos : Z)
    (rs : list CellRecord) (c : Z) (w : SublayerView num) : SublayerView num :=
  match rs with
  | [] => w
  | r :: rs' =>
      cell_view_at subLayerIntArray (pos + Z.of_nat (length (encode r))) rs' c
        (if decide (rec_cellNum r = c)
         then view_cell subLayerIntArray
                (Some (rec_startFrame r - tileStartFrame))
                (Some (rec_endFrame r - tileStartFrame))
                (pos + CELL_VALUES_START_INDEX) w
         else w)
  end.

(** The effect of a whole record on the entries of its sublayer, read off
    the record. *)
Definition record_view (r : CellRecord) (w : SublayerView num)
    : SublayerView num :=
  view_cell (rec_values r) (Some (rec_startFrame r - tileStartFrame))
    (Some (rec_endFrame r - tileStartFrame)) 0 w.

(** The positions of a record that hold data, and those counted in the time
    range. *)
Definition record_data (r : CellRecord) : list Z :=
  data_positions (rec_values r) 0 (declared_values sublayers r).

Definition record_counted (r : CellRecord) : list Z :=
  counted (rec_startFrame r - tileStartFrame) (record_data r).

(** Following the spec: the data positions whose frame
    [startFrame + floor(j / bandsPerFrame)] lies in the time range. *)
Definition claimed_counted (r : CellRecord) : list Z :=
  filter (fun j => in_time_range K
                     (rec_startFrame r - tileStartFrame + j / sublayers) = true)
    (record_data r).

(** The entries of a sublayer in the feature of cell [c], given the records
    of the stream of that sublayer. *)
Definition cell_view (rs : list CellRecord) (c : Z) : SublayerView num :=
  fold_left (fun w r => record_view r w)
    (filter (fun r => rec_cellNum r = c) rs) unset.

End ViewSemantics.

(** The cell numbers of a sequence of features, in order. *)
Definition cellNums {num} `{CellHelpers} (fs : list (FourwingsFeature num))
    : list (option Z) :=
  (fun f => cellNum (properties f)) <$> fs.

(** ** Inputs of [getCellTimeseries] *)

Section Inputs.
Context {num : Type} `{JSNumber num} `{CellHelpers} `{TimeHelpers}.

(** Options that hold a time range, an interval of the configuration table
    and a tile. *)
Definition configured (options : option (FourwingsLoaderOptions num))
    (o : ParseFourwingsOptions num) (range : TimeRange)
    (cfg : IntervalConfig) (t : Tile) : Prop :=
  options ≫= fourwings = Some o /\ initialTimeRange o = Some range /\
  CONFIG_BY_INTERVAL (interval o) = Some cfg /\ tile o = Some t.

(** One stream per sublayer, each the encoding of a list of records. *)
Definition intArrays_of (rss : list (list CellRecord))
    : list (option FourwingsRawData) :=
  (fun rs => Some (stream_of rs)) <$> rss.

(** Streams of whole records; the arrays are no longer than a JavaScript
    array can be. *)
Definition valid_input (bandsPerFrame : Z) (rss : list (list CellRecord))
    : Prop :=
  Z.of_nat (length rss) <= MAX_ARRAY_LENGTH /\
  Forall (fun rs => Forall (whole bandsPerFrame) rs /\
                    Z.of_nat (length (stream_of rs)) <= MAX_ARRAY_LENGTH) rss.

(** Streams given by their whole records and the tokens that follow
    them. *)
Definition parsed_arrays (streams : list (list CellRecord * FourwingsRawData))
    : list (option FourwingsRawData) :=
  (fun s => Some (stream_of s.1 ++ s.2)) <$> streams.

Definition parsed_records (s : list CellRecord * FourwingsRawData)
    : list CellRecord :=
  s.1 ++ tail_records s.2.

Definition parsed_input (bandsPerFrame : Z) (fuel : nat)
    (streams : list (list CellRecord * FourwingsRawData)) : Prop :=
  Z.of_nat (length streams) <= MAX_ARRAY_LENGTH /\
  Forall (fun s => Forall (whole bandsPerFrame) s.1 /\
                   tail_ok bandsPerFrame s.2 /\
                   Forall (well_sized bandsPerFrame) (parsed_records s) /\
                   (length (stream_of s.1 ++ s.2) < fuel)%nat) streams.

(** Fuel for the scan of every stream. *)
Definition enough_fuel (fuel : nat) (rss : list (list CellRecord)) : Prop :=
  Forall (fun rs => (length (stream_of rs) < fuel)%nat) rss.

End Inputs.

(** ** An instance for evaluation

    Exact arithmetic on the rationals extended with the infinities and [NaN]
    (rounding and the sign of zero are left out), an hourly time
    configuration, and cell helpers that record their arguments. *)

Module Sample.

Inductive qnum := Fin (q : Q) | Inf (negative : bool) | Nan.

Definition Qneg (q : Q) : bool := (Qnum q <? 0)%Z.
Definition Qzero (q : Q) : bool := (Qnum q =? 0)%Z.

Definition qadd (a b : qnum) : qnum :=
  match a, b with
  | Fin p, Fin q => Fin (Qred (p + q))
  | Fin _, Inf s | Inf s, Fin _ => Inf s
  | Inf s, Inf t => if Bool.eqb s t then Inf s else Nan
  | _, _ => Nan
  end.

Definition qopp (a : qnum) : qnum :=
  match a with
  | Fin p => Fin (Qred (- p))
  | Inf s => Inf (negb s)
  | Nan => Nan
  end.

Definition qsub (a b : qnum) : qnum := qadd a (qopp b).

Definition qmul (a b : qnum) : qnum :=
  match a, b with
  | Fin p, Fin q => Fin (Qred (p * q))
  | Fin p, Inf s | Inf s, Fin p =>
      if Qzero p then Nan else Inf (xorb s (Qneg p))
  | Inf s, Inf t => Inf (xorb s t)
  | _, _ => Nan
  end.

Definition qdiv (a b : qnum) : qnum :=
  match a, b with
  | Fin p, Fin q =>
      if Qzero q then (if Qzero p then Nan else Inf (Qneg p))
      else Fin (Qred (p / q))
  | Fin _, Inf _ => Fin 0
  | Inf s, Fin q => Inf (xorb s (Qneg q))
  | _, _ => Nan
  end.

#[export] Instance qnum_number : JSNumber qnum :=
  {| of_int := fun z => Fin (inject_Z z); NaN := Nan;
     js_add := qadd; js_sub := qsub; js_mul := qmul; js_div := qdiv |}.

Definition HOUR : IntervalConfig :=
  {| getIntervalFrame := fun t => t / 3600000;
     getIntervalTimestamp := fun f => f * 3600000 |}.

#[export] Instance time_helpers : TimeHelpers :=
  {| CONFIG_BY_INTERVAL := fun k => if String.eqb k "HOUR" then Some HOUR else None;
     getTimeRangeKey := fun s e => String.append (pretty s) (String.append "-" (pretty e)) |}.

#[export] Instance cell_helpers : CellHelpers :=
  {| coord := Z;
     ring := option Z * Z * Z;
     getCellProperties := fun _ cellNum cols =>
       (default 0 cellNum `mod` cols, default 0 cellNum / cols);
     getCellCoordinates := fun cellNum cols rows _ => (cellNum, cols, rows);
     generateUniqueId := fun x y cellNum => (x * 1000 + y) * 1000000 + default 0 cellNum |}.

(** A reader that fails on every buffer: the examples do not go through
    [pbf]. *)
#[export] Instance no_pbf : PbfLibrary :=
  {| readFields_readData := fun _ => Throws LibraryError |}.

Definition sampleTile : Tile :=
  {| bbox := {| west := 0; south := 0; east := 10; north := 10 |};
     index := {| x := 1; y := 2 |} |}.

(** Options with tile start frame 0 and the time range of frames
    [[rangeStart, rangeEnd)]. *)
Definition sampleRange (rangeStart rangeEnd : Z) : TimeRange :=
  {| start := rangeStart * 3600000; end_ := rangeEnd * 3600000 |}.

Definition sampleParse (bands rangeStart rangeEnd : Z)
    (aggregation : option string) : ParseFourwingsOptions qnum :=
  {| bufferedStartDate := 0; interval := "HOUR"; sublayers := bands;
     initialTimeRange := Some (sampleRange rangeStart rangeEnd);
     aggregationOperation := aggregation;
     scale := None; offset := None; noDataValue := None;
     tile := Some sampleTile; cols := 10; rows := 10;
     buffersLength := None |}.

Definition sampleOptions (bands rangeStart rangeEnd : Z)
    (aggregation : option string) : option (FourwingsLoaderOptions qnum) :=
  Some {| fourwings := Some (sampleParse bands rangeStart rangeEnd aggregation) |}.

(** Options without a time range, for a buffer without bytes. *)
Definition noRangeOptions : option (FourwingsLoaderOptions qnum) :=
  Some {| fourwings := Some
    {| bufferedStartDate := 0; interval := "HOUR"; sublayers := 1;
       initialTimeRange := None; aggregationOperation := None;
       scale := None; offset := None; noDataValue := None;
       tile := Some sampleTile; cols := 10; rows := 10;
       buffersLength := Some [0] |} |}.

(** The constants of a call with these options and [n] sublayers. *)
Definition sampleConstants (bands rangeStart rangeEnd : Z)
    (aggregation : option string) (n : nat) : Constants qnum :=
  callConstants (sampleParse bands rangeStart rangeEnd aggregation)
    (sampleRange rangeStart rangeEnd) HOUR sampleTile n.

Definition record (c s e : Z) (vals : list Z) : CellRecord :=
  {| rec_cellNum := c; rec_startFrame := s; rec_endFrame := e;
     rec_values := vals |}.

(** Two sublayers over cells 5 and 3; cell 5 is met first and holds records
    in both sublayers. *)
Definition twoSublayers : list (list CellRecord) :=
  [[record 5 0 1 [1; 4294967295]; record 3 0 0 [2]]; [record 5 1 1 [7]]].

(** One sublayer with two bands per frame: a record of frames 0 and 1. *)
Definition twoBands : list (list CellRecord) := [[record 7 0 1 [1; 2; 3; 4]]].

(** One sublayer: a whole record of cell 3, then a record of cell 7 that
    declares two values and is cut after the first. *)
Definition cutStream : list (list CellRecord * FourwingsRawData) :=
  [([record 3 0 0 [2]], [7; 0; 1; 5])].

(** Cell 7 holds a value in sublayer 0 and sentinels only in sublayer 1. *)
Definition sentinelSublayer : list (list CellRecord) :=
  [[record 7 0 0 [3]]; [record 7 0 1 [4294967295; 4294967295]]].

End Sample.

(** Hypotheses on a concrete input are settled by evaluation. *)
Ltac by_evaluation :=
  repeat match goal with
         | |- _ /\ _ => split
         | |- configured _ _ _ _ _ => unfold configured
         | |- valid_input _ _ => unfold valid_input
         | |- enough_fuel _ _ => unfold enough_fuel
         | |- parsed_input _ _ _ => unfold parsed_input
         | |- Forall _ [] => constructor
         | |- Forall _ (_ :: _) => constructor
         | |- Forall ?P ?l =>
             let l' := eval vm_compute in l in change (Forall P l')
         | |- Exists _ (_ :: _) => apply Exists_cons_hd
         | |- Exists ?P ?l =>
             let l' := eval vm_compute in l in change (Exists P l')
         | |- only_record (?r :: ?rest) ?r => exists [], rest
         | |- only_record (?r1 :: ?r :: ?rest) ?r => exists [r1], rest
         end;
  try match goal with
      | |- _ = _ => reflexivity
      | |- whole _ _ => reflexivity
      | |- ?P => refine (bool_decide_unpack P _); vm_compute; exact I
      | |- _ => unfold well_sized, declared_values, MAX_ARRAY_LENGTH; simpl; lia
      end.

(** ** Vocabulary for the sub-buffers and for cells with several records *)

(** The entries of a sublayer come together: [values[s]], [dates[s]] and
    [startOffsets[s]] are all set or all unset, and the aggregate is set
    whenever they are. *)
Definition set_together {num} (w : SublayerView num) : Prop :=
  (is_Some (view_values w) <-> is_Some (view_dates w)) /\
  (is_Some (view_values w) <-> is_Some (view_startOffset w)) /\
  (is_Some (view_values w) -> is_Some (view_initialValue w)).

Definition state_together {num} `{CellHelpers} (st : DecodeState num) : Prop :=
  forall c f s, obj_get (features st) c = Some f ->
    set_together (view (properties f) s).

(** The sum of a list of lengths. *)
Definition total_length (lengths : list Z) : Z := foldr Z.add 0 lengths.

(** The pieces of [buffer] of the given lengths, one after the other. *)
Fixpoint subBuffers (buffer : list Byte.byte) (lengths : list Z)
    : list (list Byte.byte) :=
  match lengths with
  | [] => []
  | n :: lengths' =>
      take (Z.to_nat n) buffer :: subBuffers (drop (Z.to_nat n) buffer) lengths'
  end.

Section Streams.
Context `{PbfLibrary}.

(** The stream of a sublayer, from the length and the bytes of its
    sub-buffer: the first field that the reader finds, and no call of the
    reader for the length 0. *)
Definition readStream (length_ : Z) (sub : list Byte.byte)
    : outcome (option FourwingsRawData) :=
  if length_ =? 0 then Returns (Some [])
  else let* fields := readFields_readData sub in Returns (fields !! 0%nat).

Fixpoint readStreams (lengths : list Z) (subs : list (list Byte.byte))
    : outcome (list (option FourwingsRawData)) :=
  match lengths, subs with
  | n :: lengths', sub :: subs' =>
      let* arr := readStream n sub in
      let* tl := readStreams lengths' subs' in
      Returns (arr :: tl)
  | _, _ => Returns []
  end.

End Streams.

Section Slots.
Context {num : Type} `{JSNumber num} `{CellHelpers}.
Variable K : Constants num.

(** The slots of the dense arrays for the value [v] at position [j] of a
    record that starts at frame [startFrame], with one band per frame. *)
Definition value_slot (v : Z) : option num :=
  if decide (v = k_noDataValue K) then None else Some (transform K (Some v)).

Definition date_slot (startFrame : Z) (j : nat) (v : Z) : option Z :=
  if decide (v = k_noDataValue K) then None
  else Some (getIntervalTimestamp (k_cfg K) (startFrame + Z.of_nat j)).

(** The transformed values of the records [rs] that are counted in the time
    range, added in order to [acc]. *)
Definition summed (rs : list CellRecord) (acc : num) : num :=
  fold_left (fun acc r =>
               accumulated K (rec_values r) 0 (record_counted K r) acc) rs acc.

(** The aggregate of a sublayer after the record [r], from the aggregate
    before it; [allocated] tells whether the arrays of the sublayer exist
    before the record. The record adds the values it counts in the time range
    to the aggregate, which starts from 0 when the record creates the arrays,
    and ['avg'] then divides the aggregate by the number of these values. *)
Definition aggregate_after (r : CellRecord) (allocated : bool)
    (before : option num) : option num :=
  let avg := String.eqb (k_aggregationOperation K) "avg" in
  let n := of_int (Z.of_nat (length (record_counted K r))) in
  match record_data K r with
  | [] => if avg then Some (js_div (to_number before) n) else before
  | _ :: _ =>
      let sum := accumulated K (rec_values r) 0 (record_counted K r)
                   (if allocated then to_number before else of_int 0) in
      Some (if avg then js_div sum n else sum)
  end.

(** Whether the arrays of a sublayer exist, and its aggregate, after the
    records [rs] of a cell, in order. *)
Definition aggregate_of (rs : list CellRecord) : bool * option num :=
  fold_left (fun st r => (st.1 || bool_decide (record_data K r <> []),
                          aggregate_after r st.1 st.2))
    rs (false, None).

(** The invariant of the scan: the state is as [state_ok] says and the
    entries of every sublayer of every feature are set together. *)
Definition scan_invariant (st : DecodeState num) : Prop :=
  state_ok K st /\ state_together st.

(** The feature of cell [c] as the records say: the feature created for
    the cell, with the entries of each sublayer written by the records of the
    cell in the stream of that sublayer. *)
Definition expected_feature (rss : list (list CellRecord)) (c : Z)
    : FourwingsFeature num :=
  let created := newFeature K (Some c) in
  let entries := (fun rs => cell_view K rs c) <$> rss in
  set_properties created
    (set_sublayer (properties created)
       (view_values <$> entries) (view_dates <$> entries)
       (view_startOffset <$> entries) (view_initialValue <$> entries)).

(** A record that holds a value other than the sentinel. *)
Definition has_data (r : CellRecord) : Prop :=
  Exists (fun v => v <> k_noDataValue K) (rec_values r).

End Slots.

(** ** Further inputs for evaluation

    Buffers with a reader for them, options without a tile, and streams
    that are not made of whole records or that hold several records of a
    cell. *)

Module Scenarios.
Import Sample.

(** A stand-in for the [pbf] package: every byte of a sub-buffer is one
    integer of its only field, and a buffer that holds the byte [0xff] is
    refused. *)
Definition byte_reader : PbfLibrary :=
  {| readFields_readData := fun buffer =>
       if existsb (Byte.eqb Byte.xff) buffer then Throws LibraryError
       else Returns [(fun b => Z.of_N (Byte.to_N b)) <$> buffer] |}.

(** Two sub-buffers of four bytes: cell 7 with the value 5 at frame 0, and
    cell 7 with the value 9 at frame 1; two bytes follow them. *)
Definition twoBuffers : list Byte.byte :=
  [Byte.x07; Byte.x00; Byte.x00; Byte.x05;
   Byte.x07; Byte.x01; Byte.x01; Byte.x09; Byte.x2a; Byte.x2a].

(** The second sub-buffer is refused by the reader. *)
Definition brokenBuffers : list Byte.byte :=
  [Byte.x07; Byte.x00; Byte.x00; Byte.x05;
   Byte.x07; Byte.xff; Byte.x01; Byte.x09].

(** Options with one band per frame, the hourly interval, the sample tile
    and the given lengths and time range. *)
Definition bufferOptions (lengths : list Z) (range : option TimeRange)
    : option (FourwingsLoaderOptions qnum) :=
  Some {| fourwings := Some
    {| bufferedStartDate := 0; interval := "HOUR"; sublayers := 1;
       initialTimeRange := range; aggregationOperation := None;
       scale := None; offset := None; noDataValue := None;
       tile := Some sampleTile; cols := 10; rows := 10;
       buffersLength := Some lengths |} |}.

(** Options with a time range and no tile. *)
Definition noTileParse : ParseFourwingsOptions qnum :=
  {| bufferedStartDate := 0; interval := "HOUR"; sublayers := 1;
     initialTimeRange := Some (sampleRange 0 2); aggregationOperation := None;
     scale := None; offset := None; noDataValue := None;
     tile := None; cols := 10; rows := 10;
     buffersLength := Some [0] |}.

Definition noTileOptions : option (FourwingsLoaderOptions qnum) :=
  Some {| fourwings := Some noTileParse |}.

(** Streams that are not made of whole records: a record of cell 7 that
    declares two values and holds one, and a record of cell 3 followed by
    two more tokens. *)
Definition brokenStreams : list (option FourwingsRawData) :=
  [Some [7; 0; 1; 5]; Some [3; 0; 0; 2; 9; 9]].

(** One stream with three records of cell 7: sentinels only, then the
    values 1 and 2 from frame 2 on, then the value 9 at frame 5. *)
Definition repeatedCell : list (list CellRecord) :=
  [[record 7 0 0 [4294967295]; record 7 2 3 [1; 2]; record 7 5 5 [9]]].

(** One stream whose cell numbers 2^32 - 1 and 2^32 are not array
    indices. *)
Definition largeCells : list (list CellRecord) :=
  [[record 4294967296 0 0 [1]; record 5 0 0 [2];
    record 4294967295 0 0 [3]; record 3 0 0 [4]]].

(** One stream with two bands per frame: the one frame of cell 7 holds the
    value 5 and the sentinel. *)
Definition sentinelBand : list (list CellRecord) :=
  [[record 7 0 0 [5; 4294967295]]].

(** One stream: a whole record of cell 3, then two tokens. *)
Definition strayTokens : list (list CellRecord * FourwingsRawData) :=
  [([record 3 0 0 [2]], [9; 9])].

End Scenarios.

(** * Properties *)

(** ** Arrays and objects *)

Section ArrayFacts.
Context {A : Type}.
Implicit Types (a : jsarray A) (i j : Z) (v : A).

Lemma new_Array_ok (n : Z) :
  0 <= n <= MAX_ARRAY_LENGTH ->
  @new_Array A n = Returns (replicate (Z.to_nat n) None).
Proof.
  intros [Hlo Hhi]. unfold new_Array.
  apply Z.leb_le in Hlo, Hhi. by rewrite Hlo, Hhi.
Qed.

Lemma new_Array_too_long (n : Z) :
  MAX_ARRAY_LENGTH < n -> @new_Array A n = Throws RangeError.
Proof.
  intros Hn. unfold new_Array.
  replace (n <=? MAX_ARRAY_LENGTH) with false by (symmetry; apply Z.leb_gt; lia).
  by rewrite andb_false_r.
Qed.

Lemma js_index_nat {B} (l : list B) (n : nat) :
  js_index l (Z.of_nat n) = l !! n.
Proof.
  unfold js_index. replace (0 <=? Z.of_nat n) with true
    by (symmetry; apply Z.leb_le; lia).
  by rewrite Nat2Z.id.
Qed.

Lemma js_index_app_r {B} (l1 l2 : list B) i :
  0 <= i -> js_index (l1 ++ l2) (Z.of_nat (length l1) + i) = js_index l2 i.
Proof.
  intros Hi. unfold js_index.
  replace (0 <=? Z.of_nat (length l1) + i) with true
    by (symmetry; apply Z.leb_le; lia).
  replace (0 <=? i) with true by (symmetry; apply Z.leb_le; lia).
  rewrite lookup_app_r by lia. f_equal. lia.
Qed.

Lemma array_get_replicate (n : nat) i :
  array_get (replicate n (@None A)) i = None.
Proof.
  unfold array_get, js_index. destruct (0 <=? i); [|done].
  destruct (replicate n None !! Z.to_nat i) as [o|] eqn:E; [|done].
  apply lookup_replicate in E as [-> _]. done.
Qed.

Lemma array_get_set_eq a i v :
  0 <= i < MAX_ARRAY_LENGTH -> array_get (array_set a i v) i = Some v.
Proof.
  intros [Hlo Hhi]. unfold array_get, js_index, array_set.
  replace (0 <=? i) with true by (symmetry; apply Z.leb_le; lia).
  replace (i <? MAX_ARRAY_LENGTH) with true by (symmetry; apply Z.ltb_lt; lia).
  simpl. destruct (Nat.ltb_spec (Z.to_nat i) (length a)).
  - by rewrite list_lookup_insert_eq.
  - rewrite lookup_app_r by lia. rewrite lookup_app_r; rewrite length_replicate.
    + by replace (_ - _ - _)%nat with 0%nat by lia.
    + lia.
Qed.

Lemma array_get_set_ne a i j v :
  i <> j -> array_get (array_set a i v) j = array_get a j.
Proof.
  intros Hij. unfold array_get, js_index, array_set.
  destruct (Z.leb_spec 0 j) as [Hj|]; [|done].
  destruct (Z.leb_spec 0 i) as [Hi|]; [|done].
  destruct (i <? MAX_ARRAY_LENGTH); [|done]. simpl.
  assert (Z.to_nat i <> Z.to_nat j) by lia.
  destruct (Nat.ltb_spec (Z.to_nat i) (length a)).
  - by rewrite list_lookup_insert_ne.
  - destruct (Nat.lt_ge_cases (Z.to_nat j) (length a)).
    + by rewrite lookup_app_l.
    + rewrite lookup_app_r by lia. rewrite (lookup_ge_None_2 a) by lia.
      destruct (Nat.lt_ge_cases (Z.to_nat j - length a) (Z.to_nat i - length a)).
      * rewrite lookup_app_l by (rewrite length_replicate; lia).
        by rewrite lookup_replicate_2.
      * rewrite lookup_app_r by (rewrite length_replicate; lia).
        rewrite length_replicate.
        rewrite lookup_ge_None_2; [done|]. simpl. lia.
Qed.

Lemma array_set_length_in a i v :
  0 <= i < Z.of_nat (length a) -> length (array_set a i v) = length a.
Proof.
  intros [Hlo Hhi]. unfold array_set.
  destruct (_ && _); [|done].
  replace (Z.to_nat i <? length a)%nat with true
    by (symmetry; apply Nat.ltb_lt; lia).
  apply length_insert.
Qed.

Lemma array_set_not_index a i v :
  i < 0 \/ MAX_ARRAY_LENGTH <= i -> array_set a i v = a.
Proof.
  intros Hi. unfold array_set.
  destruct (Z.leb_spec 0 i); [|done].
  destruct (Z.ltb_spec i MAX_ARRAY_LENGTH); [lia|done].
Qed.

End ArrayFacts.

Section ObjectFacts.
Context {V : Type}.
Implicit Types (o : jsobject V) (k : jskey) (v : V).

Lemma obj_get_set_eq o k v : obj_get (obj_set o k v) k = Some v.
Proof.
  induction o as [|[k' v'] o IH]; csimpl.
  - by rewrite decide_True.
  - destruct (decide (k' = k)) as [->|Hne]; csimpl.
    + by rewrite decide_True.
    + by rewrite decide_False.
Qed.

Lemma obj_get_set_ne o k k' v :
  k <> k' -> obj_get (obj_set o k v) k' = obj_get o k'.
Proof.
  intros Hne. induction o as [|[k0 v0] o IH]; csimpl.
  - by rewrite decide_False.
  - destruct (decide (k0 = k)) as [->|Hk]; csimpl.
    + by rewrite !decide_False.
    + by rewrite IH.
Qed.

Lemma obj_get_None o k : obj_get o k = None <-> k ∉ o.*1.
Proof.
  induction o as [|[k' v'] o IH]; csimpl.
  - split; [intros _; apply not_elem_of_nil|done].
  - rewrite not_elem_of_cons. destruct (decide (k' = k)) as [->|Hne].
    + split; [done|]. intros [? _]. done.
    + rewrite IH. split; [by intros; split|by intros [_ ?]].
Qed.

Lemma obj_get_Some_elem o k v : obj_get o k = Some v -> (k, v) ∈ o.
Proof.
  induction o as [|[k' v'] o IH]; csimpl; [done|].
  destruct (decide (k' = k)) as [->|Hne].
  - intros [= ->]. apply list_elem_of_here.
  - intros Hget. apply list_elem_of_further. by apply IH.
Qed.

Lemma obj_get_is_Some o k : is_Some (obj_get o k) <-> k ∈ o.*1.
Proof.
  destruct (obj_get o k) eqn:E.
  - split; [intros _|by eauto].
    apply obj_get_Some_elem in E.
    apply list_elem_of_fmap. by exists (k, v).
  - apply obj_get_None in E. split; [by intros [? ?]|done].
Qed.

Lemma obj_set_keys_new o k v :
  obj_get o k = None -> (obj_set o k v).*1 = o.*1 ++ [k].
Proof.
  induction o as [|[k' v'] o IH]; csimpl; [done|].
  destruct (decide (k' = k)); [done|]. intros Hget. csimpl. by rewrite IH.
Qed.

Lemma obj_set_keys_old o k v :
  is_Some (obj_get o k) -> (obj_set o k v).*1 = o.*1.
Proof.
  induction o as [|[k' v'] o IH]; csimpl.
  - by intros [? ?].
  - destruct (decide (k' = k)) as [->|Hne]; [done|].
    intros Hget. csimpl. by rewrite IH.
Qed.

Lemma obj_get_elem o k v : NoDup o.*1 -> (k, v) ∈ o -> obj_get o k = Some v.
Proof.
  induction o as [|[k' v'] o IH]; csimpl.
  - intros _ Hin. by apply elem_of_nil in Hin.
  - rewrite NoDup_cons. intros [Hnotin Hnodup] Hin.
    apply elem_of_cons in Hin as [[= -> ->]|Hin].
    + by rewrite decide_True.
    + destruct (decide (k' = k)) as [->|Hne]; [|by apply IH].
      exfalso. apply Hnotin. apply list_elem_of_fmap. by exists (k, v).
Qed.

#[local] Instance entry_le_total : Total (@entry_le V).
Proof. intros a b. unfold entry_le. lia. Qed.

#[local] Instance entry_le_trans : Transitive (@entry_le V).
Proof. intros a b c. unfold entry_le. lia. Qed.

Lemma own_properties_perm o : own_properties o ≡ₚ o.
Proof.
  unfold own_properties. rewrite merge_sort_Permutation.
  apply (filter_app_complement (fun kv : jskey * V => is_array_index kv.1 = true)).
Qed.

Lemma Object_values_perm o : Object_values o ≡ₚ o.*2.
Proof. unfold Object_values. by rewrite own_properties_perm. Qed.

Lemma elem_of_Object_values o v :
  v ∈ Object_values o <-> exists k, (k, v) ∈ o.
Proof.
  rewrite Object_values_perm, list_elem_of_fmap. split.
  - intros [[k v'] [-> Hin]]. by exists k.
  - intros [k Hin]. by exists (k, v).
Qed.

Lemma own_properties_indices o :
  Forall (fun kv => is_array_index kv.1 = true) o ->
  own_properties o = merge_sort entry_le o.
Proof.
  intros Hall. unfold own_properties.
  assert (filter (fun kv : jskey * V => is_array_index kv.1 = true) o = o) as ->.
  { induction Hall as [|kv o Hkv Ho IH]; [done|].
    rewrite filter_cons, decide_True by done. by rewrite IH. }
  assert (filter (fun kv : jskey * V => is_array_index kv.1 <> true) o = [])
    as ->; [|by rewrite app_nil_r].
  induction Hall as [|kv o Hkv Ho IH]; [done|].
  rewrite filter_cons, decide_False by (by intros ?). done.
Qed.

(** An object whose keys are array indices is enumerated in ascending order
    of its keys. *)
Lemma own_properties_ascending o :
  NoDup o.*1 ->
  Forall (fun kv => is_array_index kv.1 = true) o ->
  StronglySorted Z.lt (index_of_key <$> (own_properties o).*1).
Proof.
  intros Hnd Hall. rewrite own_properties_indices by done.
  assert (NoDup (merge_sort entry_le o).*1) as Hnd'.
  { by rewrite merge_sort_Permutation. }
  assert (Forall (fun kv : jskey * V => is_array_index kv.1 = true)
            (merge_sort entry_le o)) as Hall'.
  { by rewrite merge_sort_Permutation. }
  pose proof (StronglySorted_merge_sort entry_le o) as Hs.
  induction Hs as [|kv l Hs IH Hkv]; [constructor|].
  rewrite !fmap_cons. rewrite fmap_cons in Hnd'.
  apply NoDup_cons in Hnd' as [Hnotin Hnd'].
  apply Forall_cons in Hall' as [Hk Hall'].
  constructor; [by apply IH|].
  rewrite Forall_fmap, Forall_fmap. apply Forall_forall. intros kv' Hin.
  rewrite Forall_forall in Hkv, Hall'.
  pose proof (Hkv _ Hin) as Hle. pose proof (Hall' _ Hin) as Hk'.
  unfold entry_le in Hle. simpl.
  enough (index_of_key kv.1 <> index_of_key kv'.1) by lia.
  intros Heq. apply Hnotin. apply list_elem_of_fmap. exists kv'. split; [|done].
  destruct kv as [[k|] ?], kv' as [[k'|] ?]; simpl in *; try done.
  by rewrite Heq.
Qed.

End ObjectFacts.

(** ** The loop over the values of a cell *)

Section ValuesLoop.
Context {num : Type} `{JSNumber num} `{CellHelpers}.
Variable K : Constants num.

Local Abbreviation cfg := (k_cfg K).
Local Abbreviation sublayers := (k_sublayers K).
Local Abbreviation tileStartFrame := (k_tileStartFrame K).
Local Abbreviation sublayersLength := (k_sublayersLength K).

Implicit Types (p : FeatureProperties num) (w : SublayerView num).

Lemma same_except_refl s p : same_except s p p.
Proof. by repeat split. Qed.

Lemma same_except_trans s p1 p2 p3 :
  same_except s p1 p2 -> same_except s p2 p3 -> same_except s p1 p3.
Proof.
  intros (?&?&?&?&?&?&?&?&?&H12) (?&?&?&?&?&?&?&?&?&H23).
  repeat split; try congruence.
  intros s' Hs'. rewrite H23, H12; done.
Qed.

Lemma view_set_sublayer_eq p s (a : jsarray num) (d : jsarray Z) (o : Z) (v : num) :
  0 <= s < MAX_ARRAY_LENGTH ->
  view (set_sublayer p (array_set (values p) s a) (array_set (dates p) s d)
          (array_set (startOffsets p) s o) (array_set (initialValues p).2 s v)) s
  = {| view_values := Some a; view_dates := Some d;
       view_startOffset := Some o; view_initialValue := Some v |}.
Proof.
  intros Hs. unfold view; simpl. by rewrite !array_get_set_eq.
Qed.

Lemma initSublayer_view sub k sf p :
  0 <= sub < Z.of_nat sublayersLength ->
  Z.of_nat sublayersLength <= MAX_ARRAY_LENGTH ->
  well_formed sublayersLength p ->
  is_Some (view_values (view p sub)) \/ 0 <= k <= MAX_ARRAY_LENGTH ->
  exists p', initSublayer sub k sf p = Returns p' /\
    view p' sub = view_init k sf (view p sub) /\
    same_except sub p p' /\ well_formed sublayersLength p'.
Proof.
  intros Hsub Hmax (Hlv & Hld & Hls & Hli & Hpair) Hk.
  unfold initSublayer, view_init. simpl.
  destruct (array_get (values p) sub) as [a|] eqn:Ea.
  - exists p. by repeat split.
  - destruct Hk as [Hsome|Hk].
    { unfold view in Hsome; simpl in Hsome. rewrite Ea in Hsome.
      by destruct Hsome. }
    rewrite !new_Array_ok by done. simpl.
    eexists; split; [done|]. split; [|split].
    + rewrite view_set_sublayer_eq by lia. done.
    + repeat split; simpl; try done;
        try (apply array_set_length_in; lia).
      intros s' Hs'. unfold view; simpl. by rewrite !array_get_set_ne.
    + repeat split; simpl;
        try (rewrite array_set_length_in; [done|lia]).
      intros s'. destruct (decide (s' = sub)) as [->|Hne].
      * rewrite !array_get_set_eq by lia. eauto.
      * rewrite !array_get_set_ne by done. apply Hpair.
Qed.

Lemma array_set2_view {A} (a : jsarray (jsarray A)) s i v inner :
  array_get a s = Some inner ->
  array_set2 a s i v = Returns (array_set a s (array_set inner i v)).
Proof. intros Ha. unfold array_set2. by rewrite Ha. Qed.

Lemma cellValueStep_view arr sub sf si k j p counts :
  0 <= sub < Z.of_nat sublayersLength ->
  Z.of_nat sublayersLength <= MAX_ARRAY_LENGTH ->
  well_formed sublayersLength p ->
  length counts = sublayersLength ->
  is_Some (view_values (view p sub)) \/ 0 <= k <= MAX_ARRAY_LENGTH ->
  exists p' counts',
    cellValueStep K arr sub sf si k j (p, counts) = Returns (p', counts') /\
    (view p' sub, counts' !!! Z.to_nat sub)
      = view_step K arr sf si k j (view p sub, counts !!! Z.to_nat sub) /\
    same_except sub p p' /\ well_formed sublayersLength p' /\
    length counts' = sublayersLength.
Proof.
  intros Hsub Hmax Hwf Hlen Hk.
  unfold cellValueStep, view_step.
  destruct (is_data K (js_index arr (j + si))) eqn:Hdata.
  2:{ exists p, counts. repeat split; try done; apply Hwf. }
  destruct (initSublayer_view sub k sf p Hsub Hmax Hwf Hk)
    as (p0 & -> & Hview & Hsame & Hwf0).
  simpl. rewrite <- Hview.
  assert (exists a d, array_get (values p0) sub = Some a /\
                      array_get (dates p0) sub = Some d) as (a & d & Ea & Ed).
  { destruct Hwf0 as (_ & _ & _ & _ & Hpair).
    assert (is_Some (array_get (values p0) sub)) as Hv.
    { change (is_Some (view_values (view p0 sub))). rewrite Hview.
      unfold view_init. destruct (view_values (view p sub)) eqn:E; simpl.
      - simpl in E. rewrite E. eauto.
      - eauto. }
    destruct (Hpair _ Hv) as [d Hd]. destruct Hv as [a Ha]. eauto. }
  rewrite (array_set2_view _ _ _ _ _ Ea), (array_set2_view _ _ _ _ _ Ed).
  simpl.
  destruct Hwf0 as (Hlv & Hld & Hls & Hli & Hpair).
  assert (forall q : FeatureProperties num,
    same_except sub p0 q ->
    (forall s, is_Some (array_get (values q) s) -> is_Some (array_get (dates q) s)) ->
    same_except sub p q /\ well_formed sublayersLength q) as Hfin.
  { intros q Hq Hpq. split; [by eapply same_except_trans|].
    destruct Hq as (_&_&_&_&_&?&?&?&?&_). repeat split; try congruence; done. }
  assert (Z.to_nat sub < length counts)%nat as Hc by lia.
  destruct (in_time_range K (j + sf)); eexists _, _; (split; [done|]).
  all: split;
    [unfold view; simpl; rewrite ?array_get_set_eq by lia;
     rewrite ?Ea, ?Ed; simpl; rewrite ?list_lookup_total_insert_eq by done; done|].
  all: match goal with
       | |- same_except _ _ ?q /\ _ =>
           enough (same_except sub p q /\ well_formed sublayersLength q)
             as [? ?] by (rewrite ?length_insert; done);
           apply Hfin
       end.
  all: try (repeat split; simpl; try done;
            try (apply array_set_length_in; lia);
            intros s' Hs'; unfold view; simpl;
            by rewrite ?array_get_set_ne by done).
  all: intros s; simpl; destruct (decide (s = sub)) as [->|Hne];
    [rewrite !array_get_set_eq by lia; eauto
    |rewrite !array_get_set_ne by done; apply Hpair].
Qed.

Lemma view_step_allocated arr sf si k j w c :
  is_Some (view_values w) ->
  is_Some (view_values (view_step K arr sf si k j (w, c)).1).
Proof.
  intros [a Ha]. unfold view_step, view_init. simpl.
  destruct (is_data K _); simpl; [|by rewrite Ha].
  rewrite Ha. destruct (in_time_range K _); simpl; rewrite Ha; simpl; eauto.
Qed.

Lemma cellValuesLoop_app arr sub sf si k n m : forall j acc,
  cellValuesLoop K arr sub sf si k (n + m) j acc =
  let* acc' := cellValuesLoop K arr sub sf si k n j acc in
  cellValuesLoop K arr sub sf si k m (j + Z.of_nat n) acc'.
Proof.
  induction n as [|n IH]; intros j acc.
  - simpl. by rewrite Z.add_0_r.
  - cbn [Nat.add cellValuesLoop].
    destruct (cellValueStep K arr sub sf si k j acc) as [acc1| |]; [|done..].
    cbn [obind]. rewrite IH. by replace (j + 1 + Z.of_nat n)
      with (j + Z.of_nat (S n)) by lia.
Qed.

Lemma cellValuesLoop_view arr sub sf si k n j p counts :
  0 <= sub < Z.of_nat sublayersLength ->
  Z.of_nat sublayersLength <= MAX_ARRAY_LENGTH ->
  well_formed sublayersLength p ->
  length counts = sublayersLength ->
  is_Some (view_values (view p sub)) \/ 0 <= k <= MAX_ARRAY_LENGTH ->
  exists p' counts',
    cellValuesLoop K arr sub sf si k n j (p, counts) = Returns (p', counts') /\
    (view p' sub, counts' !!! Z.to_nat sub)
      = view_loop K arr sf si k n j (view p sub, counts !!! Z.to_nat sub) /\
    same_except sub p p' /\ well_formed sublayersLength p' /\
    length counts' = sublayersLength.
Proof.
  intros Hsub Hmax. revert j p counts.
  induction n as [|n IH]; intros j p counts Hwf Hlen Hk;
    cbn [cellValuesLoop view_loop].
  - exists p, counts. repeat split; try done; apply Hwf.
  - destruct (cellValueStep_view arr sub sf si k j p counts)
      as (p1 & c1 & -> & Hv1 & Hs1 & Hwf1 & Hl1); try done.
    cbn [obind]. rewrite <- Hv1.
    destruct (IH (j + 1) p1 c1) as (p2 & c2 & -> & Hv2 & Hs2 & Hwf2 & Hl2);
      try done.
    { destruct Hk as [Hk|Hk]; [left|by right].
      apply (view_step_allocated arr sf si k j _ (counts !!! Z.to_nat sub)) in Hk.
      by rewrite <- Hv1 in Hk. }
    exists p2, c2. split; [done|]. split; [done|].
    split; [by eapply same_except_trans|done].
Qed.

End ValuesLoop.

(** ** Closed form of the loop over the values *)

Section ClosedForm.
Context {num : Type} `{JSNumber num} `{CellHelpers}.
Variable K : Constants num.

Local Abbreviation cfg := (k_cfg K).
Local Abbreviation sublayers := (k_sublayers K).
Local Abbreviation tileStartFrame := (k_tileStartFrame K).

Implicit Types (w : SublayerView num) (arr : FourwingsRawData).

Lemma view_loop_fold arr sf si k n j wc :
  view_loop K arr sf si k n j wc
  = fold_left (fun wc j => view_step K arr sf si k j wc) (seqZ j (Z.of_nat n)) wc.
Proof.
  revert j wc. induction n as [|n IH]; intros j wc; [done|].
  rewrite Nat2Z.inj_succ, seqZ_cons by lia. cbn [view_loop fold_left].
  rewrite IH. by replace (Z.pred (Z.succ (Z.of_nat n))) with (Z.of_nat n) by lia.
Qed.

(** A sentinel leaves the entries and the counter as they are. *)
Lemma view_step_sentinel arr sf si k j wc :
  is_data K (js_index arr (j + si)) = false ->
  view_step K arr sf si k j wc = wc.
Proof. intros Hd. unfold view_step. by rewrite Hd. Qed.

Lemma view_steps_data arr sf si k (js : list Z) wc :
  fold_left (fun wc j => view_step K arr sf si k j wc) js wc
  = fold_left (fun wc j => view_step K arr sf si k j wc)
      (filter (fun j => is_data K (js_index arr (j + si)) = true) js) wc.
Proof.
  revert wc. induction js as [|j js IH]; intros wc; [done|].
  rewrite filter_cons. destruct (decide _) as [Hd|Hd]; simpl.
  - apply IH.
  - rewrite view_step_sentinel by (by destruct (is_data _ _)). apply IH.
Qed.

(** The steps at data positions, once the arrays of the sublayer exist. *)
Lemma view_steps_allocated arr sf si k (js : list Z) a d so iv c :
  Forall (fun j => is_data K (js_index arr (j + si)) = true) js ->
  fold_left (fun wc j => view_step K arr sf si k j wc) js
    ({| view_values := Some a; view_dates := Some d;
        view_startOffset := so; view_initialValue := Some iv |}, c)
  = ({| view_values := Some (stored_values K arr si js a);
        view_dates := Some (stored_dates K sf js d);
        view_startOffset := so;
        view_initialValue := Some (accumulated K arr si (counted K sf js) iv) |},
     c + Z.of_nat (length (counted K sf js))).
Proof.
  revert a d iv c. induction js as [|j js IH]; intros a d iv c Hdata.
  - simpl. by rewrite Z.add_0_r.
  - apply Forall_cons in Hdata as [Hj Hjs]. cbn [fold_left].
    unfold view_step at 2. rewrite Hj. unfold view_init. simpl.
    unfold counted. rewrite filter_cons.
    destruct (in_time_range K (j + sf)) eqn:Hin; simpl.
    + rewrite IH by done. f_equal. unfold counted. lia.
    + by rewrite IH.
Qed.

Lemma data_positions_data arr si k :
  Forall (fun j => is_data K (js_index arr (j + si)) = true)
    (data_positions K arr si k).
Proof. unfold data_positions. by apply Forall_forall; intros j [? _]%list_elem_of_filter. Qed.

(** The loop over a record written into a sublayer without entries. *)
Lemma view_loop_fresh arr sf si k w :
  view_values w = None ->
  view_loop K arr sf si k (Z.to_nat k) 0 (w, 0)
  = match data_positions K arr si k with
    | [] => (w, 0)
    | js => written K arr sf si k js
    end.
Proof.
  intros Hw. rewrite view_loop_fold, view_steps_data.
  replace (Z.of_nat (Z.to_nat k)) with (Z.max k 0) by lia.
  assert (seqZ 0 (Z.max k 0) = seqZ 0 k) as ->.
  { destruct (Z.le_gt_cases k 0); [|f_equal; lia].
    by rewrite !seqZ_nil by lia. }
  fold (data_positions K arr si k).
  pose proof (data_positions_data arr si k) as Hdata.
  destruct (data_positions K arr si k) as [|j js]; [done|].
  apply Forall_cons in Hdata as [Hj Hjs]. cbn [fold_left].
  unfold view_step at 2. rewrite Hj. unfold view_init. simpl. rewrite Hw. simpl.
  unfold written, counted. rewrite filter_cons.
  destruct (in_time_range K (j + sf)) eqn:Hin; simpl.
  - rewrite view_steps_allocated by done. f_equal. unfold counted. lia.
  - by rewrite view_steps_allocated by done.
Qed.

Lemma view_step_ext arr arr' sf si si' k j wc :
  js_index arr (j + si) = js_index arr' (j + si') ->
  view_step K arr sf si k j wc = view_step K arr' sf si' k j wc.
Proof. intros Heq. unfold view_step. by rewrite Heq. Qed.

(** The loop reads the array at the positions of the values only. *)
Lemma view_loop_ext arr arr' sf si si' k wc :
  (forall j, 0 <= j < k -> js_index arr (j + si) = js_index arr' (j + si')) ->
  view_loop K arr sf si k (Z.to_nat k) 0 wc
  = view_loop K arr' sf si' k (Z.to_nat k) 0 wc.
Proof.
  intros Hext. rewrite !view_loop_fold.
  assert (Forall (fun j => 0 <= j < k) (seqZ 0 (Z.of_nat (Z.to_nat k)))) as Hall.
  { apply Forall_forall. intros j Hj%elem_of_seqZ. lia. }
  revert wc Hall. generalize (seqZ 0 (Z.of_nat (Z.to_nat k))) as js.
  induction js as [|j js IH]; intros wc Hall; [done|].
  apply Forall_cons in Hall as [Hj Hjs]. simpl.
  rewrite (view_step_ext arr arr' sf si si') by auto. by apply IH.
Qed.

Lemma view_cell_ext arr arr' sf ef si si' w :
  (forall s e j, sf = Some s -> ef = Some e ->
     0 <= j < (e - s + 1) * sublayers ->
     js_index arr (j + si) = js_index arr' (j + si')) ->
  view_cell K arr sf ef si w = view_cell K arr' sf ef si' w.
Proof.
  intros Hext. unfold view_cell.
  destruct sf as [s|], ef as [e|]; try done.
  f_equal. apply view_loop_ext. intros j Hj. by eapply Hext.
Qed.

(** A value that is not the sentinel is stored, with its timestamp, at the
    slot of its frame. *)
Lemma view_step_stores arr sf si k j w c :
  is_data K (js_index arr (j + si)) = true ->
  (is_Some (view_values w) -> is_Some (view_dates w)) ->
  0 <= j / sublayers < MAX_ARRAY_LENGTH ->
  (view_values (view_step K arr sf si k j (w, c)).1
     ≫= fun a => array_get a (j / sublayers))
    = Some (transform K (js_index arr (j + si))) /\
  (view_dates (view_step K arr sf si k j (w, c)).1
     ≫= fun d => array_get d (j / sublayers))
    = Some (getIntervalTimestamp cfg (sf + tileStartFrame + j)).
Proof.
  intros Hdata Hpair Hidx. unfold view_step, view_init. rewrite Hdata. simpl.
  destruct (view_values w) as [a|] eqn:Ea.
  - destruct Hpair as [d Hd]; [by eauto|].
    destruct (in_time_range K _); simpl; rewrite Ea, Hd; simpl;
      by rewrite !array_get_set_eq.
  - destruct (in_time_range K _); simpl; by rewrite !array_get_set_eq.
Qed.

Lemma elem_of_data_positions arr si k j :
  j ∈ data_positions K arr si k <->
  0 <= j < k /\ is_data K (js_index arr (j + si)) = true.
Proof.
  unfold data_positions. rewrite list_elem_of_filter, elem_of_seqZ.
  split; intros [? ?]; split; try done; lia.
Qed.

(** The data positions before, at and after a position that holds data. *)
Lemma data_positions_split arr si k j :
  0 <= j < k -> is_data K (js_index arr (j + si)) = true ->
  exists js1 js2, data_positions K arr si k = js1 ++ j :: js2 /\
    Forall (fun j' => j < j' < k /\ is_data K (js_index arr (j' + si)) = true) js2.
Proof.
  intros Hj Hdata. unfold data_positions.
  assert (seqZ 0 k = seqZ 0 j ++ j :: seqZ (j + 1) (k - j - 1)) as ->.
  { replace k with (j + (k - j)) at 1 by lia.
    rewrite seqZ_app by lia. f_equal. rewrite Z.add_0_l.
    rewrite seqZ_cons by lia. do 2 f_equal; lia. }
  rewrite filter_app, filter_cons, decide_True by done.
  eexists _, _. split; [done|].
  apply Forall_forall. intros j' [Hd Hin%elem_of_seqZ]%list_elem_of_filter.
  split; [lia|done].
Qed.

Lemma view_aggregate_arrays (wc : SublayerView num * Z) :
  view_values (view_aggregate K wc) = view_values wc.1 /\
  view_dates (view_aggregate K wc) = view_dates wc.1 /\
  view_startOffset (view_aggregate K wc) = view_startOffset wc.1.
Proof. unfold view_aggregate. by destruct (String.eqb _ _). Qed.

Section Stored.
Context {A : Type} (idx : Z -> Z) (g : Z -> A).

Lemma stored_length (js : list Z) (a : jsarray A) :
  Forall (fun j => 0 <= idx j < Z.of_nat (length a)) js ->
  length (fold_left (fun a j => array_set a (idx j) (g j)) js a) = length a.
Proof.
  revert a. induction js as [|j js IH]; intros a Hall; [done|].
  apply Forall_cons in Hall as [Hj Hjs]. simpl.
  rewrite IH; rewrite array_set_length_in; done.
Qed.

Lemma stored_other (js : list Z) (a : jsarray A) q :
  Forall (fun j => idx j <> q) js ->
  array_get (fold_left (fun a j => array_set a (idx j) (g j)) js a) q
  = array_get a q.
Proof.
  revert a. induction js as [|j js IH]; intros a Hall; [done|].
  apply Forall_cons in Hall as [Hj Hjs]. simpl.
  rewrite IH by done. by apply array_get_set_ne.
Qed.

Lemma stored_last (js1 js2 : list Z) j (a : jsarray A) :
  0 <= idx j < MAX_ARRAY_LENGTH ->
  Forall (fun j' => idx j' <> idx j) js2 ->
  array_get (fold_left (fun a j => array_set a (idx j) (g j))
               (js1 ++ j :: js2) a) (idx j)
  = Some (g j).
Proof.
  intros Hj Hjs2. rewrite fold_left_app. simpl.
  rewrite stored_other by done. by apply array_get_set_eq.
Qed.

End Stored.

End ClosedForm.

(** ** One cell record *)

Section CellRecord.
Context {num : Type} `{JSNumber num} `{CellHelpers}.
Variable K : Constants num.

Local Abbreviation sublayers := (k_sublayers K).
Local Abbreviation sublayersLength := (k_sublayersLength K).

Implicit Types (p : FeatureProperties num) (st : DecodeState num).

Lemma same_cell_refl (f : FourwingsFeature num) : same_cell f f.
Proof. by repeat split. Qed.

Lemma newFeature_properties c :
  properties (newFeature K c) =
  {| col := (getCellProperties (k_tileBBox K) c (k_cols K)).1;
     row := (getCellProperties (k_tileBBox K) c (k_cols K)).2;
     values := replicate sublayersLength None;
     dates := replicate sublayersLength None;
     cellId := generateUniqueId (x (index (k_tile K))) (y (index (k_tile K))) c;
     cellNum := c;
     startOffsets := replicate sublayersLength None;
     initialValues := (k_timeRangeKey K, replicate sublayersLength None) |}.
Proof. unfold newFeature. by destruct (getCellProperties _ _ _). Qed.

Lemma newFeature_well_formed c :
  well_formed sublayersLength (properties (newFeature K c)).
Proof.
  rewrite newFeature_properties. repeat split; simpl;
    try apply length_replicate.
  intros s. rewrite array_get_replicate. by intros [? ?].
Qed.

Lemma newFeature_view c s : view (properties (newFeature K c)) s = unset.
Proof.
  rewrite newFeature_properties. unfold view, unset; simpl.
  by rewrite !array_get_replicate.
Qed.

Lemma addFeature_spec c st :
  state_ok K st ->
  state_ok K (addFeature K c st) /\
  (exists f, obj_get (features (addFeature K c st)) c = Some f /\
             properties f = prior_properties K st c) /\
  (forall c', c' <> c ->
     obj_get (features (addFeature K c st)) c' = obj_get (features st) c').
Proof.
  intros (Hnd & Hmat & Hall). unfold addFeature, prior_properties.
  destruct (obj_get (features st) c) as [f|] eqn:Eg.
  - split; [done|]. split; [by exists f|done].
  - simpl. split; [|split].
    + split; [|split]; simpl.
      * rewrite obj_set_keys_new by done. apply NoDup_app.
        split; [done|]. split; [|apply NoDup_singleton].
        intros k Hk ->%list_elem_of_singleton. by apply obj_get_None in Eg.
      * rewrite obj_set_keys_new by done. by rewrite Hmat.
      * intros c0 f0 Hget. destruct (decide (c = c0)) as [<-|Hne].
        -- rewrite obj_get_set_eq in Hget. injection Hget as <-.
           split; [apply newFeature_well_formed|apply same_cell_refl].
        -- rewrite obj_get_set_ne in Hget by done. by apply Hall.
    + exists (newFeature K c). by rewrite obj_get_set_eq.
    + intros c' Hc'. by rewrite obj_get_set_ne.
Qed.

Lemma aggregate_view sub p counts :
  0 <= sub < Z.of_nat sublayersLength ->
  Z.of_nat sublayersLength <= MAX_ARRAY_LENGTH ->
  well_formed sublayersLength p ->
  view (aggregate K sub (p, counts)) sub
    = view_aggregate K (view p sub, counts !!! Z.to_nat sub) /\
  same_except sub p (aggregate K sub (p, counts)) /\
  well_formed sublayersLength (aggregate K sub (p, counts)).
Proof.
  intros Hsub Hmax Hwf. unfold aggregate, view_aggregate.
  destruct (String.eqb _ _); [|by repeat split; try apply Hwf].
  destruct Hwf as (Hlv & Hld & Hls & Hli & Hpair).
  split; [|split].
  - unfold view; simpl. by rewrite array_get_set_eq by lia.
  - repeat split; simpl; try done; try (apply array_set_length_in; lia).
    intros s' Hs'. unfold view; simpl. by rewrite array_get_set_ne.
  - repeat split; simpl; try done.
    rewrite array_set_length_in; [done|lia].
Qed.

Lemma processCell_spec arr sub c sf ef si st :
  0 <= sub < Z.of_nat sublayersLength ->
  Z.of_nat sublayersLength <= MAX_ARRAY_LENGTH ->
  state_ok K st ->
  (forall k, numCellValues_of K sf ef = Some k ->
     is_Some (view_values (view (prior_properties K st c) sub)) \/
     k <= MAX_ARRAY_LENGTH) ->
  exists st' f',
    processCell K arr sub c sf ef si st
      = Returns ((fun k => si + k - 1) <$> numCellValues_of K sf ef, st') /\
    state_ok K st' /\
    (features st').*1 = (features (addFeature K c st)).*1 /\
    obj_get (features st') c = Some f' /\
    (forall c', c' <> c ->
       obj_get (features st') c' = obj_get (features st) c') /\
    same_except sub (prior_properties K st c) (properties f') /\
    view (properties f') sub
      = view_cell K arr sf ef si (view (prior_properties K st c) sub).
Proof.
  intros Hsub Hmax Hok Hk.
  destruct (addFeature_spec c st Hok) as (Hok1 & (f & Hf & Hprior) & Hother).
  unfold processCell. fold (numCellValues_of K sf ef).
  rewrite Hf. rewrite <- Hprior in *.
  destruct Hok1 as (Hnd1 & Hmat1 & Hall1).
  destruct (Hall1 _ _ Hf) as [Hwf Hcell].
  set (counts := replicate sublayersLength 0).
  assert (length counts = sublayersLength) as Hlen by apply length_replicate.
  assert (counts !!! Z.to_nat sub = 0) as Hc0.
  { apply list_lookup_total_correct, lookup_replicate_2. lia. }
  assert (exists p' counts',
    match numCellValues_of K sf ef, sf with
    | Some n, Some s =>
        cellValuesLoop K arr sub s si n (Z.to_nat n) 0 (properties f, counts)
    | _, _ => Returns (properties f, counts)
    end = Returns (p', counts') /\
    view_aggregate K (view p' sub, counts' !!! Z.to_nat sub)
      = view_cell K arr sf ef si (view (properties f) sub) /\
    same_except sub (properties f) p' /\ well_formed sublayersLength p')
    as (p' & counts' & -> & Hview & Hsame & Hwf').
  { unfold view_cell, numCellValues_of in *.
    destruct sf as [s|]; simpl;
      [|exists (properties f), counts; rewrite Hc0;
        split; [done|]; split; [done|]; split; [apply same_except_refl|done]].
    destruct ef as [e|]; simpl;
      [|exists (properties f), counts; rewrite Hc0;
        split; [done|]; split; [done|]; split; [apply same_except_refl|done]].
    simpl in Hk. specialize (Hk _ eq_refl).
    destruct (Z.le_gt_cases ((e - s + 1) * sublayers) 0) as [Hneg|Hpos].
    - replace (Z.to_nat ((e - s + 1) * sublayers)) with 0%nat by lia. simpl.
      exists (properties f), counts. rewrite Hc0.
      split; [done|]. split; [done|]. split; [apply same_except_refl|done].
    - destruct (cellValuesLoop_view K arr sub s si ((e - s + 1) * sublayers)
        (Z.to_nat ((e - s + 1) * sublayers)) 0 (properties f) counts)
        as (p' & counts' & Hloop & Hv & Hs & Hw & _); try done.
      { destruct Hk as [Hk|Hk]; [by left|right; lia]. }
      exists p', counts'. rewrite Hloop, Hv, Hc0. done. }
  cbn [obind].
  destruct (aggregate_view sub p' counts' Hsub Hmax Hwf') as (Hav & Has & Haw).
  set (pa := aggregate K sub (p', counts')) in *. clearbody pa.
  eexists _, _. split; [done|]. simpl.
  assert (is_Some (obj_get (features (addFeature K c st)) c)) as Hsome by eauto.
  split; [|split; [|split; [|split; [|split]]]].
  - split; [|split]; simpl.
    + by rewrite obj_set_keys_old.
    + by rewrite obj_set_keys_old.
    + intros c0 f0 Hget. destruct (decide (c = c0)) as [<-|Hne].
      * rewrite obj_get_set_eq in Hget. injection Hget as <-.
        split; [done|]. destruct Hcell as (?&?&?&?&?&?&?).
        destruct Hsame as (?&?&?&?&?&_). destruct Has as (?&?&?&?&?&_).
        unfold same_cell, set_properties; simpl.
        repeat split; congruence.
      * rewrite obj_get_set_ne in Hget by done. by apply Hall1.
  - by rewrite obj_set_keys_old.
  - apply obj_get_set_eq.
  - intros c' Hc'. rewrite obj_get_set_ne by done. by apply Hother.
  - simpl. by eapply same_except_trans.
  - simpl. by rewrite Hav, Hview.
Qed.

End CellRecord.

(** ** The records of a stream *)

Lemma stream_of_cons r rs : stream_of (r :: rs) = encode r ++ stream_of rs.
Proof. done. Qed.

Lemma stream_of_app rs1 rs2 :
  stream_of (rs1 ++ rs2) = stream_of rs1 ++ stream_of rs2.
Proof. unfold stream_of. apply bind_app. Qed.

Lemma length_encode r : length (encode r) = (3 + length (rec_values r))%nat.
Proof. done. Qed.


Section Records.
Context {num : Type} `{JSNumber num} `{CellHelpers}.
Variable K : Constants num.

Local Abbreviation sublayers := (k_sublayers K).
Local Abbreviation sublayersLength := (k_sublayersLength K).
Local Abbreviation tileStartFrame := (k_tileStartFrame K).

Implicit Types (st : DecodeState num) (arr : FourwingsRawData).

Lemma prior_properties_get st c f :
  obj_get (features st) c = Some f -> prior_properties K st c = properties f.
Proof. intros Hget. unfold prior_properties. by rewrite Hget. Qed.

Lemma prior_properties_ext st st' c :
  obj_get (features st') c = obj_get (features st) c ->
  prior_properties K st' c = prior_properties K st c.
Proof. intros Hget. unfold prior_properties. by rewrite Hget. Qed.

Lemma addFeature_keys c st :
  (features (addFeature K (Some c) st)).*1
  = first_seen (features st).*1 [c].
Proof.
  unfold addFeature, first_seen. simpl.
  destruct (obj_get (features st) (Some c)) eqn:Eg.
  - rewrite decide_True; [done|]. apply obj_get_is_Some. eauto.
  - rewrite decide_False by (by apply obj_get_None).
    simpl. by apply obj_set_keys_new.
Qed.

Lemma processRecord_spec arr sub pos r st :
  0 <= sub < Z.of_nat sublayersLength ->
  Z.of_nat sublayersLength <= MAX_ARRAY_LENGTH ->
  state_ok K st ->
  well_sized sublayers r ->
  exists i' st',
    processRecord K arr sub pos r st = Returns (i', st') /\
    state_ok K st' /\
    (features st').*1 = first_seen (features st).*1 [rec_cellNum r] /\
    is_Some (obj_get (features st') (Some (rec_cellNum r))) /\
    (forall c, view (prior_properties K st' (Some c)) sub
       = cell_view_at K arr pos [r] c (view (prior_properties K st (Some c)) sub)) /\
    (forall c s', s' <> sub ->
       view (prior_properties K st' c) s' = view (prior_properties K st c) s').
Proof.
  intros Hsub Hmax Hok Hsize. unfold processRecord.
  destruct (processCell_spec K arr sub (Some (rec_cellNum r))
              (Some (rec_startFrame r - tileStartFrame))
              (Some (rec_endFrame r - tileStartFrame))
              (pos + CELL_VALUES_START_INDEX) st Hsub Hmax Hok)
    as (st' & f' & Hp & Hok' & Hkeys & Hget & Hother & Hsame & Hview).
  { intros k [= <-]. right. unfold well_sized, declared_values in Hsize. lia. }
  eexists _, st'. split; [done|]. split; [done|].
  split; [by rewrite Hkeys, addFeature_keys|]. split; [by eauto|]. split.
  - intros c. simpl. destruct (decide (rec_cellNum r = c)) as [<-|Hne].
    + by rewrite (prior_properties_get _ _ _ Hget).
    + f_equal. apply prior_properties_ext, Hother. congruence.
  - intros c s' Hs'. destruct (decide (c = Some (rec_cellNum r))) as [->|Hne].
    + rewrite (prior_properties_get _ _ _ Hget).
      by destruct Hsame as (_&_&_&_&_&_&_&_&_&->).
    + f_equal. by apply prior_properties_ext, Hother.
Qed.

Lemma first_seen_app seen l1 l2 :
  first_seen seen (l1 ++ l2) = first_seen (first_seen seen l1) l2.
Proof. apply fold_left_app. Qed.

Lemma first_seen_NoDup seen cells :
  NoDup seen -> NoDup (first_seen seen cells).
Proof.
  revert seen. induction cells as [|c cells IH]; intros seen Hnd; [done|].
  simpl. apply IH. destruct (decide _) as [|Hnotin]; [done|].
  apply NoDup_app. split; [done|]. split; [|apply NoDup_singleton].
  intros k Hk Hk'%list_elem_of_singleton. by subst k.
Qed.

Lemma elem_of_first_seen seen cells k :
  k ∈ first_seen seen cells <-> k ∈ seen \/ exists c, k = Some c /\ c ∈ cells.
Proof.
  revert seen. induction cells as [|c cells IH]; intros seen; simpl.
  - split; [by left|]. intros [?|[c [_ Hc]]]; [done|].
    by apply elem_of_nil in Hc.
  - rewrite IH. split.
    + intros [Hk|[c' [-> Hc']]].
      * destruct (decide _); [by left|].
        apply elem_of_app in Hk as [?|Hk%list_elem_of_singleton]; [by left|].
        subst k. right. exists c. split; [done|]. apply list_elem_of_here.
      * right. exists c'. split; [done|]. by apply list_elem_of_further.
    + intros [Hk|[c' [-> Hc']]].
      * left. destruct (decide _); [done|]. apply elem_of_app. by left.
      * apply elem_of_cons in Hc' as [->|Hc'].
        -- left. destruct (decide _); [done|]. apply elem_of_app. right.
           apply list_elem_of_here.
        -- right. by exists c'.
Qed.

Lemma processRecords_spec arr sub rs : forall pos st,
  0 <= sub < Z.of_nat sublayersLength ->
  Z.of_nat sublayersLength <= MAX_ARRAY_LENGTH ->
  state_ok K st ->
  Forall (well_sized sublayers) rs ->
  exists st',
    processRecords K arr sub pos rs st = Returns st' /\
    state_ok K st' /\
    (features st').*1 = first_seen (features st).*1 (rec_cellNum <$> rs) /\
    (forall c, view (prior_properties K st' (Some c)) sub
       = cell_view_at K arr pos rs c (view (prior_properties K st (Some c)) sub)) /\
    (forall c s', s' <> sub ->
       view (prior_properties K st' c) s' = view (prior_properties K st c) s').
Proof.
  induction rs as [|r rs IH]; intros pos st Hsub Hmax Hok Hsize.
  - exists st. split; [done|]. split; [done|]. split; [done|]. by split.
  - apply Forall_cons in Hsize as [Hr Hrs]. cbn [processRecords].
    destruct (processRecord_spec arr sub pos r st Hsub Hmax Hok Hr)
      as (i' & st1 & -> & Hok1 & Hkeys1 & _ & Hview1 & Hframe1).
    cbn [obind].
    destruct (IH (pos + Z.of_nat (length (encode r))) st1 Hsub Hmax Hok1 Hrs)
      as (st2 & -> & Hok2 & Hkeys2 & Hview2 & Hframe2).
    exists st2. split; [done|]. split; [done|]. split; [|split].
    + rewrite Hkeys2, Hkeys1. done.
    + intros c. rewrite Hview2, Hview1. done.
    + intros c s' Hs'. by rewrite Hframe2, Hframe1.
Qed.

(** The values of a record, read from the stream that holds it. *)
Lemma js_index_record (pre : list Z) r (rest : list Z) j :
  0 <= j < Z.of_nat (length (rec_values r)) ->
  js_index (pre ++ encode r ++ rest)
    (j + (Z.of_nat (length pre) + CELL_VALUES_START_INDEX))
  = js_index (rec_values r) (j + 0).
Proof.
  intros Hj. replace (j + (Z.of_nat (length pre) + CELL_VALUES_START_INDEX))
    with (Z.of_nat (length pre) + (3 + j)) by (unfold CELL_VALUES_START_INDEX; lia).
  rewrite js_index_app_r by lia. rewrite Z.add_0_r.
  unfold js_index.
  replace (0 <=? 3 + j) with true by (symmetry; apply Z.leb_le; lia).
  replace (0 <=? j) with true by (symmetry; apply Z.leb_le; lia).
  replace (Z.to_nat (3 + j)) with (3 + Z.to_nat j)%nat by lia.
  unfold encode. simpl. apply lookup_app_l. lia.
Qed.

Lemma cell_view_at_whole rs : forall (pre rest : list Z) c w,
  Forall (whole sublayers) rs ->
  cell_view_at K (pre ++ stream_of rs ++ rest) (Z.of_nat (length pre)) rs c w
  = fold_left (fun w r => record_view K r w)
      (filter (fun r => rec_cellNum r = c) rs) w.
Proof.
  induction rs as [|r rs IH]; intros pre rest c w Hwhole; [done|].
  apply Forall_cons in Hwhole as [Hr Hrs]. cbn [cell_view_at].
  rewrite filter_cons.
  assert (pre ++ stream_of (r :: rs) ++ rest
          = (pre ++ encode r) ++ stream_of rs ++ rest) as Harr.
  { unfold stream_of. rewrite bind_cons. by rewrite <- !app_assoc. }
  replace (Z.of_nat (length pre) + Z.of_nat (length (encode r)))
    with (Z.of_nat (length (pre ++ encode r))) by (rewrite length_app; lia).
  destruct (decide (rec_cellNum r = c)) as [Hc|Hc].
  - cbn [fold_left]. rewrite <- (IH (pre ++ encode r) rest) by done.
    rewrite Harr. f_equal. unfold record_view.
    rewrite <- Harr. apply view_cell_ext.
    intros s e j [= <-] [= <-] Hj.
    assert (pre ++ stream_of (r :: rs) ++ rest
            = pre ++ encode r ++ (stream_of rs ++ rest)) as ->.
    { unfold stream_of. rewrite bind_cons. by rewrite <- !app_assoc. }
    apply js_index_record. unfold whole, declared_values in Hr. lia.
  - rewrite Harr. by apply IH.
Qed.

(** With no band per frame a record leaves the arrays and the start offset
    of its sublayer as they are. *)
Lemma view_cell_zero_bands arr sf ef si w :
  sublayers = 0 ->
  view_values (view_cell K arr sf ef si w) = view_values w /\
  view_dates (view_cell K arr sf ef si w) = view_dates w /\
  view_startOffset (view_cell K arr sf ef si w) = view_startOffset w.
Proof.
  intros Hzero. unfold view_cell.
  destruct (view_aggregate_arrays K
              match sf, ef with
              | Some s, Some e =>
                  view_loop K arr s si ((e - s + 1) * sublayers)
                    (Z.to_nat ((e - s + 1) * sublayers)) 0 (w, 0)
              | _, _ => (w, 0)
              end) as (-> & -> & ->).
  destruct sf as [s|], ef as [e|]; try done.
  rewrite Hzero, Z.mul_0_r. done.
Qed.

Lemma cell_view_at_zero_bands arr rs : forall pos c w,
  sublayers = 0 ->
  view_values (cell_view_at K arr pos rs c w) = view_values w /\
  view_dates (cell_view_at K arr pos rs c w) = view_dates w /\
  view_startOffset (cell_view_at K arr pos rs c w) = view_startOffset w.
Proof.
  induction rs as [|r rs IH]; intros pos c w Hzero; [done|].
  cbn [cell_view_at].
  destruct (IH (pos + Z.of_nat (length (encode r))) c
              (if decide (rec_cellNum r = c)
               then view_cell K arr (Some (rec_startFrame r - tileStartFrame))
                      (Some (rec_endFrame r - tileStartFrame))
                      (pos + CELL_VALUES_START_INDEX) w
               else w) Hzero) as (-> & -> & ->).
  destruct (decide _); [|done]. by apply view_cell_zero_bands.
Qed.

(** A stream read three tokens at a time. *)
Lemma triples_spec (arr : FourwingsRawData) :
  stream_of (triples arr).1 ++ (triples arr).2 = arr /\
  (length (triples arr).2 < 3)%nat /\
  Forall (fun r => rec_values r = []) (triples arr).1.
Proof.
  assert (forall n (l : FourwingsRawData), (length l <= n)%nat ->
            stream_of (triples l).1 ++ (triples l).2 = l /\
            (length (triples l).2 < 3)%nat /\
            Forall (fun r => rec_values r = []) (triples l).1) as Hind.
  { induction n as [|n IH]; intros l Hl.
    - destruct l; [|simpl in Hl; lia]. simpl. split; [done|]. split; [lia|done].
    - destruct l as [|c [|s [|e l]]]; simpl;
        try (split; [done|]; split; [lia|done]).
      destruct (IH l) as (Heq & Hlen & Hall); [simpl in Hl; lia|].
      split; [|split; [done|by constructor]].
      by rewrite Heq. }
  by apply (Hind (length arr)).
Qed.

End Records.

(** ** The scan of a sublayer *)

Section Scan.
Context {num : Type} `{JSNumber num} `{CellHelpers}.
Variable K : Constants num.

Local Abbreviation sublayers := (k_sublayers K).
Local Abbreviation sublayersLength := (k_sublayersLength K).
Local Abbreviation tileStartFrame := (k_tileStartFrame K).

Implicit Types (st : DecodeState num) (v : ScanVars) (arr : FourwingsRawData).

(** Three iterations from the first token of a record reach [processCell]. *)
Lemma scanLoop_record fuel arr sub i v st :
  v_indexInCell v = 0 ->
  i + 2 < Z.of_nat (length arr) ->
  scanLoop K (S (S (S fuel))) arr sub i v st =
    let* (i', st') :=
      processCell K arr sub (js_index arr i)
        ((fun x => x - tileStartFrame) <$> js_index arr (i + 1))
        ((fun x => x - tileStartFrame) <$> js_index arr (i + 2))
        (i + CELL_VALUES_START_INDEX) st in
    match i' with
    | Some i' =>
        scanLoop K fuel arr sub (i' + 1)
          {| v_cellNum := js_index arr i;
             v_startFrame := (fun x => x - tileStartFrame) <$> js_index arr (i + 1);
             v_endFrame := (fun x => x - tileStartFrame) <$> js_index arr (i + 2);
             v_startIndex := i + CELL_VALUES_START_INDEX;
             v_indexInCell := 0 |} st'
    | None => Returns st'
    end.
Proof.
  intros Hv Hi. destruct v as [c s e si ic]. simpl in Hv. subst ic.
  cbn [scanLoop].
  replace (i <? Z.of_nat (length arr)) with true
    by (symmetry; apply Z.ltb_lt; lia).
  unfold scanStep at 1. simpl. 
  replace (i + 1 <? Z.of_nat (length arr)) with true
    by (symmetry; apply Z.ltb_lt; lia).
  unfold scanStep at 1. simpl.
  replace (i + 1 + 1 <? Z.of_nat (length arr)) with true
    by (symmetry; apply Z.ltb_lt; lia).
  replace (i + 1 + 1) with (i + 2) by lia.
  destruct (processCell _ _ _ _ _ _ _ _) as [[[i'|] st']| |]; done.
Qed.

Lemma processCell_next arr sub c sf ef si st i' st' :
  processCell K arr sub c sf ef si st = Returns (i', st') ->
  i' = (fun k => si + k - 1) <$> numCellValues_of K sf ef.
Proof.
  unfold processCell. fold (numCellValues_of K sf ef).
  destruct (obj_get _ _); [|done].
  destruct (match numCellValues_of K sf ef with Some _ => _ | None => _ end);
    [|done..].
  simpl. by intros [= <- _].
Qed.

Lemma scanLoop_records rs : forall done rest sub v,
  v_indexInCell v = 0 ->
  Forall (whole sublayers) rs ->
  exists v', v_indexInCell v' = 0 /\ forall st fuel,
    scanLoop K (3 * length rs + fuel) (done ++ stream_of rs ++ rest) sub
      (Z.of_nat (length done)) v st =
    let* st' := processRecords K (done ++ stream_of rs ++ rest) sub
                  (Z.of_nat (length done)) rs st in
    scanLoop K fuel (done ++ stream_of rs ++ rest) sub
      (Z.of_nat (length done) + Z.of_nat (length (stream_of rs))) v' st'.
Proof.
  induction rs as [|r rs IH]; intros done rest sub v Hv Hwhole.
  - exists v. split; [done|]. intros st fuel. simpl. by rewrite Z.add_0_r.
  - apply Forall_cons in Hwhole as [Hr Hrs].
    destruct r as [c s e vals]. unfold whole, declared_values in Hr.
    simpl in Hr.
    set (r := {| rec_cellNum := c; rec_startFrame := s; rec_endFrame := e;
                 rec_values := vals |}).
    set (arr := done ++ stream_of (r :: rs) ++ rest).
    set (v1 := {| v_cellNum := Some c;
                  v_startFrame := Some (s - tileStartFrame);
                  v_endFrame := Some (e - tileStartFrame);
                  v_startIndex := Z.of_nat (length done) + CELL_VALUES_START_INDEX;
                  v_indexInCell := 0 |}).
    destruct (IH (done ++ encode r) rest sub v1 eq_refl Hrs)
      as (v' & Hv' & IHeq).
    exists v'. split; [done|]. intros st fuel.
    assert (arr = (done ++ encode r) ++ stream_of rs ++ rest) as Harr.
    { unfold arr. rewrite stream_of_cons. by rewrite <- !app_assoc. }
    assert (arr = done ++ (c :: s :: e :: vals ++ stream_of rs ++ rest))
      as Harr'.
    { unfold arr. rewrite stream_of_cons. unfold encode; simpl.
      by rewrite <- !app_assoc. }
    replace (3 * length (r :: rs) + fuel)%nat
      with (S (S (S (3 * length rs + fuel)))) by (simpl; lia).
    rewrite scanLoop_record; [|done|].
    2:{ rewrite Harr', length_app. simpl. lia. }
    assert (js_index arr (Z.of_nat (length done)) = Some c) as ->.
    { rewrite Harr'. rewrite <- (Z.add_0_r (Z.of_nat (length done))).
      by rewrite js_index_app_r. }
    assert (js_index arr (Z.of_nat (length done) + 1) = Some s) as ->.
    { rewrite Harr'. by rewrite js_index_app_r. }
    assert (js_index arr (Z.of_nat (length done) + 2) = Some e) as ->.
    { rewrite Harr'. by rewrite js_index_app_r. }
    cbn [processRecords]. unfold processRecord. fold arr. simpl fmap.
    cbn [rec_cellNum rec_startFrame rec_endFrame r].
    destruct (processCell K arr sub (Some c) (Some (s - tileStartFrame))
                (Some (e - tileStartFrame))
                (Z.of_nat (length done) + CELL_VALUES_START_INDEX) st)
      as [[i' st']| |] eqn:Hp; [|done..].
    apply processCell_next in Hp. simpl in Hp. subst i'. cbn [obind].
    fold v1.
    replace (Z.of_nat (length done) + CELL_VALUES_START_INDEX +
               (e - tileStartFrame - (s - tileStartFrame) + 1) * sublayers
               - 1 + 1)
      with (Z.of_nat (length (done ++ encode r)))
      by (rewrite length_app, length_encode; unfold CELL_VALUES_START_INDEX;
          simpl; lia).
    replace (Z.of_nat (length done) + Z.of_nat (length (encode r)))
      with (Z.of_nat (length (done ++ encode r)))
      by (rewrite length_app; lia).
    replace (Z.of_nat (length done) + Z.of_nat (length (stream_of (r :: rs))))
      with (Z.of_nat (length (done ++ encode r))
            + Z.of_nat (length (stream_of rs)))
      by (rewrite stream_of_cons, !length_app; lia).
    clearbody arr. subst arr. apply IHeq.
Qed.

Lemma length_stream_of_ge rs : (3 * length rs <= length (stream_of rs))%nat.
Proof.
  induction rs as [|r rs IH]; [done|].
  rewrite stream_of_cons, length_app, length_encode. simpl. lia.
Qed.

Lemma scanLoop_end fuel arr sub i v st :
  Z.of_nat (length arr) <= i -> scanLoop K (S fuel) arr sub i v st = Returns st.
Proof.
  intros Hi. simpl.
  by replace (i <? Z.of_nat (length arr)) with false
    by (symmetry; apply Z.ltb_ge; lia).
Qed.

Lemma processRecords_app arr sub rs1 : forall rs2 pos st,
  processRecords K arr sub pos (rs1 ++ rs2) st =
  let* st' := processRecords K arr sub pos rs1 st in
  processRecords K arr sub (pos + Z.of_nat (length (stream_of rs1))) rs2 st'.
Proof.
  induction rs1 as [|r rs1 IH]; intros rs2 pos st.
  - simpl. by rewrite Z.add_0_r.
  - cbn [app processRecords].
    destruct (processRecord K arr sub pos r st) as [[i' st']| |]; [|done..].
    cbn [obind]. rewrite IH.
    destruct (processRecords _ _ _ _ _ _); [|done..]. cbn [obind].
    f_equal. rewrite stream_of_cons, length_app. lia.
Qed.

(** The scan of the tokens that follow the last whole record. *)
Lemma scanLoop_tail fuel (pre tl : list Z) sub v st :
  v_indexInCell v = 0 ->
  tail_ok sublayers tl ->
  (length tl < fuel)%nat ->
  scanLoop K fuel (pre ++ tl) sub (Z.of_nat (length pre)) v st
  = processRecords K (pre ++ tl) sub (Z.of_nat (length pre))
      (tail_records tl) st.
Proof.
  intros Hv Htail Hfuel. destruct v as [vc vs ve vsi vi]. simpl in Hv. subst vi.
  destruct tl as [|c [|s [|e vals]]].
  - destruct fuel as [|fuel]; [simpl in Hfuel; lia|].
    rewrite scanLoop_end; [done|]. rewrite length_app. simpl. lia.
  - destruct fuel as [|[|fuel]]; [simpl in Hfuel; lia..|].
    cbn [scanLoop]. rewrite length_app. simpl length.
    replace (Z.of_nat (length pre) <? Z.of_nat (length pre + 1)) with true
      by (symmetry; apply Z.ltb_lt; lia).
    unfold scanStep. simpl.
    by replace (Z.of_nat (length pre) + 1 <? Z.of_nat (length pre + 1)) with false
      by (symmetry; apply Z.ltb_ge; lia).
  - destruct fuel as [|[|[|fuel]]]; [simpl in Hfuel; lia..|].
    cbn [scanLoop]. rewrite length_app. simpl length.
    replace (Z.of_nat (length pre) <? Z.of_nat (length pre + 2)) with true
      by (symmetry; apply Z.ltb_lt; lia).
    unfold scanStep at 1. simpl.
    replace (Z.of_nat (length pre) + 1 <? Z.of_nat (length pre + 2)) with true
      by (symmetry; apply Z.ltb_lt; lia).
    unfold scanStep. simpl.
    by replace (Z.of_nat (length pre) + 1 + 1 <? Z.of_nat (length pre + 2))
      with false by (symmetry; apply Z.ltb_ge; lia).
  - destruct fuel as [|[|[|[|fuel]]]]; [simpl in Hfuel; lia..|].
    unfold tail_ok, declared_values in Htail. simpl in Htail.
    rewrite Forall_singleton in Htail. simpl in Htail.
    rewrite scanLoop_record; [|done|rewrite length_app; simpl; lia].
    set (arr := pre ++ c :: s :: e :: vals).
    assert (js_index arr (Z.of_nat (length pre)) = Some c) as ->.
    { unfold arr. rewrite <- (Z.add_0_r (Z.of_nat (length pre))).
      by rewrite js_index_app_r. }
    assert (js_index arr (Z.of_nat (length pre) + 1) = Some s) as ->.
    { unfold arr. by rewrite js_index_app_r. }
    assert (js_index arr (Z.of_nat (length pre) + 2) = Some e) as ->.
    { unfold arr. by rewrite js_index_app_r. }
    cbn [tail_records processRecords]. unfold processRecord.
    cbn [rec_cellNum rec_startFrame rec_endFrame]. simpl fmap.
    destruct (processCell K arr sub (Some c) (Some (s - tileStartFrame))
                (Some (e - tileStartFrame))
                (Z.of_nat (length pre) + CELL_VALUES_START_INDEX) st)
      as [[i' st']| |] eqn:Hp; [|done..].
    apply processCell_next in Hp. simpl in Hp. subst i'. cbn [obind].
    apply scanLoop_end. unfold arr. rewrite length_app. simpl length.
    replace (e - tileStartFrame - (s - tileStartFrame) + 1) with (e - s + 1)
      by lia.
    unfold CELL_VALUES_START_INDEX. lia.
Qed.

(** The scan of whole records followed by such tokens processes the records
    in order, then the record read from the tokens. *)
Lemma scanLoop_parsed fuel rs tl sub st :
  Forall (whole sublayers) rs ->
  tail_ok sublayers tl ->
  (length (stream_of rs ++ tl) < fuel)%nat ->
  scanLoop K fuel (stream_of rs ++ tl) sub 0 initialScanVars st
  = processRecords K (stream_of rs ++ tl) sub 0 (rs ++ tail_records tl) st.
Proof.
  intros Hwhole Htail Hfuel. rewrite length_app in Hfuel.
  destruct (scanLoop_records rs [] tl sub initialScanVars eq_refl Hwhole)
    as (v' & Hv' & Heq).
  pose proof (length_stream_of_ge rs) as Hlen.
  specialize (Heq st (fuel - 3 * length rs)%nat).
  replace (3 * length rs + (fuel - 3 * length rs))%nat with fuel in Heq by lia.
  cbn [app length] in Heq.
  change (Z.of_nat 0) with 0 in Heq. rewrite Z.add_0_l in Heq. rewrite Heq.
  rewrite processRecords_app. rewrite Z.add_0_l.
  destruct (processRecords _ _ _ _ rs _) as [st'| |]; [|done..]. cbn [obind].
  apply scanLoop_tail; [done..|lia].
Qed.

Lemma sublayersLoop_parsed fuel (streams : list (list CellRecord * list Z)) :
  forall sub st,
  Forall (fun s => Forall (whole sublayers) s.1 /\ tail_ok sublayers s.2 /\
                   (length (stream_of s.1 ++ s.2) < fuel)%nat) streams ->
  sublayersLoop K fuel ((fun s => Some (stream_of s.1 ++ s.2)) <$> streams) sub st
  = processSublayers K
      ((fun s => (stream_of s.1 ++ s.2, s.1 ++ tail_records s.2)) <$> streams)
      sub st.
Proof.
  induction streams as [|[rs tl] streams IH]; intros sub st Hall; [done|].
  apply Forall_cons in Hall as [(Hrs & Htl & Hf) Hall]. simpl in Hrs, Htl, Hf.
  rewrite !fmap_cons. cbn [sublayersLoop processSublayers fst snd].
  rewrite scanLoop_parsed by done.
  destruct (processRecords _ _ _ _ _ _) as [st'| |]; [|done..]. cbn [obind].
  by apply IH.
Qed.

End Scan.

(** ** The sublayers of a tile *)

Section Sublayers.
Context {num : Type} `{JSNumber num} `{CellHelpers}.
Variable K : Constants num.

Local Abbreviation sublayers := (k_sublayers K).
Local Abbreviation sublayersLength := (k_sublayersLength K).

Implicit Types (st : DecodeState num).

Lemma processSublayers_spec
    (streams : list (FourwingsRawData * list CellRecord)) : forall sub st,
  0 <= sub ->
  sub + Z.of_nat (length streams) <= Z.of_nat sublayersLength ->
  Z.of_nat sublayersLength <= MAX_ARRAY_LENGTH ->
  state_ok K st ->
  Forall (fun s => Forall (well_sized sublayers) s.2) streams ->
  exists st',
    processSublayers K streams sub st = Returns st' /\
    state_ok K st' /\
    (features st').*1
      = first_seen (features st).*1 (streams ≫= (fun s => rec_cellNum <$> s.2)) /\
    (forall c (i : nat) arr rs, streams !! i = Some (arr, rs) ->
       view (prior_properties K st' (Some c)) (sub + Z.of_nat i)
       = cell_view_at K arr 0 rs c
           (view (prior_properties K st (Some c)) (sub + Z.of_nat i))) /\
    (forall c s', s' < sub \/ sub + Z.of_nat (length streams) <= s' ->
       view (prior_properties K st' c) s' = view (prior_properties K st c) s').
Proof.
  induction streams as [|[arr rs] streams IH]; intros sub st Hsub Hlen Hmax Hok Hsize.
  - exists st. split; [done|]. split; [done|]. split; [done|]. by split.
  - apply Forall_cons in Hsize as [Hrs Hrss]. cbn [processSublayers].
    rewrite length_cons in Hlen. simpl in Hrs.
    destruct (processRecords_spec K arr sub rs 0 st)
      as (st1 & -> & Hok1 & Hkeys1 & Hview1 & Hframe1); try done; [lia|].
    cbn [obind].
    destruct (IH (sub + 1) st1) as (st2 & -> & Hok2 & Hkeys2 & Hview2 & Hframe2);
      try done; [lia..|].
    exists st2. split; [done|]. split; [done|]. split; [|split].
    + rewrite Hkeys2, Hkeys1. rewrite bind_cons. by rewrite first_seen_app.
    + intros c [|i] arr' rs' Hi; simpl in Hi.
      * injection Hi as <- <-. rewrite Z.add_0_r.
        rewrite Hframe2 by lia. apply Hview1.
      * replace (sub + Z.of_nat (S i)) with (sub + 1 + Z.of_nat i) by lia.
        rewrite (Hview2 _ _ _ _ Hi). f_equal. apply Hframe1. lia.
    + intros c s' Hs'. rewrite length_cons in Hs'.
      rewrite Hframe2 by lia. apply Hframe1. lia.
Qed.

End Sublayers.

(** ** The entries written by the records of a cell *)

Section RecordView.
Context {num : Type} `{JSNumber num} `{CellHelpers}.
Variable K : Constants num.

Local Abbreviation sublayers := (k_sublayers K).
Local Abbreviation tileStartFrame := (k_tileStartFrame K).

Implicit Types (w : SublayerView num) (r : CellRecord).

(** A record written into a sublayer without entries. *)
Lemma record_view_fresh r w :
  view_values w = None ->
  record_view K r w
  = view_aggregate K
      match record_data K r with
      | [] => (w, 0)
      | js => written K (rec_values r) (rec_startFrame r - tileStartFrame) 0
                (declared_values sublayers r) js
      end.
Proof.
  intros Hw. unfold record_view, view_cell, record_data, declared_values.
  replace (rec_endFrame r - tileStartFrame
           - (rec_startFrame r - tileStartFrame) + 1)
    with (rec_endFrame r - rec_startFrame r + 1) by lia.
  by rewrite view_loop_fresh.
Qed.

Lemma record_view_data r w :
  view_values w = None -> record_data K r <> [] ->
  record_view K r w
  = view_aggregate K
      (written K (rec_values r) (rec_startFrame r - tileStartFrame) 0
         (declared_values sublayers r) (record_data K r)).
Proof.
  intros Hw Hne. rewrite record_view_fresh by done.
  by destruct (record_data K r).
Qed.

(** A slot that no data position of the record falls in is unset. *)
Lemma record_view_gap r q :
  Forall (fun j => j / sublayers <> q) (record_data K r) ->
  (view_values (record_view K r unset) ≫= fun a => array_get a q) = None /\
  (view_dates (record_view K r unset) ≫= fun d => array_get d q) = None.
Proof.
  intros Hother.
  destruct (decide (record_data K r = [])) as [Hnil|Hne].
  - rewrite record_view_fresh, Hnil by done.
    destruct (view_aggregate_arrays K (@unset num, 0)) as (-> & -> & _). done.
  - rewrite record_view_data by done.
    destruct (view_aggregate_arrays K
                (written K (rec_values r) (rec_startFrame r - tileStartFrame) 0
                   (declared_values sublayers r) (record_data K r)))
      as (-> & -> & _).
    unfold written. cbn [fst view_values view_dates].
    unfold stored_values, stored_dates. cbn [mbind option_bind].
    rewrite (stored_other (fun j => j / sublayers)) by done.
    rewrite (stored_other (fun j => j / sublayers)) by done.
    by rewrite !array_get_replicate.
Qed.

(** A record without data leaves the arrays and the start offset of its
    sublayer as they are. *)
Lemma record_view_sentinel r w :
  view_values w = None -> record_data K r = [] ->
  view_values (record_view K r w) = None /\
  view_dates (record_view K r w) = view_dates w /\
  view_startOffset (record_view K r w) = view_startOffset w.
Proof.
  intros Hw Hdata. rewrite record_view_fresh, Hdata by done.
  unfold view_aggregate. by destruct (String.eqb _ _).
Qed.

Lemma cell_view_sentinel rs c :
  Forall (fun r => rec_cellNum r = c -> record_data K r = []) rs ->
  view_values (cell_view K rs c) = None /\
  view_dates (cell_view K rs c) = None /\
  view_startOffset (cell_view K rs c) = None.
Proof.
  intros Hall. unfold cell_view.
  assert (Forall (fun r => record_data K r = [])
            (filter (fun r => rec_cellNum r = c) rs)) as Hrs.
  { apply Forall_forall. intros r [Hc Hin]%list_elem_of_filter.
    rewrite Forall_forall in Hall. by apply Hall. }
  revert Hrs. generalize (filter (fun r => rec_cellNum r = c) rs) as l.
  assert (view_values (@unset num) = None /\ view_dates (@unset num) = None /\
          view_startOffset (@unset num) = None) as Hw by done.
  revert Hw. generalize (@unset num) as w.
  intros w Hw l. revert w Hw. induction l as [|r l IH]; intros w Hw Hl; [done|].
  apply Forall_cons in Hl as [Hr Hl]. simpl. apply IH; [|done].
  destruct Hw as (Hv & Hd & Hs).
  destruct (record_view_sentinel r w Hv Hr) as (-> & -> & ->). done.
Qed.

Lemma cell_view_only rs r :
  only_record rs r -> cell_view K rs (rec_cellNum r) = record_view K r unset.
Proof.
  intros (rs1 & rs2 & -> & H1 & H2). unfold cell_view.
  assert (forall l, rec_cellNum r ∉ rec_cellNum <$> l ->
            filter (fun r' => rec_cellNum r' = rec_cellNum r) l = []) as Hnil.
  { intros l Hl. induction l as [|r' l IH]; [done|].
    rewrite fmap_cons, not_elem_of_cons in Hl. destruct Hl as [Hne Hl].
    rewrite filter_cons, decide_False by done. by apply IH. }
  rewrite filter_app, filter_cons, decide_True by done.
  by rewrite !Hnil.
Qed.

Lemma filter_none {A} (P : A -> Prop) `{forall x, Decision (P x)} (l : list A) :
  Forall (fun x => ~ P x) l -> filter P l = [].
Proof.
  induction 1 as [|x l Hx Hl IH]; [done|].
  by rewrite filter_cons, decide_False.
Qed.

(** The positions of a whole record hold its values. *)
Lemma js_index_values r j :
  whole sublayers r -> 0 <= j < declared_values sublayers r ->
  exists v, rec_values r !! Z.to_nat j = Some v /\
            js_index (rec_values r) (j + 0) = Some v.
Proof.
  intros Hwhole Hj. unfold whole in Hwhole.
  destruct (lookup_lt_is_Some_2 (rec_values r) (Z.to_nat j)) as [v Hv]; [lia|].
  exists v. split; [done|]. rewrite Z.add_0_r. unfold js_index.
  by replace (0 <=? j) with true by (symmetry; apply Z.leb_le; lia).
Qed.

(** A whole record of sentinels has no data position. *)
Lemma record_data_sentinel r :
  whole sublayers r ->
  Forall (fun v => v = k_noDataValue K) (rec_values r) ->
  record_data K r = [].
Proof.
  intros Hwhole Hall. unfold record_data, data_positions.
  apply filter_none, Forall_forall. intros j Hj%elem_of_seqZ.
  destruct (js_index_values r j Hwhole) as (v & Hv & ->); [lia|].
  rewrite Forall_forall in Hall.
  rewrite (Hall v) by (by eapply list_elem_of_lookup_2).
  simpl. by rewrite Z.eqb_refl.
Qed.

(** A whole record with a value that is not the sentinel has a data
    position. *)
Lemma record_data_value r (i : nat) v :
  whole sublayers r -> rec_values r !! i = Some v -> v <> k_noDataValue K ->
  Z.of_nat i ∈ record_data K r.
Proof.
  intros Hwhole Hv Hne. unfold record_data. apply elem_of_data_positions.
  pose proof (lookup_lt_Some _ _ _ Hv) as Hlt. unfold whole in Hwhole.
  split; [lia|]. rewrite Z.add_0_r, js_index_nat, Hv. simpl.
  by apply negb_true_iff, Z.eqb_neq.
Qed.

(** The positions of a whole record that are counted in the time range: those
    that hold a value other than the sentinel and whose raw position, added to
    the start frame, lies in the range. *)
Lemma elem_of_record_counted r j :
  whole sublayers r ->
  j ∈ record_counted K r <->
  exists v, 0 <= j /\ rec_values r !! Z.to_nat j = Some v /\
    v <> k_noDataValue K /\
    k_timeRangeStartFrame K <= j + (rec_startFrame r - tileStartFrame)
      < k_timeRangeEndFrame K.
Proof.
  intros Hwhole. unfold record_counted, counted, record_data.
  rewrite list_elem_of_filter, elem_of_data_positions.
  unfold in_time_range. rewrite andb_true_iff, Z.leb_le, Z.ltb_lt.
  split.
  - intros (Hrange & Hj & Hdata).
    destruct (js_index_values r j Hwhole Hj) as (v & Hv & Hidx).
    rewrite Hidx in Hdata. simpl in Hdata.
    apply negb_true_iff, Z.eqb_neq in Hdata.
    exists v. split; [lia|]. by split.
  - intros (v & Hj & Hv & Hne & Hrange). split; [done|].
    pose proof (lookup_lt_Some _ _ _ Hv) as Hlt. unfold whole in Hwhole.
    split; [lia|]. rewrite Z.add_0_r. unfold js_index.
    replace (0 <=? j) with true by (symmetry; apply Z.leb_le; lia).
    rewrite Hv. simpl. by apply negb_true_iff, Z.eqb_neq.
Qed.

Lemma frame_index_bounds bands j : 1 <= bands -> 0 <= j -> 0 <= j / bands <= j.
Proof.
  intros Hb Hj. split; [apply Z.div_pos; lia|].
  apply Z.div_le_upper_bound; [lia|]. nia.
Qed.

(** The dense arrays of a record with data, written into a sublayer without
    entries, have one slot per declared value. *)
Lemma written_lengths arr sf si k js :
  1 <= sublayers ->
  Forall (fun j => 0 <= j < k) js ->
  Z.of_nat (length (stored_values K arr si js (replicate (Z.to_nat k) None)))
    = Z.max k 0 /\
  Z.of_nat (length (stored_dates K sf js (replicate (Z.to_nat k) None)))
    = Z.max k 0.
Proof.
  intros Hb Hjs. unfold stored_values, stored_dates.
  rewrite !stored_length; rewrite ?length_replicate; try lia.
  all: eapply Forall_impl; [exact Hjs|]; intros j Hj; simpl in *.
  all: pose proof (frame_index_bounds sublayers j Hb); lia.
Qed.

Lemma record_data_bounds r :
  Forall (fun j => 0 <= j < declared_values sublayers r) (record_data K r).
Proof.
  apply Forall_forall. intros j Hj. unfold record_data in Hj.
  by apply elem_of_data_positions in Hj as [? _].
Qed.

End RecordView.

(** ** The returned sequence *)

Section Output.
Context {num : Type} `{JSNumber num} `{CellHelpers}.
Variable K : Constants num.

Implicit Types (st : DecodeState num) (f : FourwingsFeature num).

Lemma newFeature_cellNum c : cellNum (properties (newFeature K c)) = c.
Proof. by rewrite newFeature_properties. Qed.

Lemma state_ok_entry st k f :
  state_ok K st -> (k, f) ∈ features st ->
  obj_get (features st) k = Some f /\ cellNum (properties f) = k /\
  same_cell f (newFeature K k) /\
  properties f = prior_properties K st k.
Proof.
  intros (Hnd & _ & Hall) Hin.
  pose proof (obj_get_elem _ _ _ Hnd Hin) as Hget.
  destruct (Hall _ _ Hget) as [_ Hcell].
  split; [done|]. split; [|split; [done|]].
  - destruct Hcell as (_&_&_&_&_&->&_). apply newFeature_cellNum.
  - symmetry. by apply prior_properties_get.
Qed.

Lemma output_entry st f :
  state_ok K st -> f ∈ Object_values (features st) ->
  exists k, obj_get (features st) k = Some f /\ cellNum (properties f) = k /\
    same_cell f (newFeature K k) /\ properties f = prior_properties K st k.
Proof.
  intros Hok [k Hin]%elem_of_Object_values. exists k.
  by apply state_ok_entry.
Qed.

Lemma output_cellNums st :
  state_ok K st ->
  cellNums (Object_values (features st)) = (own_properties (features st)).*1.
Proof.
  intros Hok. unfold cellNums, Object_values.
  rewrite <- list_fmap_compose. apply list_fmap_ext.
  intros i [k f] Hi. simpl.
  assert ((k, f) ∈ features st) as Hin.
  { rewrite <- (own_properties_perm (features st)).
    by eapply list_elem_of_lookup_2. }
  by destruct (state_ok_entry _ _ _ Hok Hin) as (_ & ? & _).
Qed.

Lemma output_cellNums_perm st :
  state_ok K st -> cellNums (Object_values (features st)) ≡ₚ (features st).*1.
Proof.
  intros Hok. rewrite output_cellNums by done. by rewrite own_properties_perm.
Qed.

End Output.

(** ** The decoding of whole records *)

Section Decode.
Context {num : Type} `{JSNumber num} `{CellHelpers} `{TimeHelpers}.

Implicit Types (st : DecodeState num) (rss : list (list CellRecord)).

Lemma emptyState_ok (K : Constants num) : state_ok K emptyState.
Proof. split; [apply NoDup_nil_2|]. split; [done|]. by intros c f. Qed.

Lemma whole_well_sized bands rs :
  Forall (whole bands) rs ->
  Z.of_nat (length (stream_of rs)) <= MAX_ARRAY_LENGTH ->
  Forall (well_sized bands) rs.
Proof.
  induction rs as [|r rs IH]; intros Hwhole Hlen; [done|].
  apply Forall_cons in Hwhole as [Hr Hrs].
  rewrite stream_of_cons, length_app, length_encode in Hlen.
  constructor; [|apply IH; [done|lia]].
  unfold well_sized. unfold whole in Hr. lia.
Qed.

(** The state after the sublayers of a parsed input: the keys of [features]
    are the cell numbers in the order they are first met, and the entries of
    a sublayer in a feature are those the records of its own stream wrote. *)
Lemma decode_parsed fuel streams options o range cfg t :
  configured options o range cfg t ->
  parsed_input (sublayers o) fuel streams ->
  exists st,
    sublayersLoop (callConstants o range cfg t (length streams)) fuel
      (parsed_arrays streams) 0 emptyState = Returns st /\
    getCellTimeseries fuel (parsed_arrays streams) options
      = Returns (Object_values (features st)) /\
    state_ok (callConstants o range cfg t (length streams)) st /\
    (features st).*1
      = first_seen [] (streams ≫= (fun s => rec_cellNum <$> parsed_records s)) /\
    (forall c (i : nat) s, streams !! i = Some s ->
      view (prior_properties (callConstants o range cfg t (length streams)) st
              (Some c)) (Z.of_nat i)
      = cell_view_at (callConstants o range cfg t (length streams))
          (stream_of s.1 ++ s.2) 0 (parsed_records s) c unset) /\
    (forall c s', s' < 0 \/ Z.of_nat (length streams) <= s' ->
      view (prior_properties (callConstants o range cfg t (length streams)) st c)
        s' = unset).
Proof.
  intros (Ho & Hrange & Hcfg & Htile) [Hmax Hall].
  set (K := callConstants o range cfg t (length streams)).
  set (prs := (fun s : list CellRecord * FourwingsRawData =>
                 (stream_of s.1 ++ s.2, parsed_records s)) <$> streams).
  destruct (processSublayers_spec K prs 0 emptyState) as
    (st & Hps & Hok & Hkeys & Hview & Hframe); try done.
  { unfold prs. rewrite length_fmap. unfold K. simpl. lia. }
  { apply emptyState_ok. }
  { unfold prs. rewrite Forall_fmap. eapply Forall_impl; [exact Hall|].
    by intros s (_ & _ & ? & _). }
  assert (sublayersLoop K fuel (parsed_arrays streams) 0 emptyState = Returns st)
    as Hloop.
  { unfold parsed_arrays. rewrite sublayersLoop_parsed; [done|].
    eapply Forall_impl; [exact Hall|]. by intros s (? & ? & _ & ?). }
  exists st. split; [done|]. split; [|split; [done|split; [|split]]].
  - unfold getCellTimeseries. rewrite Ho, Hrange, Hcfg, Htile.
    unfold parsed_arrays at 1. rewrite length_fmap. fold K.
    by rewrite Hloop.
  - rewrite Hkeys. simpl. f_equal. unfold prs.
    clear. induction streams as [|s streams IH]; [done|].
    rewrite fmap_cons, !bind_cons. by rewrite IH.
  - intros c i s Hi.
    assert (prs !! i = Some (stream_of s.1 ++ s.2, parsed_records s)) as Hi'.
    { unfold prs. by rewrite list_lookup_fmap, Hi. }
    specialize (Hview c i _ _ Hi'). rewrite Z.add_0_l in Hview.
    rewrite Hview.
    change (prior_properties K emptyState (Some c))
      with (properties (newFeature K (Some c))).
    by rewrite newFeature_view.
  - intros c s' Hs'. rewrite Hframe.
    + change (prior_properties K emptyState c)
        with (properties (newFeature K c)).
      apply newFeature_view.
    + unfold prs. rewrite length_fmap. lia.
Qed.

Lemma valid_input_parsed bands fuel rss :
  valid_input bands rss -> enough_fuel fuel rss ->
  parsed_input bands fuel ((fun rs => (rs, [])) <$> rss).
Proof.
  intros [Hmax Hall] Hfuel. split; [by rewrite length_fmap|].
  rewrite Forall_fmap. apply Forall_forall. intros rs Hrs.
  unfold enough_fuel in Hfuel. rewrite Forall_forall in Hall, Hfuel.
  destruct (Hall _ Hrs) as [Hw Hl]. specialize (Hfuel _ Hrs).
  unfold parsed_records. simpl. rewrite !app_nil_r.
  split; [done|]. split; [by constructor|]. split; [|done].
  by apply whole_well_sized.
Qed.

Lemma parsed_arrays_whole rss :
  parsed_arrays ((fun rs => (rs, [])) <$> rss) = intArrays_of rss.
Proof.
  unfold parsed_arrays, intArrays_of. rewrite <- list_fmap_compose.
  apply list_fmap_ext. intros i rs _. simpl. by rewrite app_nil_r.
Qed.

(** The state after the sublayers of a valid input. *)
Lemma decode_whole fuel rss options o range cfg t :
  configured options o range cfg t ->
  valid_input (sublayers o) rss ->
  enough_fuel fuel rss ->
  exists st,
    sublayersLoop (callConstants o range cfg t (length rss)) fuel
      (intArrays_of rss) 0 emptyState = Returns st /\
    getCellTimeseries fuel (intArrays_of rss) options
      = Returns (Object_values (features st)) /\
    state_ok (callConstants o range cfg t (length rss)) st /\
    (features st).*1 = first_seen [] (rss ≫= fmap rec_cellNum) /\
    forall c (s : nat) rs, rss !! s = Some rs ->
      view (prior_properties (callConstants o range cfg t (length rss)) st
              (Some c)) (Z.of_nat s)
      = cell_view (callConstants o range cfg t (length rss)) rs c.
Proof.
  intros Hconf Hvalid Hfuel.
  destruct (decode_parsed fuel _ options o range cfg t Hconf
              (valid_input_parsed _ _ _ Hvalid Hfuel))
    as (st & Hloop & Hget & Hok & Hkeys & Hview & _).
  rewrite parsed_arrays_whole, length_fmap in *.
  exists st. split; [done|]. split; [done|]. split; [done|]. split.
  - rewrite Hkeys. f_equal. clear.
    induction rss as [|rs rss IH]; [done|].
    rewrite fmap_cons, !bind_cons, IH. unfold parsed_records. simpl.
    by rewrite app_nil_r.
  - intros c s rs Hs.
    rewrite (Hview c s (rs, [])) by (by rewrite list_lookup_fmap, Hs).
    unfold parsed_records. simpl. rewrite !app_nil_r.
    destruct Hvalid as [_ Hall]. rewrite Forall_forall in Hall.
    destruct (Hall rs) as [Hrs _]; [by eapply list_elem_of_lookup_2|].
    pose proof (cell_view_at_whole (callConstants o range cfg t (length rss))
                  rs [] [] c unset Hrs) as Hat.
    cbn [app length] in Hat. rewrite app_nil_r in Hat.
    change (Z.of_nat 0) with 0 in Hat. by rewrite Hat.
Qed.

(** The feature of a cell that has a record in the stream of sublayer
    [s]. *)
Lemma decode_cell fuel rss options o range cfg t (s : nat) rs c :
  configured options o range cfg t ->
  valid_input (sublayers o) rss ->
  enough_fuel fuel rss ->
  rss !! s = Some rs ->
  c ∈ rec_cellNum <$> rs ->
  exists fs f,
    getCellTimeseries fuel (intArrays_of rss) options = Returns fs /\
    f ∈ fs /\ cellNum (properties f) = Some c /\
    view (properties f) (Z.of_nat s)
    = cell_view (callConstants o range cfg t (length rss)) rs c.
Proof.
  intros Hconf Hvalid Hfuel Hs Hc.
  destruct (decode_whole fuel rss options o range cfg t Hconf Hvalid Hfuel)
    as (st & Hloop & Hget & Hok & Hkeys & Hview).
  assert (is_Some (obj_get (features st) (Some c))) as [f Hf].
  { apply obj_get_is_Some. rewrite Hkeys, elem_of_first_seen. right.
    exists c. split; [done|]. apply list_elem_of_bind. exists rs.
    split; [done|]. by eapply list_elem_of_lookup_2. }
  pose proof (obj_get_Some_elem _ _ _ Hf) as Hin.
  destruct (state_ok_entry _ _ _ _ Hok Hin) as (_ & Hnum & _ & Hprior).
  exists (Object_values (features st)), f.
  split; [done|]. split; [apply elem_of_Object_values; eauto|].
  split; [done|]. rewrite Hprior. by apply Hview.
Qed.

(** The feature of a cell that has one record in the stream of sublayer
    [s]. *)
Lemma decode_only_record fuel rss options o range cfg t (s : nat) rs r :
  configured options o range cfg t ->
  valid_input (sublayers o) rss ->
  enough_fuel fuel rss ->
  rss !! s = Some rs ->
  only_record rs r ->
  whole (sublayers o) r /\
  exists fs f,
    getCellTimeseries fuel (intArrays_of rss) options = Returns fs /\
    f ∈ fs /\ cellNum (properties f) = Some (rec_cellNum r) /\
    view (properties f) (Z.of_nat s)
    = record_view (callConstants o range cfg t (length rss)) r unset.
Proof.
  intros Hconf Hvalid Hfuel Hs Honly.
  assert (r ∈ rs) as Hr.
  { destruct Honly as (rs1 & rs2 & -> & _). apply elem_of_app. right.
    apply list_elem_of_here. }
  split.
  { destruct Hvalid as [_ Hall]. rewrite Forall_forall in Hall.
    destruct (Hall rs) as [Hrs _]; [by eapply list_elem_of_lookup_2|].
    rewrite Forall_forall in Hrs. by apply Hrs. }
  destruct (decode_cell fuel rss options o range cfg t s rs (rec_cellNum r))
    as (fs & f & Hget & Hf & Hnum & Hview); try done.
  { apply list_elem_of_fmap. by exists r. }
  exists fs, f. split; [done|]. split; [done|]. split; [done|].
  rewrite Hview. by apply cell_view_only.
Qed.

Lemma tail_records_short (tl : FourwingsRawData) :
  (length tl < 3)%nat -> tail_records tl = [].
Proof. destruct tl as [|? [|? [|? ?]]]; simpl; [done..|lia]. Qed.

(** The tokens of a truncated record hold no more values than it declares,
    and it declares as many as the record that was cut. *)
Lemma truncated_tail bands (tl : FourwingsRawData) :
  truncated bands tl ->
  tail_ok bands tl /\ Forall (well_sized bands) (tail_records tl).
Proof.
  intros (r & n & Hwhole & Hsized & Hn & ->).
  destruct r as [c s e vals]. unfold encode in *. simpl in *.
  destruct n as [|[|[|n]]]; try (by split; constructor).
  simpl. unfold tail_ok, well_sized, whole, declared_values in *. simpl in *.
  split; constructor; try done. simpl.
  rewrite length_take. lia.
Qed.

End Decode.

(** * Further lemmas

    The sub-buffers of [parseFourwings], the decoding of streams that are not
    made of whole records, and cells with several records. *)

(** ** The sub-buffers of [parseFourwings] *)

Section SubBufferFacts.
Context {num : Type} `{JSNumber num} `{CellHelpers} `{TimeHelpers} `{PbfLibrary}.

Lemma ArrayBuffer_slice_inside (buffer : list Byte.byte) start n :
  0 <= start -> 0 <= n -> start + n <= Z.of_nat (length buffer) ->
  ArrayBuffer_slice buffer start (Some (start + n))
  = take (Z.to_nat n) (drop (Z.to_nat start) buffer).
Proof.
  intros Hs Hn Hlen. unfold ArrayBuffer_slice. simpl.
  replace (start <? 0) with false by (symmetry; apply Z.ltb_ge; lia).
  replace (start + n <? 0) with false by (symmetry; apply Z.ltb_ge; lia).
  rewrite !Z.min_l by lia. do 2 f_equal. lia.
Qed.

Lemma total_length_nonneg lengths :
  Forall (fun n => 0 <= n) lengths -> 0 <= total_length lengths.
Proof. induction 1; simpl; lia. Qed.

(** The callback of [buffersLength.map] reads the pieces of the buffer one
    after the other. *)
Lemma readBuffers_subBuffers datasetsBuffer buffersLength rest :
  forall (index : nat) start,
  (index + length rest = length buffersLength)%nat ->
  Forall (fun n => 0 <= n) rest ->
  0 <= start ->
  start + total_length rest <= Z.of_nat (length datasetsBuffer) ->
  readBuffers datasetsBuffer buffersLength rest index start
  = readStreams rest (subBuffers (drop (Z.to_nat start) datasetsBuffer) rest).
Proof.
  induction rest as [|n rest IH]; intros index start Hidx Hpos Hstart Hlen;
    [done|].
  apply Forall_cons in Hpos as [Hn Hrest].
  pose proof (total_length_nonneg rest Hrest) as Htot.
  simpl in Hidx, Hlen. cbn [readBuffers subBuffers readStreams].
  unfold readStream. destruct (n =? 0) eqn:En.
  - apply Z.eqb_eq in En. subst n. cbn [obind].
    rewrite (IH (S index) start) by (done || lia).
    by rewrite drop_0.
  - apply Z.eqb_neq in En.
    rewrite decide_True by lia.
    rewrite ArrayBuffer_slice_inside by lia.
    destruct (readFields_readData _) as [fields| |]; [|done..]. cbn [obind].
    rewrite (IH (S index) (start + n)) by (done || lia).
    rewrite drop_drop. by replace (Z.to_nat start + Z.to_nat n)%nat
      with (Z.to_nat (start + n)) by lia.
Qed.

Lemma parseFourwings_streams fuel datasetsBuffer options lengths :
  (options ≫= fourwings) ≫= buffersLength = Some lengths ->
  Forall (fun n => 0 <= n) lengths ->
  total_length lengths <= Z.of_nat (length datasetsBuffer) ->
  lengths <> [] ->
  parseFourwings fuel datasetsBuffer options =
    let* intArrays := readStreams lengths (subBuffers datasetsBuffer lengths) in
    getCellTimeseries fuel intArrays options.
Proof.
  intros Hopt Hpos Hlen Hne. unfold parseFourwings. rewrite Hopt.
  destruct lengths as [|n lengths]; [done|].
  rewrite readBuffers_subBuffers by (done || lia). done.
Qed.

Lemma subBuffers_lengths lengths : forall buffer : list Byte.byte,
  Forall (fun n => 0 <= n) lengths ->
  total_length lengths <= Z.of_nat (length buffer) ->
  Forall2 (fun n sub => Z.of_nat (length sub) = n) lengths
    (subBuffers buffer lengths).
Proof.
  induction lengths as [|n lengths IH]; intros buffer Hpos Hlen;
    [by constructor|].
  apply Forall_cons in Hpos as [Hn Hrest].
  pose proof (total_length_nonneg lengths Hrest) as Htot.
  simpl in Hlen. simpl. constructor.
  - rewrite length_take. lia.
  - apply IH; [done|]. rewrite length_drop. lia.
Qed.

Lemma subBuffers_concat lengths : forall buffer : list Byte.byte,
  Forall (fun n => 0 <= n) lengths ->
  concat (subBuffers buffer lengths)
  = take (Z.to_nat (total_length lengths)) buffer.
Proof.
  induction lengths as [|n lengths IH]; intros buffer Hpos; [done|].
  apply Forall_cons in Hpos as [Hn Hrest].
  pose proof (total_length_nonneg lengths Hrest) as Htot.
  simpl. rewrite IH by done.
  replace (Z.to_nat (n + total_length lengths))
    with (Z.to_nat n + Z.to_nat (total_length lengths))%nat by lia.
  by rewrite take_take_drop.
Qed.

(** The first failure of the reader is the outcome of the reads. *)
Lemma readStreams_throws lengths : forall subs (i : nat) n sub e,
  lengths !! i = Some n -> subs !! i = Some sub -> n <> 0 ->
  readFields_readData sub = Throws e ->
  (forall (i' : nat) n' sub', (i' < i)%nat -> lengths !! i' = Some n' ->
     subs !! i' = Some sub' -> n' <> 0 ->
     exists fields, readFields_readData sub' = Returns fields) ->
  readStreams lengths subs = Throws e.
Proof.
  induction lengths as [|n0 lengths IH]; intros subs i n sub e Hn Hsub Hne He Hbefore;
    [done|].
  destruct subs as [|sub0 subs]; [done|].
  cbn [readStreams]. destruct i as [|i].
  - simpl in Hn, Hsub. injection Hn as ->. injection Hsub as ->.
    unfold readStream. rewrite (proj2 (Z.eqb_neq n 0)) by done.
    by rewrite He.
  - simpl in Hn, Hsub.
    assert (exists arr, readStream n0 sub0 = Returns arr) as [arr ->].
    { unfold readStream. destruct (n0 =? 0) eqn:E0; [eauto|].
      apply Z.eqb_neq in E0.
      destruct (Hbefore 0%nat n0 sub0) as [fields ->]; try done; [lia|].
      simpl. eauto. }
    cbn [obind]. rewrite (IH subs i n sub e); try done.
    intros i' n' sub' Hi' Hn' Hsub' Hne'.
    apply (Hbefore (S i') n' sub'); try done. lia.
Qed.

Lemma sublayersLoop_empty (K : Constants num) fuel (n : nat) : forall sub st,
  sublayersLoop K (S fuel) (replicate n (Some [])) sub st = Returns st.
Proof.
  induction n as [|n IH]; intros sub st; [done|].
  cbn [replicate sublayersLoop scanLoop]. simpl. apply IH.
Qed.

End SubBufferFacts.

(** ** What holds of every result: the decoding of arbitrary streams *)

Section Returned.
Context {num : Type} `{JSNumber num} `{CellHelpers}.
Variable K : Constants num.

Local Abbreviation sublayers := (k_sublayers K).
Local Abbreviation sublayersLength := (k_sublayersLength K).

Implicit Types (p : FeatureProperties num) (st : DecodeState num)
  (w : SublayerView num).

Lemma new_Array_invalid {A} (n : Z) :
  ~ 0 <= n <= MAX_ARRAY_LENGTH -> @new_Array A n = Throws RangeError.
Proof.
  intros Hn. unfold new_Array.
  destruct (Z.leb_spec 0 n); [|done].
  destruct (Z.leb_spec n MAX_ARRAY_LENGTH); [lia|done].
Qed.

(** An iteration of the loop over the values that returns has the effect
    of [view_step], whatever the size of the record. *)
Lemma cellValueStep_returned arr sub sf si k j p counts p' counts' :
  0 <= sub < Z.of_nat sublayersLength ->
  Z.of_nat sublayersLength <= MAX_ARRAY_LENGTH ->
  well_formed sublayersLength p ->
  length counts = sublayersLength ->
  cellValueStep K arr sub sf si k j (p, counts) = Returns (p', counts') ->
  (view p' sub, counts' !!! Z.to_nat sub)
    = view_step K arr sf si k j (view p sub, counts !!! Z.to_nat sub) /\
  same_except sub p p' /\ well_formed sublayersLength p' /\
  length counts' = sublayersLength.
Proof.
  intros Hsub Hmax Hwf Hlen Hret.
  destruct (decide (is_Some (view_values (view p sub))
                    \/ 0 <= k <= MAX_ARRAY_LENGTH)) as [Hk|Hk].
  - destruct (cellValueStep_view K arr sub sf si k j p counts Hsub Hmax Hwf
                Hlen Hk) as (p1 & c1 & Heq & Hrest).
    rewrite Heq in Hret. injection Hret as <- <-. done.
  - unfold cellValueStep in Hret.
    destruct (is_data K (js_index arr (j + si))) eqn:Hdata.
    + unfold initSublayer in Hret.
      destruct (array_get (values p) sub) as [a|] eqn:Ea.
      { exfalso. apply Hk. left. simpl. rewrite Ea. eauto. }
      rewrite new_Array_invalid in Hret by tauto. done.
    + injection Hret as <- <-.
      rewrite view_step_sentinel by done.
      split; [done|]. split; [apply same_except_refl|]. by split.
Qed.

Lemma cellValuesLoop_returned arr sub sf si k n :
  forall j p counts p' counts',
  0 <= sub < Z.of_nat sublayersLength ->
  Z.of_nat sublayersLength <= MAX_ARRAY_LENGTH ->
  well_formed sublayersLength p ->
  length counts = sublayersLength ->
  cellValuesLoop K arr sub sf si k n j (p, counts) = Returns (p', counts') ->
  (view p' sub, counts' !!! Z.to_nat sub)
    = view_loop K arr sf si k n j (view p sub, counts !!! Z.to_nat sub) /\
  same_except sub p p' /\ well_formed sublayersLength p' /\
  length counts' = sublayersLength.
Proof.
  induction n as [|n IH]; intros j p counts p' counts' Hsub Hmax Hwf Hlen Hret;
    cbn [cellValuesLoop view_loop] in *.
  - injection Hret as <- <-. split; [done|].
    split; [apply same_except_refl|]. by split.
  - destruct (cellValueStep K arr sub sf si k j (p, counts))
      as [[p1 c1]| |] eqn:Hstep; [|done..].
    cbn [obind] in Hret.
    destruct (cellValueStep_returned _ _ _ _ _ _ _ _ _ _ Hsub Hmax Hwf Hlen Hstep)
      as (Hv1 & Hs1 & Hwf1 & Hl1).
    destruct (IH _ _ _ _ _ Hsub Hmax Hwf1 Hl1 Hret) as (Hv2 & Hs2 & Hwf2 & Hl2).
    rewrite <- Hv1. split; [done|].
    split; [by eapply same_except_trans|]. by split.
Qed.

(** A call of [processCell] that returns keeps the invariant of the state
    and has the effect of [view_cell] on the entries of its sublayer. *)
Lemma processCell_returned arr sub c sf ef si st i' st' :
  0 <= sub < Z.of_nat sublayersLength ->
  Z.of_nat sublayersLength <= MAX_ARRAY_LENGTH ->
  state_ok K st ->
  processCell K arr sub c sf ef si st = Returns (i', st') ->
  exists f',
    state_ok K st' /\
    obj_get (features st') c = Some f' /\
    (forall c', c' <> c ->
       obj_get (features st') c' = obj_get (features st) c') /\
    same_except sub (prior_properties K st c) (properties f') /\
    view (properties f') sub
      = view_cell K arr sf ef si (view (prior_properties K st c) sub).
Proof.
  intros Hsub Hmax Hok Hret.
  destruct (addFeature_spec K c st Hok) as (Hok1 & (f & Hf & Hprior) & Hother).
  unfold processCell in Hret. fold (numCellValues_of K sf ef) in Hret.
  rewrite Hf in Hret. rewrite <- Hprior in *.
  destruct Hok1 as (Hnd1 & Hmat1 & Hall1).
  destruct (Hall1 _ _ Hf) as [Hwf Hcell].
  set (counts := replicate sublayersLength 0) in *.
  assert (length counts = sublayersLength) as Hlen by apply length_replicate.
  assert (counts !!! Z.to_nat sub = 0) as Hc0.
  { apply list_lookup_total_correct, lookup_replicate_2. lia. }
  destruct (match numCellValues_of K sf ef, sf with
            | Some n, Some s =>
                cellValuesLoop K arr sub s si n (Z.to_nat n) 0
                  (properties f, counts)
            | _, _ => Returns (properties f, counts)
            end) as [[p' counts']| |] eqn:Hloop; [|done..].
  cbn [obind] in Hret.
  assert (view_aggregate K (view p' sub, counts' !!! Z.to_nat sub)
            = view_cell K arr sf ef si (view (properties f) sub) /\
          same_except sub (properties f) p' /\ well_formed sublayersLength p')
    as (Hview & Hsame & Hwf').
  { unfold view_cell, numCellValues_of in *.
    destruct sf as [s|]; simpl in Hloop;
      [|injection Hloop as <- <-; rewrite Hc0;
        split; [done|]; split; [apply same_except_refl|done]].
    destruct ef as [e|]; simpl in Hloop;
      [|injection Hloop as <- <-; rewrite Hc0;
        split; [done|]; split; [apply same_except_refl|done]].
    destruct (cellValuesLoop_returned _ _ _ _ _ _ _ _ _ _ _ Hsub Hmax Hwf Hlen
                Hloop) as (Hv & Hs & Hw & _).
    rewrite Hv, Hc0. done. }
  destruct (aggregate_view K sub p' counts' Hsub Hmax Hwf') as (Hav & Has & Haw).
  set (pa := aggregate K sub (p', counts')) in *. clearbody pa.
  injection Hret as <- <-.
  eexists. simpl.
  assert (is_Some (obj_get (features (addFeature K c st)) c)) as Hsome by eauto.
  split; [|split; [|split; [|split]]].
  - split; [|split]; simpl.
    + by rewrite obj_set_keys_old.
    + by rewrite obj_set_keys_old.
    + intros c0 f0 Hget. destruct (decide (c = c0)) as [<-|Hne].
      * rewrite obj_get_set_eq in Hget. injection Hget as <-.
        split; [done|]. destruct Hcell as (?&?&?&?&?&?&?).
        destruct Hsame as (?&?&?&?&?&_). destruct Has as (?&?&?&?&?&_).
        unfold same_cell, set_properties; simpl.
        repeat split; congruence.
      * rewrite obj_get_set_ne in Hget by done. by apply Hall1.
  - apply obj_get_set_eq.
  - intros c' Hc'. rewrite obj_get_set_ne by done. by apply Hother.
  - simpl. by eapply same_except_trans.
  - simpl. by rewrite Hav, Hview.
Qed.

(** *** Entries that are set together *)

Lemma unset_together : set_together (@unset num).
Proof. unfold set_together, unset. simpl. by split; [|split]. Qed.

Lemma view_step_together arr sf si k j w c :
  set_together w -> set_together (view_step K arr sf si k j (w, c)).1.
Proof.
  intros (Hd & Hs & Hi). unfold view_step, view_init. simpl.
  destruct (is_data K _); [|done].
  destruct (view_values w) as [a|] eqn:Ea.
  - destruct (in_time_range K _); unfold set_together; simpl;
      rewrite Ea; simpl; rewrite !fmap_is_Some; intuition eauto.
  - destruct (in_time_range K _); unfold set_together; simpl; intuition eauto.
Qed.

Lemma view_loop_together arr sf si k n : forall j w c,
  set_together w -> set_together (view_loop K arr sf si k n j (w, c)).1.
Proof.
  induction n as [|n IH]; intros j w c Hw; [done|]. cbn [view_loop].
  pose proof (view_step_together arr sf si k j w c Hw) as Hstep.
  destruct (view_step K arr sf si k j (w, c)) as [w1 c1]. by apply IH.
Qed.

Lemma view_aggregate_together (wc : SublayerView num * Z) :
  set_together wc.1 -> set_together (view_aggregate K wc).
Proof.
  intros (Hd & Hs & Hi). unfold view_aggregate.
  destruct (String.eqb _ _); [|done].
  unfold set_together; simpl. split; [done|]. split; [done|]. eauto.
Qed.

Lemma view_cell_together arr sf ef si w :
  set_together w -> set_together (view_cell K arr sf ef si w).
Proof.
  intros Hw. unfold view_cell. apply view_aggregate_together.
  destruct sf as [s|], ef as [e|]; try done.
  by apply view_loop_together.
Qed.

Lemma prior_properties_together st c s :
  state_together st -> set_together (view (prior_properties K st c) s).
Proof.
  intros Hst. unfold prior_properties.
  destruct (obj_get (features st) c) as [f|] eqn:Eg.
  - by eapply Hst.
  - rewrite newFeature_view. apply unset_together.
Qed.

Lemma processCell_invariant arr sub c sf ef si st i' st' :
  0 <= sub < Z.of_nat sublayersLength ->
  Z.of_nat sublayersLength <= MAX_ARRAY_LENGTH ->
  scan_invariant K st ->
  processCell K arr sub c sf ef si st = Returns (i', st') ->
  scan_invariant K st'.
Proof.
  intros Hsub Hmax [Hok Htog] Hret.
  destruct (processCell_returned _ _ _ _ _ _ _ _ _ Hsub Hmax Hok Hret)
    as (f' & Hok' & Hget & Hother & Hsame & Hview).
  split; [done|]. intros c0 f0 s Hget0.
  destruct (decide (c0 = c)) as [->|Hne].
  - rewrite Hget in Hget0. injection Hget0 as <-.
    destruct (decide (s = sub)) as [->|Hs].
    + rewrite Hview. by apply view_cell_together, prior_properties_together.
    + destruct Hsame as (_&_&_&_&_&_&_&_&_&Hsame). rewrite Hsame by done.
      by apply prior_properties_together.
  - rewrite Hother in Hget0 by done. by eapply Htog.
Qed.

Lemma scanLoop_invariant fuel arr sub : forall i v st st',
  0 <= sub < Z.of_nat sublayersLength ->
  Z.of_nat sublayersLength <= MAX_ARRAY_LENGTH ->
  scan_invariant K st ->
  scanLoop K fuel arr sub i v st = Returns st' ->
  scan_invariant K st'.
Proof.
  induction fuel as [|fuel IH]; intros i v st st' Hsub Hmax Hinv Hret; [done|].
  cbn [scanLoop] in Hret.
  destruct (i <? Z.of_nat (length arr)); [|by injection Hret as <-].
  destruct (scanStep K arr sub i v st) as [[[i1 v1] st1]| |] eqn:Hstep;
    [|done..].
  cbn [obind] in Hret.
  assert (scan_invariant K st1) as Hinv1.
  { unfold scanStep in Hstep.
    destruct (v_indexInCell v =? CELL_NUM_INDEX);
      [by injection Hstep as <- <- <-|].
    destruct (v_indexInCell v =? CELL_START_INDEX);
      [by injection Hstep as <- <- <-|].
    destruct (v_indexInCell v =? CELL_END_INDEX);
      [|by injection Hstep as <- <- <-].
    destruct (processCell K arr sub (v_cellNum v) (v_startFrame v) _
                (v_startIndex v) st) as [[i2 st2]| |] eqn:Hcell; [|done..].
    cbn [obind] in Hstep. injection Hstep as <- <- <-.
    by eapply processCell_invariant. }
  destruct i1 as [i1|]; [by eapply IH|by injection Hret as <-].
Qed.

Lemma sublayersLoop_invariant fuel rest : forall sub st st',
  0 <= sub ->
  sub + Z.of_nat (length rest) <= Z.of_nat sublayersLength ->
  Z.of_nat sublayersLength <= MAX_ARRAY_LENGTH ->
  scan_invariant K st ->
  sublayersLoop K fuel rest sub st = Returns st' ->
  scan_invariant K st'.
Proof.
  induction rest as [|[arr|] rest IH]; intros sub st st' Hsub Hlen Hmax Hinv Hret;
    cbn [sublayersLoop] in Hret; [by injection Hret as <-| |done].
  rewrite length_cons in Hlen.
  destruct (scanLoop K fuel arr sub 0 initialScanVars st) as [st1| |] eqn:Hscan;
    [|done..].
  cbn [obind] in Hret.
  apply (IH (sub + 1) st1 st'); try done; [lia..|].
  eapply scanLoop_invariant; [| |exact Hinv|exact Hscan]; lia.
Qed.

End Returned.

(** ** Errors of the scan *)

Section ScanErrors.
Context {num : Type} `{JSNumber num} `{CellHelpers}.
Variable K : Constants num.

Local Abbreviation sublayers := (k_sublayers K).
Local Abbreviation sublayersLength := (k_sublayersLength K).
Local Abbreviation tileStartFrame := (k_tileStartFrame K).

Implicit Types (p : FeatureProperties num) (st : DecodeState num).

Lemma sublayersLoop_app fuel l1 : forall l2 sub st,
  sublayersLoop K fuel (l1 ++ l2) sub st =
  let* st' := sublayersLoop K fuel l1 sub st in
  sublayersLoop K fuel l2 (sub + Z.of_nat (length l1)) st'.
Proof.
  induction l1 as [|[arr|] l1 IH]; intros l2 sub st.
  - simpl. by rewrite Z.add_0_r.
  - cbn [app sublayersLoop].
    destruct (scanLoop K fuel arr sub 0 initialScanVars st) as [st1| |];
      [|done..].
    cbn [obind]. rewrite IH. rewrite length_cons.
    by replace (sub + 1 + Z.of_nat (length l1))
      with (sub + Z.of_nat (S (length l1))) by lia.
  - done.
Qed.

(** The records of other cells leave the entries of a cell alone. *)
Lemma cell_view_at_other arr rs : forall pos c w,
  c ∉ rec_cellNum <$> rs -> cell_view_at K arr pos rs c w = w.
Proof.
  induction rs as [|r rs IH]; intros pos c w Hc; [done|].
  rewrite fmap_cons, not_elem_of_cons in Hc. destruct Hc as [Hne Hc].
  cbn [cell_view_at]. rewrite decide_False by done. by apply IH.
Qed.

(** The loop over the values of a record that declares more values than an
    array can hold stops at the first value that is not the sentinel. *)
Lemma cellValuesLoop_too_long arr sub sf si k n : forall j0 p counts j,
  array_get (values p) sub = None ->
  ~ 0 <= k <= MAX_ARRAY_LENGTH ->
  j0 <= j < j0 + Z.of_nat n ->
  is_data K (js_index arr (j + si)) = true ->
  cellValuesLoop K arr sub sf si k n j0 (p, counts) = Throws RangeError.
Proof.
  induction n as [|n IH]; intros j0 p counts j Hp Hk Hj Hdata; [lia|].
  cbn [cellValuesLoop]. unfold cellValueStep.
  destruct (is_data K (js_index arr (j0 + si))) eqn:Hd0.
  - unfold initSublayer. rewrite Hp. by rewrite new_Array_invalid.
  - cbn [obind]. apply (IH (j0 + 1) p counts j); try done.
    assert (j <> j0) by (intros ->; congruence). lia.
Qed.

Lemma processCell_too_long arr sub c s e si st j :
  state_ok K st ->
  view_values (view (prior_properties K st c) sub) = None ->
  MAX_ARRAY_LENGTH < (e - s + 1) * sublayers ->
  0 <= j < (e - s + 1) * sublayers ->
  is_data K (js_index arr (j + si)) = true ->
  processCell K arr sub c (Some s) (Some e) si st = Throws RangeError.
Proof.
  intros Hok Hfresh Hk Hj Hdata.
  destruct (addFeature_spec K c st Hok) as (_ & (f & Hf & Hprior) & _).
  unfold processCell. rewrite Hf. simpl.
  rewrite (cellValuesLoop_too_long arr sub s si _ _ 0 _ _ j); try done; try lia.
  rewrite Hprior. exact Hfresh.
Qed.

End ScanErrors.

(** ** Cells with several records in a stream *)

Section SeveralRecords.
Context {num : Type} `{JSNumber num} `{CellHelpers}.
Variable K : Constants num.

Local Abbreviation cfg := (k_cfg K).
Local Abbreviation sublayers := (k_sublayers K).
Local Abbreviation tileStartFrame := (k_tileStartFrame K).

Implicit Types (w : SublayerView num) (r : CellRecord).

(** A record written into a sublayer whose arrays exist: they are written
    into, and the aggregate goes on from its value. *)
Lemma record_view_allocated r a d so x :
  record_view K r
    {| view_values := Some a; view_dates := Some d;
       view_startOffset := so; view_initialValue := Some x |}
  = view_aggregate K
      ({| view_values := Some (stored_values K (rec_values r) 0 (record_data K r) a);
          view_dates :=
            Some (stored_dates K (rec_startFrame r - tileStartFrame)
                    (record_data K r) d);
          view_startOffset := so;
          view_initialValue :=
            Some (accumulated K (rec_values r) 0 (record_counted K r) x) |},
       Z.of_nat (length (record_counted K r))).
Proof.
  unfold record_view, view_cell, record_data, record_counted, record_data,
    declared_values.
  replace (rec_endFrame r - tileStartFrame
           - (rec_startFrame r - tileStartFrame) + 1)
    with (rec_endFrame r - rec_startFrame r + 1) by lia.
  set (k := (rec_endFrame r - rec_startFrame r + 1) * sublayers).
  rewrite view_loop_fold, view_steps_data.
  replace (Z.of_nat (Z.to_nat k)) with (Z.max k 0) by lia.
  assert (seqZ 0 (Z.max k 0) = seqZ 0 k) as ->.
  { destruct (Z.le_gt_cases k 0); [|f_equal; lia].
    by rewrite !seqZ_nil by lia. }
  fold (data_positions K (rec_values r) 0 k).
  rewrite view_steps_allocated by apply data_positions_data.
  by rewrite Z.add_0_l.
Qed.

Lemma has_data_record_data r :
  whole sublayers r -> has_data K r -> record_data K r <> [].
Proof.
  intros Hwhole (v & Hv & Hne)%Exists_exists.
  apply list_elem_of_lookup in Hv as [i Hi].
  pose proof (record_data_value K r i v Hwhole Hi Hne) as Hin.
  intros Hnil. rewrite Hnil in Hin. by apply elem_of_nil in Hin.
Qed.

Lemma no_data_record_data r :
  whole sublayers r -> ~ has_data K r -> record_data K r = [].
Proof.
  intros Hwhole Hno. apply record_data_sentinel; [done|].
  apply Forall_forall. intros v Hv.
  destruct (decide (v = k_noDataValue K)) as [|Hne]; [done|].
  exfalso. apply Hno. apply Exists_exists. by exists v.
Qed.

Lemma has_data_decidable r : has_data K r \/ ~ has_data K r.
Proof.
  unfold has_data.
  destruct (decide (Exists (fun v => v <> k_noDataValue K) (rec_values r)));
    [by left|by right].
Qed.

(** The first element of a list that satisfies a decidable property. *)
Lemma Exists_first {A} (P : A -> Prop) (l : list A) :
  (forall x, P x \/ ~ P x) -> Exists P l ->
  exists l1 x l2, l = l1 ++ x :: l2 /\ Forall (fun y => ~ P y) l1 /\ P x.
Proof.
  intros Hdec. induction 1 as [x l Hx|x l Hl IH].
  - exists [], x, l. by split.
  - destruct (Hdec x) as [Hx|Hx].
    + exists [], x, l. by split.
    + destruct IH as (l1 & y & l2 & -> & Hl1 & Hy).
      exists (x :: l1), y, l2. split; [done|]. split; [by constructor|done].
Qed.

(** A record written where the arrays of the sublayer exist keeps them, and
    keeps the start offset. *)
Lemma record_view_keeps_offset r w :
  is_Some (view_values w) -> is_Some (view_dates w) ->
  is_Some (view_initialValue w) ->
  is_Some (view_values (record_view K r w)) /\
  is_Some (view_dates (record_view K r w)) /\
  is_Some (view_initialValue (record_view K r w)) /\
  view_startOffset (record_view K r w) = view_startOffset w.
Proof.
  destruct w as [[a|] [d|] so [x|]]; simpl;
    intros [? Ha] [? Hd] [? Hx]; try done.
  rewrite record_view_allocated. unfold view_aggregate.
  destruct (String.eqb _ _); simpl; eauto.
Qed.

Lemma records_keep_offset (l : list CellRecord) : forall w,
  is_Some (view_values w) -> is_Some (view_dates w) ->
  is_Some (view_initialValue w) ->
  is_Some (view_values (fold_left (fun w r => record_view K r w) l w)) /\
  view_startOffset (fold_left (fun w r => record_view K r w) l w)
    = view_startOffset w.
Proof.
  induction l as [|r l IH]; intros w Hv Hd Hx; [done|]. simpl.
  destruct (record_view_keeps_offset r w Hv Hd Hx) as (Hv' & Hd' & Hx' & <-).
  by apply IH.
Qed.

(** Without the division of ['avg'], the aggregate goes on from its value
    over the records that follow. *)
Lemma records_sum (l : list CellRecord) : forall w x,
  String.eqb (k_aggregationOperation K) "avg" = false ->
  is_Some (view_values w) -> is_Some (view_dates w) ->
  view_initialValue w = Some x ->
  view_initialValue (fold_left (fun w r => record_view K r w) l w)
    = Some (summed K l x).
Proof.
  induction l as [|r l IH]; intros w x Hsum Hv Hd Hx; [done|]. simpl.
  destruct w as [[a|] [d|] so iv]; simpl in Hx;
    try (by destruct Hv); try (by destruct Hd). subst iv.
  rewrite record_view_allocated. unfold view_aggregate. rewrite Hsum.
  cbn [fst]. by apply IH.
Qed.

Lemma records_without_data (l : list CellRecord) : forall w,
  view_values w = None ->
  Forall (fun r => record_data K r = []) l ->
  view_values (fold_left (fun w r => record_view K r w) l w) = None /\
  view_startOffset (fold_left (fun w r => record_view K r w) l w)
    = view_startOffset w /\
  (String.eqb (k_aggregationOperation K) "avg" = false ->
   fold_left (fun w r => record_view K r w) l w = w).
Proof.
  induction l as [|r l IH]; intros w Hw Hl; [done|].
  apply Forall_cons in Hl as [Hr Hl]. simpl.
  assert (view_values (record_view K r w) = None /\
          view_startOffset (record_view K r w) = view_startOffset w /\
          (String.eqb (k_aggregationOperation K) "avg" = false ->
           record_view K r w = w)) as (Hv & Hso & Hsum).
  { rewrite record_view_fresh, Hr by done. unfold view_aggregate.
    destruct (String.eqb _ _); by simpl. }
  destruct (IH _ Hv Hl) as (-> & -> & Hsum').
  split; [done|]. split; [done|]. intros Hagg.
  by rewrite Hsum', Hsum.
Qed.

Lemma summed_app (l1 l2 : list CellRecord) acc :
  summed K (l1 ++ l2) acc = summed K l2 (summed K l1 acc).
Proof. apply fold_left_app. Qed.

Lemma summed_without_data (l : list CellRecord) acc :
  Forall (fun r => record_data K r = []) l -> summed K l acc = acc.
Proof.
  induction 1 as [|r l Hr Hl IH]; [done|].
  change (summed K (r :: l) acc)
    with (summed K l (accumulated K (rec_values r) 0 (record_counted K r) acc)).
  unfold record_counted. rewrite Hr. simpl. apply IH.
Qed.

(** The entries of a sublayer for a cell whose first record with data is
    [r]. *)
Lemma cell_view_first_data rs c (l1 l2 : list CellRecord) r :
  filter (fun r' => rec_cellNum r' = c) rs = l1 ++ r :: l2 ->
  Forall (fun r' => record_data K r' = []) l1 ->
  record_data K r <> [] ->
  is_Some (view_values (cell_view K rs c)) /\
  view_startOffset (cell_view K rs c)
    = Some (rec_startFrame r - tileStartFrame) /\
  (String.eqb (k_aggregationOperation K) "avg" = false ->
   view_initialValue (cell_view K rs c)
     = Some (summed K (l1 ++ r :: l2) (of_int 0))).
Proof.
  intros Hfilter Hl1 Hr. unfold cell_view. rewrite Hfilter, fold_left_app.
  cbn [fold_left].
  destruct (records_without_data l1 unset eq_refl Hl1) as (Hv1 & Hso1 & Hsum1).
  set (w1 := fold_left (fun w r => record_view K r w) l1 unset) in *.
  rewrite (record_view_data K r w1) by done.
  set (wr := written K (rec_values r) (rec_startFrame r - tileStartFrame) 0
               (declared_values sublayers r) (record_data K r)).
  assert (is_Some (view_values (view_aggregate K wr)) /\
          is_Some (view_dates (view_aggregate K wr)) /\
          is_Some (view_initialValue (view_aggregate K wr)) /\
          view_startOffset (view_aggregate K wr)
            = Some (rec_startFrame r - tileStartFrame)) as (Hv & Hd & Hx & Hso).
  { unfold view_aggregate, wr, written.
    destruct (String.eqb _ _); simpl; eauto. }
  destruct (records_keep_offset l2 _ Hv Hd Hx) as (Hv2 & ->).
  split; [done|]. split; [done|]. intros Hagg.
  rewrite (records_sum l2 _
             (accumulated K (rec_values r) 0 (record_counted K r) (of_int 0)))
    by (try done; unfold view_aggregate; by rewrite Hagg).
  rewrite summed_app, (summed_without_data l1) by done. done.
Qed.

(** ** A record with one band per frame *)

Lemma jsarray_eq {A} (a b : jsarray A) :
  length a = length b ->
  (forall i, 0 <= i < Z.of_nat (length a) -> array_get a i = array_get b i) ->
  a = b.
Proof.
  intros Hlen Hget. apply list_eq. intros i.
  destruct (Nat.lt_ge_cases i (length a)) as [Hi|Hi].
  - destruct (lookup_lt_is_Some_2 a i Hi) as [x Hx].
    destruct (lookup_lt_is_Some_2 b i) as [y Hy]; [lia|].
    specialize (Hget (Z.of_nat i)). unfold array_get in Hget.
    rewrite !js_index_nat, Hx, Hy in Hget. simpl in Hget.
    rewrite Hx, Hy, Hget; [done|lia].
  - rewrite !lookup_ge_None_2; [done|lia..].
Qed.

(** The dense arrays of a whole record with one band per frame, written
    into new arrays: a slot per value, unset for the sentinel. *)
Lemma stored_single_band r :
  sublayers = 1 -> whole sublayers r ->
  Z.of_nat (length (rec_values r)) <= MAX_ARRAY_LENGTH ->
  stored_values K (rec_values r) 0 (record_data K r)
    (replicate (Z.to_nat (declared_values sublayers r)) None)
  = value_slot K <$> rec_values r /\
  stored_dates K (rec_startFrame r - tileStartFrame) (record_data K r)
    (replicate (Z.to_nat (declared_values sublayers r)) None)
  = imap (date_slot K (rec_startFrame r)) (rec_values r).
Proof.
  intros Hone Hwhole Hmax.
  pose proof (record_data_bounds K r) as Hbounds.
  destruct (written_lengths K (rec_values r) (rec_startFrame r - tileStartFrame)
              0 (declared_values sublayers r) (record_data K r))
    as [Hlv Hld]; [lia|done|].
  unfold whole in Hwhole.
  assert (forall i, 0 <= i < Z.of_nat (length (rec_values r)) ->
    exists v, rec_values r !! Z.to_nat i = Some v /\
      (v = k_noDataValue K ->
         Forall (fun j => j / sublayers <> i) (record_data K r)) /\
      (v <> k_noDataValue K ->
         exists js1 js2, record_data K r = js1 ++ i :: js2 /\
           Forall (fun j => j / sublayers <> i / sublayers) js2)) as Hslot.
  { intros i Hi.
    destruct (lookup_lt_is_Some_2 (rec_values r) (Z.to_nat i)) as [v Hv]; [lia|].
    exists v. split; [done|]. split.
    - intros ->. apply Forall_forall. intros j Hj. rewrite Hone, Z.div_1_r.
      intros ->. unfold record_data in Hj.
      apply elem_of_data_positions in Hj as [_ Hdata].
      rewrite Z.add_0_r in Hdata. unfold js_index in Hdata.
      replace (0 <=? i) with true in Hdata by (symmetry; apply Z.leb_le; lia).
      rewrite Hv in Hdata. simpl in Hdata. by rewrite Z.eqb_refl in Hdata.
    - intros Hne.
      pose proof (record_data_value K r (Z.to_nat i) v Hwhole Hv Hne) as Hin.
      replace (Z.of_nat (Z.to_nat i)) with i in Hin by lia.
      unfold record_data in Hin. apply elem_of_data_positions in Hin as [Hj Hd].
      destruct (data_positions_split K (rec_values r) 0 _ _ Hj Hd)
        as (js1 & js2 & Hsplit & Hjs2).
      exists js1, js2. split; [done|].
      eapply Forall_impl; [exact Hjs2|]. intros j [Hlt _].
      rewrite Hone, !Z.div_1_r. simpl in Hlt. lia. }
  split; apply jsarray_eq.
  - rewrite length_fmap. lia.
  - intros i Hi. replace (Z.of_nat _) with (Z.of_nat (length (rec_values r)))
      in Hi by lia.
    destruct (Hslot i Hi) as (v & Hv & Hnd & Hdata).
    unfold array_get at 2. unfold js_index.
    replace (0 <=? i) with true by (symmetry; apply Z.leb_le; lia).
    rewrite list_lookup_fmap, Hv. simpl. unfold value_slot, stored_values.
    destruct (decide (v = k_noDataValue K)) as [Hv0|Hv0].
    + rewrite (stored_other (fun j => j / sublayers)) by auto.
      apply array_get_replicate.
    + destruct (Hdata Hv0) as (js1 & js2 & -> & Hjs2).
      assert (i / sublayers = i) as Hidx by (by rewrite Hone, Z.div_1_r).
      pose proof (stored_last (fun j => j / sublayers)
                    (fun j => transform K (js_index (rec_values r) (j + 0)))
                    js1 js2 i
                    (replicate (Z.to_nat (declared_values sublayers r)) None))
        as Hlast.
      cbv beta in Hlast. rewrite Hidx in Hlast, Hjs2.
      rewrite Hlast by (try done; lia).
      rewrite Z.add_0_r. unfold js_index.
      replace (0 <=? i) with true by (symmetry; apply Z.leb_le; lia).
      by rewrite Hv.
  - rewrite length_imap. lia.
  - intros i Hi. replace (Z.of_nat _) with (Z.of_nat (length (rec_values r)))
      in Hi by lia.
    destruct (Hslot i Hi) as (v & Hv & Hnd & Hdata).
    unfold array_get at 2. unfold js_index.
    replace (0 <=? i) with true by (symmetry; apply Z.leb_le; lia).
    rewrite list_lookup_imap, Hv. simpl. unfold date_slot, stored_dates.
    destruct (decide (v = k_noDataValue K)) as [Hv0|Hv0].
    + rewrite (stored_other (fun j => j / sublayers)) by auto.
      apply array_get_replicate.
    + destruct (Hdata Hv0) as (js1 & js2 & -> & Hjs2).
      assert (i / sublayers = i) as Hidx by (by rewrite Hone, Z.div_1_r).
      pose proof (stored_last (fun j => j / sublayers)
                    (fun j => getIntervalTimestamp cfg
                                (rec_startFrame r - tileStartFrame
                                 + tileStartFrame + j))
                    js1 js2 i
                    (replicate (Z.to_nat (declared_values sublayers r)) None))
        as Hlast.
      cbv beta in Hlast. rewrite Hidx in Hlast, Hjs2.
      rewrite Hlast by (try done; lia).
      do 2 f_equal. lia.
Qed.

End SeveralRecords.

(** ** The enumeration of an object with keys of both kinds *)

Section Enumeration.
Context {V : Type}.
Implicit Types (o : jsobject V).

Lemma filter_keys (P : jskey -> Prop) `{forall k, Decision (P k)} o :
  (filter (fun kv => P kv.1) o).*1 = filter P o.*1.
Proof.
  induction o as [|[k v] o IH]; [done|].
  rewrite fmap_cons, !filter_cons. simpl.
  destruct (decide (P k)); [rewrite fmap_cons|]; by rewrite IH.
Qed.

(** The keys of an object as [Object.values] meets them: the array indices
    in ascending order, then the other keys in creation order. *)
Lemma own_properties_keys o :
  NoDup o.*1 ->
  exists cs,
    (own_properties o).*1
      = (Some <$> cs) ++ filter (fun k => is_array_index k <> true) o.*1 /\
    StronglySorted Z.lt cs /\
    Some <$> cs ≡ₚ filter (fun k => is_array_index k = true) o.*1.
Proof.
  intros Hnd.
  set (o1 := filter (fun kv : jskey * V => is_array_index kv.1 = true) o).
  assert (Forall (fun kv : jskey * V => is_array_index kv.1 = true) o1) as Hidx.
  { apply Forall_forall. by intros kv [? _]%list_elem_of_filter. }
  assert (o1.*1 = filter (fun k => is_array_index k = true) o.*1) as Hkeys1
    by exact (filter_keys (fun k => is_array_index k = true) o).
  assert ((filter (fun kv : jskey * V => is_array_index kv.1 <> true) o).*1
          = filter (fun k => is_array_index k <> true) o.*1) as Hkeys2
    by exact (filter_keys (fun k => is_array_index k <> true) o).
  assert (NoDup o1.*1) as Hnd1 by (rewrite Hkeys1; by apply NoDup_filter).
  exists (index_of_key <$> (own_properties o1).*1).
  assert (Some <$> (index_of_key <$> (own_properties o1).*1)
          = (own_properties o1).*1) as Hsome.
  { rewrite <- list_fmap_compose.
    assert (Forall (fun kv : jskey * V => is_array_index kv.1 = true)
              (own_properties o1)) as Hidx'
      by (by rewrite own_properties_perm).
    induction Hidx' as [|[[k|] f] l Hk Hl IH]; [done| |done].
    rewrite !fmap_cons. simpl. by rewrite IH. }
  split; [|split].
  - rewrite Hsome, (own_properties_indices o1) by done.
    unfold own_properties. fold o1. by rewrite fmap_app, Hkeys2.
  - by apply own_properties_ascending.
  - by rewrite Hsome, own_properties_perm, Hkeys1.
Qed.

End Enumeration.

(** ** Streams that do not end with a whole record *)

Section BrokenTail.
Context {num : Type} `{JSNumber num} `{CellHelpers}.
Variable K : Constants num.

Local Abbreviation cfg := (k_cfg K).
Local Abbreviation sublayers := (k_sublayers K).
Local Abbreviation tileStartFrame := (k_tileStartFrame K).

Implicit Types (st : DecodeState num) (arr : FourwingsRawData).

Lemma cellValueStep_ext arr arr' sub sf si si' k j acc :
  js_index arr (j + si) = js_index arr' (j + si') ->
  cellValueStep K arr sub sf si k j acc = cellValueStep K arr' sub sf si' k j acc.
Proof. intros Heq. unfold cellValueStep. destruct acc. by rewrite Heq. Qed.

Lemma cellValuesLoop_ext arr arr' sub sf si si' k n : forall j acc,
  (forall j', j <= j' < j + Z.of_nat n ->
     js_index arr (j' + si) = js_index arr' (j' + si')) ->
  cellValuesLoop K arr sub sf si k n j acc
  = cellValuesLoop K arr' sub sf si' k n j acc.
Proof.
  induction n as [|n IH]; intros j acc Hext; [done|]. cbn [cellValuesLoop].
  rewrite (cellValueStep_ext arr arr' sub sf si si') by (apply Hext; lia).
  destruct (cellValueStep K arr' sub sf si' k j acc) as [acc'| |]; [|done..].
  cbn [obind]. apply IH. intros j' Hj'. apply Hext. lia.
Qed.

(** [processCell] reads the stream at the positions of the values of its
    record only. *)
Lemma processCell_ext arr arr' sub c sf ef si st :
  (forall s e j, sf = Some s -> ef = Some e ->
     0 <= j < (e - s + 1) * sublayers ->
     js_index arr (j + si) = js_index arr' (j + si)) ->
  processCell K arr sub c sf ef si st = processCell K arr' sub c sf ef si st.
Proof.
  intros Hext. unfold processCell.
  destruct (obj_get _ _) as [f|]; [|done].
  destruct sf as [s|], ef as [e|]; try done. simpl.
  rewrite (cellValuesLoop_ext arr arr' sub s si si); [done|].
  intros j Hj. apply (Hext s e); try done. lia.
Qed.

Lemma processRecords_ext rs : forall (pre tl tl' : list Z) sub st,
  Forall (whole sublayers) rs ->
  processRecords K (pre ++ stream_of rs ++ tl) sub (Z.of_nat (length pre)) rs st
  = processRecords K (pre ++ stream_of rs ++ tl') sub (Z.of_nat (length pre))
      rs st.
Proof.
  induction rs as [|r rs IH]; intros pre tl tl' sub st Hwhole; [done|].
  apply Forall_cons in Hwhole as [Hr Hrs]. cbn [processRecords].
  unfold processRecord.
  assert (forall t : list Z, pre ++ stream_of (r :: rs) ++ t
            = pre ++ encode r ++ (stream_of rs ++ t)) as Harr.
  { intros t. rewrite stream_of_cons. by rewrite <- !app_assoc. }
  rewrite (processCell_ext (pre ++ stream_of (r :: rs) ++ tl)
             (pre ++ stream_of (r :: rs) ++ tl')).
  2:{ intros s e j [= <-] [= <-] Hj. rewrite !Harr.
      rewrite !js_index_record; [done|..]; unfold whole, declared_values in Hr;
        lia. }
  destruct (processCell K _ sub _ _ _ _ st) as [[i' st']| |]; [|done..].
  cbn [obind].
  replace (Z.of_nat (length pre) + Z.of_nat (length (encode r)))
    with (Z.of_nat (length (pre ++ encode r))) by (rewrite length_app; lia).
  assert (forall t : list Z, pre ++ stream_of (r :: rs) ++ t
            = (pre ++ encode r) ++ stream_of rs ++ t) as Harr'.
  { intros t. rewrite stream_of_cons. by rewrite <- !app_assoc. }
  rewrite !Harr'. by apply IH.
Qed.

(** Fewer than three tokens after the last whole record are not read as a
    record. *)
Lemma scanLoop_stray fuel rs (tl : list Z) sub st :
  Forall (whole sublayers) rs ->
  (length tl < 3)%nat ->
  (length (stream_of rs ++ tl) < fuel)%nat ->
  scanLoop K fuel (stream_of rs ++ tl) sub 0 initialScanVars st
  = scanLoop K fuel (stream_of rs) sub 0 initialScanVars st.
Proof.
  intros Hwhole Htl Hfuel.
  assert (tail_ok sublayers tl) as Hok.
  { unfold tail_ok. by rewrite tail_records_short. }
  rewrite scanLoop_parsed by done.
  rewrite <- (app_nil_r (stream_of rs)) at 2.
  rewrite scanLoop_parsed; [|done|by constructor|].
  2:{ rewrite length_app in *. simpl. lia. }
  rewrite tail_records_short by done. simpl. rewrite !app_nil_r.
  pose proof (processRecords_ext rs [] tl [] sub st Hwhole) as Hext.
  simpl in Hext. by rewrite app_nil_r in Hext.
Qed.

Lemma cell_view_at_app arr rs1 : forall rs2 pos c w,
  cell_view_at K arr pos (rs1 ++ rs2) c w
  = cell_view_at K arr (pos + Z.of_nat (length (stream_of rs1))) rs2 c
      (cell_view_at K arr pos rs1 c w).
Proof.
  induction rs1 as [|r rs1 IH]; intros rs2 pos c w.
  - simpl. by rewrite Z.add_0_r.
  - cbn [app cell_view_at]. rewrite IH. f_equal.
    rewrite stream_of_cons, length_app. lia.
Qed.

Lemma array_get_lookup {A} (a : jsarray A) i x :
  0 <= i -> a !! Z.to_nat i = Some x -> array_get a i = x.
Proof.
  intros Hi Hx. unfold array_get, js_index.
  replace (0 <=? i) with true by (symmetry; apply Z.leb_le; lia).
  by rewrite Hx.
Qed.

(** The dense arrays written into new arrays with one band per frame, from
    the values read at the positions of the record. *)
Lemma stored_reads arr si k sf :
  sublayers = 1 -> 0 <= k <= MAX_ARRAY_LENGTH ->
  stored_values K arr si (data_positions K arr si k)
    (replicate (Z.to_nat k) None)
  = (fun j => if is_data K (js_index arr (j + si))
              then Some (transform K (js_index arr (j + si))) else None)
      <$> seqZ 0 k /\
  stored_dates K sf (data_positions K arr si k) (replicate (Z.to_nat k) None)
  = (fun j => if is_data K (js_index arr (j + si))
              then Some (getIntervalTimestamp cfg (sf + tileStartFrame + j))
              else None)
      <$> seqZ 0 k.
Proof.
  intros Hone Hk.
  assert (Forall (fun j => 0 <= j < k) (data_positions K arr si k)) as Hbounds.
  { apply Forall_forall. intros j Hj.
    by apply elem_of_data_positions in Hj as [? _]. }
  destruct (written_lengths K arr sf si k (data_positions K arr si k))
    as [Hlv Hld]; [lia|done|].
  assert (forall i, 0 <= i < k ->
    seqZ 0 k !! Z.to_nat i = Some i /\
    (is_data K (js_index arr (i + si)) = false ->
       Forall (fun j => j / sublayers <> i) (data_positions K arr si k)) /\
    (is_data K (js_index arr (i + si)) = true ->
       exists js1 js2, data_positions K arr si k = js1 ++ i :: js2 /\
         Forall (fun j => j / sublayers <> i) js2)) as Hslot.
  { intros i Hi. split; [|split].
    - rewrite lookup_seqZ_lt by lia. f_equal. lia.
    - intros Hno. apply Forall_forall. intros j Hj. rewrite Hone, Z.div_1_r.
      intros ->. apply elem_of_data_positions in Hj as [_ Hdata]. congruence.
    - intros Hdata.
      destruct (data_positions_split K arr si k i Hi Hdata)
        as (js1 & js2 & Hsplit & Hjs2).
      exists js1, js2. split; [done|].
      eapply Forall_impl; [exact Hjs2|]. intros j [Hlt _].
      rewrite Hone, Z.div_1_r. simpl in Hlt. lia. }
  assert (forall i, i / sublayers = i) as Hidx
    by (intros i; by rewrite Hone, Z.div_1_r).
  split; apply jsarray_eq.
  - rewrite length_fmap, length_seqZ. lia.
  - intros i Hi. replace (Z.of_nat _) with k in Hi by lia.
    destruct (Hslot i Hi) as (Hseq & Hnd & Hdata).
    rewrite (array_get_lookup (_ <$> seqZ 0 k) i _ (proj1 Hi)
               ltac:(by rewrite list_lookup_fmap, Hseq)).
    unfold stored_values.
    destruct (is_data K (js_index arr (i + si))) eqn:Hi_data.
    + destruct (Hdata eq_refl) as (js1 & js2 & -> & Hjs2).
      pose proof (stored_last (fun j => j / sublayers)
                    (fun j => transform K (js_index arr (j + si)))
                    js1 js2 i (replicate (Z.to_nat k) None)) as Hlast.
      cbv beta in Hlast. rewrite Hidx in Hlast.
      rewrite Hlast by (try done; lia). done.
    + rewrite (stored_other (fun j => j / sublayers)) by auto.
      apply array_get_replicate.
  - rewrite length_fmap, length_seqZ. lia.
  - intros i Hi. replace (Z.of_nat _) with k in Hi by lia.
    destruct (Hslot i Hi) as (Hseq & Hnd & Hdata).
    rewrite (array_get_lookup (_ <$> seqZ 0 k) i _ (proj1 Hi)
               ltac:(by rewrite list_lookup_fmap, Hseq)).
    unfold stored_dates.
    destruct (is_data K (js_index arr (i + si))) eqn:Hi_data.
    + destruct (Hdata eq_refl) as (js1 & js2 & -> & Hjs2).
      pose proof (stored_last (fun j => j / sublayers)
                    (fun j => getIntervalTimestamp cfg (sf + tileStartFrame + j))
                    js1 js2 i (replicate (Z.to_nat k) None)) as Hlast.
      cbv beta in Hlast. rewrite Hidx in Hlast.
      rewrite Hlast by (try done; lia). done.
    + rewrite (stored_other (fun j => j / sublayers)) by auto.
      apply array_get_replicate.
Qed.

(** The values read at the positions of a record that is cut short: its
    values, then [undefined]. *)
Lemma reads_of_cut_record (pre : list Z) c s e (vals : list Z) j :
  0 <= j ->
  js_index (pre ++ c :: s :: e :: vals)
    (j + (Z.of_nat (length pre) + CELL_VALUES_START_INDEX))
  = vals !! Z.to_nat j.
Proof.
  intros Hj.
  replace (j + (Z.of_nat (length pre) + CELL_VALUES_START_INDEX))
    with (Z.of_nat (length pre) + (3 + j)) by (unfold CELL_VALUES_START_INDEX; lia).
  rewrite js_index_app_r by lia. unfold js_index.
  replace (0 <=? 3 + j) with true by (symmetry; apply Z.leb_le; lia).
  by replace (Z.to_nat (3 + j)) with (3 + Z.to_nat j)%nat by lia.
Qed.

Lemma padded_slots {A} (f : Z -> A) (g : nat -> Z -> A) (h : Z -> A)
    (vals : list Z) k :
  Z.of_nat (length vals) <= k ->
  (forall (i : nat) v, vals !! i = Some v -> f (Z.of_nat i) = g i v) ->
  (forall i, Z.of_nat (length vals) <= i < k -> f i = h i) ->
  f <$> seqZ 0 k
  = imap g vals
    ++ (h <$> seqZ (Z.of_nat (length vals)) (k - Z.of_nat (length vals))).
Proof.
  intros Hlen Hg Hh.
  replace k with (Z.of_nat (length vals) + (k - Z.of_nat (length vals))) at 1
    by lia.
  rewrite seqZ_app, fmap_app by lia. rewrite Z.add_0_l. f_equal.
  - apply list_eq. intros i. rewrite list_lookup_fmap, list_lookup_imap.
    destruct (vals !! i) as [v|] eqn:Hv.
    + pose proof (lookup_lt_Some _ _ _ Hv).
      rewrite lookup_seqZ_lt by lia. simpl. f_equal.
      rewrite Z.add_0_l. by apply Hg.
    + apply lookup_ge_None_1 in Hv.
      rewrite lookup_seqZ_ge by lia. done.
  - apply list_fmap_ext. intros i j Hj. apply lookup_seqZ in Hj as [-> Hi].
    apply Hh. lia.
Qed.

End BrokenTail.

(** ** The features as the records say *)

Section Reference.
Context {num : Type} `{JSNumber num} `{CellHelpers}.
Variable K : Constants num.

Implicit Types (f : FourwingsFeature num) (rss : list (list CellRecord)).

(** An array of per-sublayer entries, from its entries. *)
Lemma entries_eq {A} (a : jsarray A) (n : nat) (ws : list (SublayerView num))
    (get : SublayerView num -> option A) :
  length a = n -> length ws = n ->
  (forall (s : nat) w, ws !! s = Some w -> array_get a (Z.of_nat s) = get w) ->
  a = get <$> ws.
Proof.
  intros Ha Hws Hget. apply jsarray_eq; [by rewrite length_fmap, Ha, Hws|].
  intros i Hi.
  destruct (lookup_lt_is_Some_2 ws (Z.to_nat i)) as [w Hw]; [lia|].
  rewrite (array_get_lookup (get <$> ws) i (get w)); [|lia|].
  - rewrite <- (Hget _ _ Hw). f_equal. lia.
  - by rewrite list_lookup_fmap, Hw.
Qed.

(** A feature is what its cell and the entries of its sublayers make it. *)
Lemma feature_eq_expected f rss c :
  same_cell f (newFeature K (Some c)) ->
  well_formed (length rss) (properties f) ->
  (forall (s : nat) rs, rss !! s = Some rs ->
     view (properties f) (Z.of_nat s) = cell_view K rs c) ->
  f = expected_feature K rss c.
Proof.
  intros (Hty & Hgeo & Hcol & Hrow & Hid & Hnum & Hkey)
    (Hlv & Hld & Hls & Hli & _) Hview.
  set (ws := (fun rs => cell_view K rs c) <$> rss).
  assert (length ws = length rss) as Hws by apply length_fmap.
  assert (forall (s : nat) w, ws !! s = Some w ->
            view (properties f) (Z.of_nat s) = w) as Hw.
  { intros s w Hs. unfold ws in Hs. rewrite list_lookup_fmap in Hs.
    destruct (rss !! s) as [rs|] eqn:Hrs; [|done].
    injection Hs as <-. by apply Hview. }
  pose proof (entries_eq (values (properties f)) _ ws view_values Hlv Hws)
    as Hvalues.
  pose proof (entries_eq (dates (properties f)) _ ws view_dates Hld Hws)
    as Hdates.
  pose proof (entries_eq (startOffsets (properties f)) _ ws view_startOffset
                Hls Hws) as Hoffsets.
  pose proof (entries_eq (initialValues (properties f)).2 _ ws
                view_initialValue Hli Hws) as Hinitial.
  unfold expected_feature. fold ws.
  destruct f as [ty geo [col row vs ds id cn so [key iv]]].
  unfold set_properties, set_sublayer. simpl in *.
  rewrite <- Hty, <- Hgeo, <- Hcol, <- Hrow, <- Hid, <- Hnum, <- Hkey.
  rewrite <- Hvalues, <- Hdates, <- Hoffsets, <- Hinitial; [done|..];
    intros s w Hs; by rewrite <- (Hw s w Hs).
Qed.

End Reference.

(** ** The exceptions of the scan *)

Section Exceptions.
Context {num : Type} `{JSNumber num} `{CellHelpers}.
Variable K : Constants num.

Local Abbreviation sublayersLength := (k_sublayersLength K).

Implicit Types (p : FeatureProperties num) (st : DecodeState num).

Lemma cellValueStep_throws arr sub sf si k j p counts e :
  0 <= sub < Z.of_nat sublayersLength ->
  Z.of_nat sublayersLength <= MAX_ARRAY_LENGTH ->
  well_formed sublayersLength p ->
  length counts = sublayersLength ->
  cellValueStep K arr sub sf si k j (p, counts) = Throws e ->
  e = RangeError.
Proof.
  intros Hsub Hmax Hwf Hlen Hthrows.
  destruct (decide (is_Some (view_values (view p sub))
                    \/ 0 <= k <= MAX_ARRAY_LENGTH)) as [Hk|Hk].
  - destruct (cellValueStep_view K arr sub sf si k j p counts Hsub Hmax Hwf
                Hlen Hk) as (p1 & c1 & Heq & _).
    by rewrite Heq in Hthrows.
  - unfold cellValueStep in Hthrows.
    destruct (is_data K (js_index arr (j + si))); [|done].
    unfold initSublayer in Hthrows.
    destruct (array_get (values p) sub) as [a|] eqn:Ea.
    { exfalso. apply Hk. left. simpl. rewrite Ea. eauto. }
    rewrite new_Array_invalid in Hthrows by tauto. by injection Hthrows.
Qed.

Lemma cellValuesLoop_throws arr sub sf si k n : forall j p counts e,
  0 <= sub < Z.of_nat sublayersLength ->
  Z.of_nat sublayersLength <= MAX_ARRAY_LENGTH ->
  well_formed sublayersLength p ->
  length counts = sublayersLength ->
  cellValuesLoop K arr sub sf si k n j (p, counts) = Throws e ->
  e = RangeError.
Proof.
  induction n as [|n IH]; intros j p counts e Hsub Hmax Hwf Hlen Hthrows;
    [done|].
  cbn [cellValuesLoop] in Hthrows.
  destruct (cellValueStep K arr sub sf si k j (p, counts))
    as [[p1 c1]|e1|] eqn:Hstep; [| |done].
  - cbn [obind] in Hthrows.
    destruct (cellValueStep_returned K _ _ _ _ _ _ _ _ _ _ Hsub Hmax Hwf Hlen
                Hstep) as (_ & _ & Hwf1 & Hl1).
    by eapply IH.
  - injection Hthrows as <-. by eapply cellValueStep_throws.
Qed.

Lemma processCell_throws arr sub c sf ef si st e :
  0 <= sub < Z.of_nat sublayersLength ->
  Z.of_nat sublayersLength <= MAX_ARRAY_LENGTH ->
  state_ok K st ->
  processCell K arr sub c sf ef si st = Throws e ->
  e = RangeError.
Proof.
  intros Hsub Hmax Hok Hthrows.
  destruct (addFeature_spec K c st Hok) as ((_ & _ & Hall1) & (f & Hf & _) & _).
  destruct (Hall1 _ _ Hf) as [Hwf _].
  unfold processCell in Hthrows. rewrite Hf in Hthrows.
  destruct sf as [s|], ef as [e'|]; simpl in Hthrows; try done.
  destruct (cellValuesLoop K arr sub s si _ _ 0 _) as [acc|e1|] eqn:Hloop;
    [done| |done].
  injection Hthrows as <-.
  eapply cellValuesLoop_throws; [..|exact Hloop]; try done.
  apply length_replicate.
Qed.

Lemma scanLoop_throws fuel arr sub : forall i v st e,
  0 <= sub < Z.of_nat sublayersLength ->
  Z.of_nat sublayersLength <= MAX_ARRAY_LENGTH ->
  state_ok K st ->
  scanLoop K fuel arr sub i v st = Throws e ->
  e = RangeError.
Proof.
  induction fuel as [|fuel IH]; intros i v st e Hsub Hmax Hok Hthrows; [done|].
  cbn [scanLoop] in Hthrows.
  destruct (i <? Z.of_nat (length arr)); [|done].
  unfold scanStep in Hthrows.
  destruct (v_indexInCell v =? CELL_NUM_INDEX); [by eapply IH|].
  destruct (v_indexInCell v =? CELL_START_INDEX); [by eapply IH|].
  destruct (v_indexInCell v =? CELL_END_INDEX); [|by eapply IH].
  destruct (processCell K arr sub (v_cellNum v) (v_startFrame v) _
              (v_startIndex v) st) as [[i2 st2]|e2|] eqn:Hcell; [| |done].
  - cbn [obind] in Hthrows.
    destruct (processCell_returned K _ _ _ _ _ _ _ _ _ Hsub Hmax Hok Hcell)
      as (f' & Hok' & _).
    destruct i2 as [i2|]; [by eapply IH|done].
  - injection Hthrows as <-. by eapply processCell_throws.
Qed.

Lemma sublayersLoop_throws fuel (arrays : list FourwingsRawData) :
  forall sub st e,
  0 <= sub ->
  sub + Z.of_nat (length arrays) <= Z.of_nat sublayersLength ->
  Z.of_nat sublayersLength <= MAX_ARRAY_LENGTH ->
  scan_invariant K st ->
  sublayersLoop K fuel (Some <$> arrays) sub st = Throws e ->
  e = RangeError.
Proof.
  induction arrays as [|arr arrays IH]; intros sub st e Hsub Hlen Hmax Hinv
    Hthrows; [done|].
  rewrite fmap_cons in Hthrows. cbn [sublayersLoop] in Hthrows.
  rewrite length_cons in Hlen.
  destruct (scanLoop K fuel arr sub 0 initialScanVars st) as [st1|e1|] eqn:Hscan;
    [| |done].
  - cbn [obind] in Hthrows.
    apply (IH (sub + 1) st1 e); try done; [lia..|].
    eapply scanLoop_invariant; [| |exact Hinv|exact Hscan]; lia.
  - injection Hthrows as <-.
    eapply scanLoop_throws; [| |apply Hinv|exact Hscan]; lia.
Qed.

End Exceptions.

(** ** The aggregate over the records of a cell *)

Section Aggregates.
Context {num : Type} `{JSNumber num} `{CellHelpers}.
Variable K : Constants num.

Local Abbreviation sublayers := (k_sublayers K).
Local Abbreviation tileStartFrame := (k_tileStartFrame K).

Implicit Types (w : SublayerView num) (r : CellRecord).

(** The aggregate after a record, whether the arrays of the sublayer exist
    before it or not. *)
Lemma record_view_aggregate r w :
  set_together w ->
  view_initialValue (record_view K r w)
    = aggregate_after K r (bool_decide (is_Some (view_values w)))
        (view_initialValue w) /\
  bool_decide (is_Some (view_values (record_view K r w)))
    = bool_decide (is_Some (view_values w))
      || bool_decide (record_data K r <> []) /\
  set_together (record_view K r w).
Proof.
  intros Hw. split; [|split; [|by apply view_cell_together]].
  - destruct Hw as (Hd & _ & Hi). unfold aggregate_after.
    destruct w as [[a|] d so iv]; simpl in *.
    + destruct Hd as [[d' ->] _]; [by eauto|].
      destruct Hi as [x ->]; [by eauto|].
      rewrite record_view_allocated.
      unfold view_aggregate. cbn [fst snd view_initialValue].
      unfold record_counted.
      destruct (record_data K r) as [|j js] eqn:Ejs;
        by destruct (String.eqb _ _).
    + rewrite record_view_fresh by done.
      unfold view_aggregate, record_counted.
      destruct (record_data K r) as [|j js] eqn:Ejs;
        by destruct (String.eqb _ _).
  - destruct (view_values w) as [a|] eqn:Ea.
    + destruct w as [va [d|] so [x|]]; simpl in Ea; subst va;
        destruct Hw as (Hd & _ & Hi); simpl in *;
        try (by destruct Hd as [[? ?] _]; eauto);
        try (by destruct Hi as [? ?]; eauto).
      rewrite record_view_allocated.
      destruct (view_aggregate_arrays K
                  ({| view_values :=
                        Some (stored_values K (rec_values r) 0 (record_data K r) a);
                      view_dates :=
                        Some (stored_dates K (rec_startFrame r - tileStartFrame)
                                (record_data K r) d);
                      view_startOffset := so;
                      view_initialValue :=
                        Some (accumulated K (rec_values r) 0
                                (record_counted K r) x) |},
                   Z.of_nat (length (record_counted K r)))) as (-> & _).
      cbn [fst view_values]. by rewrite !bool_decide_true by eauto.
    + rewrite record_view_fresh by done.
      rewrite (bool_decide_false (is_Some None)) by (by intros [? ?]).
      destruct (record_data K r) as [|j js] eqn:Ejs.
      * destruct (view_aggregate_arrays K (w, 0)) as (-> & _).
        cbn [fst]. rewrite Ea.
        by rewrite !bool_decide_false by (by intros [? ?] || done).
      * destruct (view_aggregate_arrays K
                    (written K (rec_values r) (rec_startFrame r - tileStartFrame)
                       0 (declared_values sublayers r) (j :: js))) as (-> & _).
        unfold written. cbn [fst view_values].
        by rewrite !bool_decide_true by eauto.
Qed.

Lemma records_aggregate (l : list CellRecord) : forall w,
  set_together w ->
  (bool_decide (is_Some (view_values
                           (fold_left (fun w r => record_view K r w) l w))),
   view_initialValue (fold_left (fun w r => record_view K r w) l w))
  = fold_left (fun st r => (st.1 || bool_decide (record_data K r <> []),
                            aggregate_after K r st.1 st.2))
      l (bool_decide (is_Some (view_values w)), view_initialValue w).
Proof.
  induction l as [|r l IH]; intros w Hw; [done|]. cbn [fold_left fst snd].
  destruct (record_view_aggregate r w Hw) as (Hiv & Halloc & Htog).
  rewrite IH by done. by rewrite Hiv, Halloc.
Qed.

(** The aggregate of a sublayer for a cell, from the records of the cell in
    the stream of the sublayer. *)
Lemma cell_view_aggregate rs c :
  view_initialValue (cell_view K rs c)
  = (aggregate_of K (filter (fun r => rec_cellNum r = c) rs)).2.
Proof.
  unfold cell_view, aggregate_of.
  pose proof (records_aggregate (filter (fun r => rec_cellNum r = c) rs) unset
                unset_together) as Heq.
  change (bool_decide (is_Some (view_values (@unset num)))) with false in Heq.
  change (view_initialValue (@unset num)) with (@None num) in Heq.
  by rewrite <- Heq.
Qed.

(** The entries of a sublayer are set together after any records. *)
Lemma cell_view_at_together arr rs : forall pos c w,
  set_together w -> set_together (cell_view_at K arr pos rs c w).
Proof.
  induction rs as [|r rs IH]; intros pos c w Hw; [done|].
  cbn [cell_view_at]. apply IH.
  destruct (decide _); [by apply view_cell_together|done].
Qed.

(** The dense array of values after a record that holds data, whether the
    arrays of the sublayer exist before it or not. *)
Lemma view_cell_values arr sf ef si w :
  set_together w ->
  data_positions K arr si ((ef - sf + 1) * sublayers) <> [] ->
  view_values (view_cell K arr (Some sf) (Some ef) si w)
  = Some (stored_values K arr si
            (data_positions K arr si ((ef - sf + 1) * sublayers))
            (default (replicate (Z.to_nat ((ef - sf + 1) * sublayers)) None)
               (view_values w))).
Proof.
  intros (Hd & _ & Hi) Hdata. unfold view_cell.
  set (k := (ef - sf + 1) * sublayers) in *.
  destruct (view_aggregate_arrays K
              (view_loop K arr sf si k (Z.to_nat k) 0 (w, 0))) as (-> & _).
  destruct w as [[a|] d so iv]; cbn [view_values view_dates view_initialValue] in *.
  - destruct Hd as [[d' ->] _]; [by eauto|].
    destruct Hi as [x ->]; [by eauto|].
    rewrite view_loop_fold, view_steps_data.
    replace (Z.of_nat (Z.to_nat k)) with (Z.max k 0) by lia.
    assert (seqZ 0 (Z.max k 0) = seqZ 0 k) as ->.
    { destruct (Z.le_gt_cases k 0); [|f_equal; lia].
      by rewrite !seqZ_nil by lia. }
    fold (data_positions K arr si k).
    by rewrite view_steps_allocated by apply data_positions_data.
  - rewrite view_loop_fresh by done.
    by destruct (data_positions K arr si k).
Qed.

(** The value that a position past the end of the stream is read as is
    stored in the slot of its frame, and kept there: a position that holds a
    value of the stream comes before it. *)
Lemma stored_past_the_end arr si k m j (a : jsarray num) :
  1 <= sublayers ->
  (exists frames, k = frames * sublayers) -> k <= MAX_ARRAY_LENGTH ->
  (forall j', m <= j' -> js_index arr (j' + si) = None) ->
  0 <= m <= j -> j < k ->
  array_get (stored_values K arr si (data_positions K arr si k) a)
    (j / sublayers)
  = Some (transform K None).
Proof.
  intros Hb [frames Hk] Hmax Hnone Hm Hj.
  set (q := j / sublayers).
  set (jl := q * sublayers + (sublayers - 1)).
  assert (0 <= q) as Hq0 by (apply Z.div_pos; lia).
  assert (q * sublayers <= j < q * sublayers + sublayers) as Hqj.
  { pose proof (Z.div_mod j sublayers) as Hdm.
    pose proof (Z.mod_pos_bound j sublayers). fold q in Hdm. lia. }
  assert (q < frames) as Hqf by nia.
  assert (j <= jl < k) as Hjl by (unfold jl; nia).
  assert (jl / sublayers = q) as Hslot.
  { symmetry. apply (Z.div_unique jl sublayers q (sublayers - 1)); unfold jl; lia. }
  assert (is_data K (js_index arr (jl + si)) = true) as Hdata
    by (by rewrite Hnone by lia).
  destruct (data_positions_split K arr si k jl) as (js1 & js2 & -> & Hjs2);
    [lia|done|].
  pose proof (stored_last (fun j => j / sublayers)
                (fun j => transform K (js_index arr (j + si)))
                js1 js2 jl a) as Hlast.
  cbv beta in Hlast. rewrite Hslot in Hlast. unfold stored_values.
  rewrite Hlast; [by rewrite Hnone by lia|nia|].
  eapply Forall_impl; [exact Hjs2|]. intros j' [Hlt _]. cbv beta.
  enough (q + 1 <= j' / sublayers) by lia.
  apply Z.div_le_lower_bound; [lia|]. unfold jl in Hlt. lia.
Qed.

(** The slot of a frame whose last value is missing from the stream holds
    the transform of [undefined] after the record. *)
Lemma view_cell_past_the_end arr sf ef si m j w :
  set_together w -> 1 <= sublayers ->
  (ef - sf + 1) * sublayers <= MAX_ARRAY_LENGTH ->
  (forall j', m <= j' -> js_index arr (j' + si) = None) ->
  0 <= m <= j -> j < (ef - sf + 1) * sublayers ->
  (view_values (view_cell K arr (Some sf) (Some ef) si w)
     ≫= fun a => array_get a (j / sublayers))
  = Some (transform K None).
Proof.
  intros Hw Hb Hmax Hnone Hm Hj.
  rewrite view_cell_values; [|done|].
  - cbn [mbind option_bind]. by eapply stored_past_the_end; eauto.
  - intros Hnil.
    assert (j ∈ data_positions K arr si ((ef - sf + 1) * sublayers)) as Hin.
    { apply elem_of_data_positions. split; [lia|]. by rewrite Hnone by lia. }
    rewrite Hnil in Hin. by apply elem_of_nil in Hin.
Qed.

End Aggregates.

(** * The claims *)

Section Claims.
Context {num : Type} `{JSNumber num} `{CellHelpers} `{TimeHelpers} `{PbfLibrary}.

Implicit Types (options : option (FourwingsLoaderOptions num)).

(** C8, as amended. With [buffersLength] empty or missing, [parseFourwings]
    returns no feature and raises no error. With [initialTimeRange] missing,
    [getCellTimeseries] returns no feature whatever the streams are, and
    [parseFourwings], which reads every sub-buffer before it comes to the
    time range, does as these reads do: it returns no feature when they
    return, and throws the exception of the reader when one of them
    throws. *)
Theorem empty_input_yields_no_feature fuel datasetsBuffer intArrays options :
  (((options ≫= fourwings) ≫= buffersLength = None \/
    (options ≫= fourwings) ≫= buffersLength = Some []) ->
   parseFourwings fuel datasetsBuffer options = Returns []) /\
  ((options ≫= fourwings) ≫= initialTimeRange = None ->
   getCellTimeseries fuel intArrays options = Returns [] /\
   forall lengths,
     (options ≫= fourwings) ≫= buffersLength = Some lengths ->
     parseFourwings fuel datasetsBuffer options
     = let* arrays := readBuffers datasetsBuffer lengths lengths 0 0 in
       Returns []).
Proof.
  assert (forall arrays, (options ≫= fourwings) ≫= initialTimeRange = None ->
            getCellTimeseries fuel arrays options = Returns []) as Hrange.
  { intros arrays Hnone. unfold getCellTimeseries.
    destruct (options ≫= fourwings) as [o|]; [|done].
    simpl in Hnone. by rewrite Hnone. }
  split.
  - intros Hlen. unfold parseFourwings. by destruct Hlen as [-> | ->].
  - intros Hnone. split; [by apply Hrange|].
    intros lengths Hlen. unfold parseFourwings.
    rewrite Hlen. destruct lengths as [|n lengths]; [done|].
    destruct (readBuffers datasetsBuffer (n :: lengths) (n :: lengths) 0 0)
      as [arrays| |]; [|done..].
    cbn [obind]. by apply Hrange.
Qed.

(** C9. For a valid input the returned sequence holds exactly one feature
    for each cell number met in the streams, whatever the number of sublayers
    that hold records of the cell. The cell helpers are called once for each
    cell number, when it is first met, and the feature keeps what they
    returned. The entries of sublayer [s] in the feature of a cell are those
    written by the records of the cell in stream [s], independently of the
    other streams. *)
Theorem one_feature_per_cell fuel rss options o range cfg t :
  configured options o range cfg t ->
  valid_input (sublayers o) rss ->
  enough_fuel fuel rss ->
  exists st fs,
    sublayersLoop (callConstants o range cfg t (length rss)) fuel
      (intArrays_of rss) 0 emptyState = Returns st /\
    getCellTimeseries fuel (intArrays_of rss) options = Returns fs /\
    NoDup (cellNums fs) /\
    (forall c, Some c ∈ cellNums fs <-> c ∈ rss ≫= fmap rec_cellNum) /\
    materialized st = first_seen [] (rss ≫= fmap rec_cellNum) /\
    NoDup (materialized st) /\
    forall f c, f ∈ fs -> cellNum (properties f) = Some c ->
      same_cell f
        (newFeature (callConstants o range cfg t (length rss)) (Some c)) /\
      forall (s : nat) rs, rss !! s = Some rs ->
        view (properties f) (Z.of_nat s)
        = cell_view (callConstants o range cfg t (length rss)) rs c.
Proof.
  intros Hconf Hvalid Hfuel.
  destruct (decode_whole fuel rss options o range cfg t Hconf Hvalid Hfuel)
    as (st & Hloop & Hget & Hok & Hkeys & Hview).
  exists st, (Object_values (features st)).
  split; [done|]. split; [done|].
  pose proof (output_cellNums_perm _ st Hok) as Hperm.
  assert (NoDup (first_seen [] (rss ≫= fmap rec_cellNum))) as Hnd
    by apply first_seen_NoDup, NoDup_nil_2.
  split; [by rewrite Hperm, Hkeys|]. split.
  { intros c. rewrite Hperm, Hkeys, elem_of_first_seen. split.
    - intros [Hin|(c' & [= <-] & Hc)]; [by apply elem_of_nil in Hin|done].
    - intros Hc. right. by exists c. }
  destruct Hok as (Hnodup & Hmat & Hall).
  split; [by rewrite Hmat|]. split; [by rewrite Hmat, Hkeys|].
  intros f c Hf Hc.
  destruct (output_entry _ st f (conj Hnodup (conj Hmat Hall)) Hf)
    as (k & Hk & Hnum & Hcell & Hprior).
  rewrite Hc in Hnum. subst k. split; [done|].
  intros s rs Hs. rewrite Hprior. by apply Hview.
Qed.

(** C3, as amended. For a valid input whose cell numbers are array indices
    (below [2^32 - 1]) the returned sequence holds each cell number met in
    the streams once, in ascending order of cell number. *)
Theorem features_in_ascending_cell_order fuel rss options o range cfg t :
  configured options o range cfg t ->
  valid_input (sublayers o) rss ->
  enough_fuel fuel rss ->
  Forall (fun c => 0 <= c < MAX_ARRAY_LENGTH) (rss ≫= fmap rec_cellNum) ->
  exists fs cs,
    getCellTimeseries fuel (intArrays_of rss) options = Returns fs /\
    cellNums fs = Some <$> cs /\
    StronglySorted Z.lt cs /\
    Some <$> cs ≡ₚ first_seen [] (rss ≫= fmap rec_cellNum).
Proof.
  intros Hconf Hvalid Hfuel Hcells.
  destruct (decode_whole fuel rss options o range cfg t Hconf Hvalid Hfuel)
    as (st & Hloop & Hget & Hok & Hkeys & Hview).
  exists (Object_values (features st)),
         (index_of_key <$> (own_properties (features st)).*1).
  split; [done|].
  assert (Forall (fun kv : jskey * FourwingsFeature num =>
                    is_array_index kv.1 = true) (features st)) as Hidx.
  { apply Forall_forall. intros [k f] Hin. simpl.
    assert (k ∈ (features st).*1) as Hk.
    { apply list_elem_of_fmap. by exists (k, f). }
    rewrite Hkeys, elem_of_first_seen in Hk.
    destruct Hk as [Hk|(c & -> & Hc)]; [by apply elem_of_nil in Hk|].
    rewrite Forall_forall in Hcells. specialize (Hcells _ Hc). simpl.
    apply andb_true_iff. split; [apply Z.leb_le|apply Z.ltb_lt]; lia. }
  assert (Some <$> (index_of_key <$> (own_properties (features st)).*1)
          = (own_properties (features st)).*1) as Hsome.
  { rewrite <- list_fmap_compose.
    assert (Forall (fun kv : jskey * FourwingsFeature num =>
                      is_array_index kv.1 = true)
              (own_properties (features st))) as Hidx'
      by (by rewrite own_properties_perm).
    induction Hidx' as [|[[k|] f] l Hk Hl IH]; [done| |done].
    rewrite !fmap_cons. simpl. by rewrite IH. }
  split; [|split].
  - by rewrite Hsome, (output_cellNums _ _ Hok).
  - apply own_properties_ascending; [apply Hok|done].
  - by rewrite Hsome, own_properties_perm, Hkeys.
Qed.

(** C10. For a valid input, when every record of a cell in the stream of
    sublayer [s] holds sentinels only, the feature of the cell is created and
    returned, and [values[s]], [dates[s]] and [startOffsets[s]] of the feature
    are unset. *)
Theorem sentinel_records_leave_sublayer_unset fuel rss options o range cfg t
    (s : nat) rs c :
  configured options o range cfg t ->
  valid_input (sublayers o) rss ->
  enough_fuel fuel rss ->
  rss !! s = Some rs ->
  c ∈ rec_cellNum <$> rs ->
  Forall (fun r => rec_cellNum r = c ->
            Forall (fun v => v = default NO_DATA_VALUE (noDataValue o))
              (rec_values r)) rs ->
  exists fs f,
    getCellTimeseries fuel (intArrays_of rss) options = Returns fs /\
    f ∈ fs /\ cellNum (properties f) = Some c /\
    array_get (values (properties f)) (Z.of_nat s) = None /\
    array_get (dates (properties f)) (Z.of_nat s) = None /\
    array_get (startOffsets (properties f)) (Z.of_nat s) = None.
Proof.
  intros Hconf Hvalid Hfuel Hs Hc Hall.
  destruct (decode_cell fuel rss options o range cfg t s rs c)
    as (fs & f & Hget & Hf & Hnum & Hview); try done.
  exists fs, f. split; [done|]. split; [done|]. split; [done|].
  set (K := callConstants o range cfg t (length rss)) in *.
  destruct (cell_view_sentinel K rs c) as (Hv & Hd & Hso).
  { destruct Hvalid as [_ Hvalid]. rewrite Forall_forall in Hvalid.
    destruct (Hvalid rs) as [Hrs _]; [by eapply list_elem_of_lookup_2|].
    rewrite Forall_forall in Hall, Hrs. apply Forall_forall.
    intros r Hr Hrc. apply record_data_sentinel; [by apply Hrs|].
    by apply Hall. }
  rewrite <- Hview in Hv, Hd, Hso. done.
Qed.

(** C2, as amended. For a valid input with at least one band per frame, when
    a cell has one record in the stream of sublayer [s] and the record holds a
    value that is not the sentinel, [values[s]] and [dates[s]] of the feature
    of the cell have the same length, the number of values of the record:
    [(endFrame - startFrame + 1) * bandsPerFrame]. *)
Theorem dense_arrays_hold_one_slot_per_value fuel rss options o range cfg t
    (s : nat) rs r :
  configured options o range cfg t ->
  valid_input (sublayers o) rss ->
  enough_fuel fuel rss ->
  rss !! s = Some rs ->
  only_record rs r ->
  1 <= sublayers o ->
  Exists (fun v => v <> default NO_DATA_VALUE (noDataValue o)) (rec_values r) ->
  exists fs f vs ds,
    getCellTimeseries fuel (intArrays_of rss) options = Returns fs /\
    f ∈ fs /\ cellNum (properties f) = Some (rec_cellNum r) /\
    array_get (values (properties f)) (Z.of_nat s) = Some vs /\
    array_get (dates (properties f)) (Z.of_nat s) = Some ds /\
    Z.of_nat (length vs)
      = (rec_endFrame r - rec_startFrame r + 1) * sublayers o /\
    length ds = length vs.
Proof.
  intros Hconf Hvalid Hfuel Hs Honly Hbands Hdata.
  destruct (decode_only_record fuel rss options o range cfg t s rs r)
    as (Hwhole & fs & f & Hget & Hf & Hnum & Hview); try done.
  set (K := callConstants o range cfg t (length rss)) in *.
  apply Exists_exists in Hdata as (v & Hv & Hne).
  apply list_elem_of_lookup in Hv as [i Hi].
  pose proof (record_data_value K r i v Hwhole Hi Hne) as Hin.
  pose proof (record_data_bounds K r) as Hbounds.
  change (k_sublayers K) with (sublayers o) in Hbounds.
  rewrite record_view_fresh in Hview by done.
  change (k_sublayers K) with (sublayers o) in Hview.
  destruct (record_data K r) as [|j js] eqn:Ejs; [by apply elem_of_nil in Hin|].
  destruct (written_lengths K (rec_values r)
              (rec_startFrame r - k_tileStartFrame K) 0
              (declared_values (sublayers o) r) (j :: js) Hbands Hbounds)
    as [Hlv Hld].
  assert (0 < declared_values (sublayers o) r) as Hpos.
  { apply Forall_cons in Hbounds as [Hj _]. simpl in Hj. lia. }
  set (vs := stored_values K (rec_values r) 0 (j :: js) _) in *.
  set (ds := stored_dates K _ (j :: js) _) in *.
  assert (view_values (view (properties f) (Z.of_nat s)) = Some vs /\
          view_dates (view (properties f) (Z.of_nat s)) = Some ds) as [Hvs Hds].
  { rewrite Hview. unfold view_aggregate, written.
    by destruct (String.eqb _ _). }
  exists fs, f, vs, ds. split; [done|]. split; [done|]. split; [done|].
  split; [exact Hvs|]. split; [exact Hds|].
  unfold declared_values in *. split; [lia|].
  apply Nat2Z.inj. lia.
Qed.

(** C1, as amended. An iteration of the loop over the values of a record that
    reads a value other than the sentinel at position [j] adds the transformed
    value to [initialValues[timeRangeKey][s]], and 1 to the counter of the
    record, if and only if [startFrame + j], with the raw position [j], lies in
    [[timeRangeStartFrame, timeRangeEndFrame)]; the aggregate it adds to is 0
    when the iteration creates the arrays of the sublayer. After the loop,
    ['avg'] divides the aggregate by the counter. For a valid input and every
    record of a cell in the stream of sublayer [s], the positions counted are
    those of the values other than the sentinel with [startFrame + j] in the
    range, and the aggregate of the feature is that of the records of the cell
    taken in order: it runs on from one record to the next, each record adds
    the values it counts, and ['avg'] divides after each record by the counter
    of that record. For a cell with one record it is the sum of the counted
    values, divided by their number under ['avg']. *)
Theorem range_aggregate_counts_raw_positions :
  (forall (K : Constants num) arr sub sf si k j p counts,
     0 <= sub < Z.of_nat (k_sublayersLength K) ->
     Z.of_nat (k_sublayersLength K) <= MAX_ARRAY_LENGTH ->
     well_formed (k_sublayersLength K) p ->
     length counts = k_sublayersLength K ->
     is_Some (array_get (values p) sub) \/ 0 <= k <= MAX_ARRAY_LENGTH ->
     is_data K (js_index arr (j + si)) = true ->
     let before := match array_get (values p) sub with
                   | Some _ => array_get (initialValues p).2 sub
                   | None => Some (of_int 0)
                   end in
     exists p' counts',
       cellValueStep K arr sub sf si k j (p, counts) = Returns (p', counts') /\
       ((k_timeRangeStartFrame K <= j + sf < k_timeRangeEndFrame K ->
         array_get (initialValues p').2 sub
           = Some (js_add (to_number before)
                     (transform K (js_index arr (j + si)))) /\
         counts' !!! Z.to_nat sub = counts !!! Z.to_nat sub + 1) /\
        (~ k_timeRangeStartFrame K <= j + sf < k_timeRangeEndFrame K ->
         array_get (initialValues p').2 sub = before /\
         counts' !!! Z.to_nat sub = counts !!! Z.to_nat sub))) /\
  (forall (K : Constants num) sub p counts,
     0 <= sub < Z.of_nat (k_sublayersLength K) ->
     Z.of_nat (k_sublayersLength K) <= MAX_ARRAY_LENGTH ->
     well_formed (k_sublayersLength K) p ->
     array_get (initialValues (aggregate K sub (p, counts))).2 sub
     = if String.eqb (k_aggregationOperation K) "avg"
       then Some (js_div (to_number (array_get (initialValues p).2 sub))
                    (of_int (counts !!! Z.to_nat sub)))
       else array_get (initialValues p).2 sub) /\
  (forall fuel rss options o range cfg t (s : nat) rs c,
     configured options o range cfg t ->
     valid_input (sublayers o) rss ->
     enough_fuel fuel rss ->
     rss !! s = Some rs ->
     c ∈ rec_cellNum <$> rs ->
     let K := callConstants o range cfg t (length rss) in
     (forall r j, r ∈ rs ->
        j ∈ record_counted K r <->
        exists v, 0 <= j /\ rec_values r !! Z.to_nat j = Some v /\
          v <> default NO_DATA_VALUE (noDataValue o) /\
          k_timeRangeStartFrame K
            <= j + (rec_startFrame r - k_tileStartFrame K)
            < k_timeRangeEndFrame K) /\
     exists fs f,
       getCellTimeseries fuel (intArrays_of rss) options = Returns fs /\
       f ∈ fs /\ cellNum (properties f) = Some c /\
       array_get (initialValues (properties f)).2 (Z.of_nat s)
       = (aggregate_of K (filter (fun r => rec_cellNum r = c) rs)).2) /\
  (forall fuel rss options o range cfg t (s : nat) rs r,
     configured options o range cfg t ->
     valid_input (sublayers o) rss ->
     enough_fuel fuel rss ->
     rss !! s = Some rs ->
     only_record rs r ->
     let K := callConstants o range cfg t (length rss) in
     let sum := accumulated K (rec_values r) 0 (record_counted K r) (of_int 0) in
     let avg := String.eqb (default "sum"%string (aggregationOperation o)) "avg" in
     exists fs f,
       getCellTimeseries fuel (intArrays_of rss) options = Returns fs /\
       f ∈ fs /\ cellNum (properties f) = Some (rec_cellNum r) /\
       array_get (initialValues (properties f)).2 (Z.of_nat s) =
         match record_data K r with
         | [] => if avg then Some (js_div NaN (of_int 0)) else None
         | _ => Some (if avg
                      then js_div sum
                             (of_int (Z.of_nat (length (record_counted K r))))
                      else sum)
         end).
Proof.
  split; [|split; [|split]].
  - intros K arr sub sf si k j p counts Hsub Hmax Hwf Hlen Halloc Hdata before.
    destruct (cellValueStep_view K arr sub sf si k j p counts)
      as (p' & counts' & Hstep & Hview & _); try done.
    exists p', counts'. split; [done|].
    assert (array_get (initialValues p').2 sub
            = view_initialValue
                (view_step K arr sf si k j
                   (view p sub, counts !!! Z.to_nat sub)).1 /\
            counts' !!! Z.to_nat sub
            = (view_step K arr sf si k j
                 (view p sub, counts !!! Z.to_nat sub)).2) as [-> ->]
      by (by rewrite <- Hview).
    unfold view_step. rewrite Hdata. unfold view_init, in_time_range.
    cbn [fst snd view view_values view_initialValue].
    split.
    + intros Hin.
      assert ((k_timeRangeStartFrame K <=? j + sf)
              && (j + sf <? k_timeRangeEndFrame K) = true) as ->.
      { apply andb_true_iff. split; [apply Z.leb_le|apply Z.ltb_lt]; lia. }
      unfold before. by destruct (array_get (values p) sub).
    + intros Hout.
      assert ((k_timeRangeStartFrame K <=? j + sf)
              && (j + sf <? k_timeRangeEndFrame K) = false) as ->.
      { apply not_true_is_false. intros [Hl Hr]%andb_true_iff.
        apply Z.leb_le in Hl. apply Z.ltb_lt in Hr. lia. }
      unfold before. by destruct (array_get (values p) sub).
  - intros K sub p counts Hsub Hmax Hwf.
    destruct (aggregate_view K sub p counts) as (Hview & _); try done.
    change (view_initialValue (view (aggregate K sub (p, counts)) sub)
            = if String.eqb (k_aggregationOperation K) "avg"
              then Some (js_div (to_number (view_initialValue (view p sub)))
                           (of_int (counts !!! Z.to_nat sub)))
              else view_initialValue (view p sub)).
    rewrite Hview. unfold view_aggregate. by destruct (String.eqb _ _).
  - intros fuel rss options o range cfg t s rs c Hconf Hvalid Hfuel Hs Hc K.
    split.
    + intros r j Hr. apply (elem_of_record_counted K).
      destruct Hvalid as [_ Hvalid]. rewrite Forall_forall in Hvalid.
      destruct (Hvalid rs) as [Hrs _]; [by eapply list_elem_of_lookup_2|].
      rewrite Forall_forall in Hrs. by apply Hrs.
    + destruct (decode_cell fuel rss options o range cfg t s rs c)
        as (fs & f & Hget & Hf & Hnum & Hview); try done.
      exists fs, f. split; [done|]. split; [done|]. split; [done|].
      change (view_initialValue (view (properties f) (Z.of_nat s))
              = (aggregate_of K (filter (fun r => rec_cellNum r = c) rs)).2).
      rewrite Hview. apply cell_view_aggregate.
  - intros fuel rss options o range cfg t s rs r Hconf Hvalid Hfuel Hs Honly
      K sum avg.
    destruct (decode_only_record fuel rss options o range cfg t s rs r)
      as (Hwhole & fs & f & Hget & Hf & Hnum & Hview); try done.
    exists fs, f. split; [done|]. split; [done|]. split; [done|].
    change (view_initialValue (view (properties f) (Z.of_nat s)) =
            match record_data K r with
            | [] => if avg then Some (js_div NaN (of_int 0)) else None
            | _ => Some (if avg
                         then js_div sum
                                (of_int (Z.of_nat (length (record_counted K r))))
                         else sum)
            end).
    fold K in Hview. rewrite Hview, record_view_fresh by done.
    unfold view_aggregate. fold avg.
    change (k_aggregationOperation K)
      with (default "sum"%string (aggregationOperation o)). fold avg.
    destruct (record_data K r) as [|j js] eqn:Ejs.
    + by destruct avg.
    + unfold written, sum, record_counted. rewrite Ejs.
      by destruct avg.
Qed.

(** C4. With at least one band per frame, the iteration of the loop over
    the values of a record that reads a value other than the sentinel at
    position [j] stores the transformed value and its timestamp at slot
    [floor(j / bandsPerFrame)] of the dense arrays of the sublayer, and the
    timestamp is that of frame [startFrame + tileStartFrame + j], with the raw
    position [j]. In the returned feature the slot holds the value and the
    timestamp of the last such position of its frame. *)
Theorem value_and_date_stored_at_frame_slot :
  (forall (K : Constants num) arr sub sf si k j p counts,
     0 <= sub < Z.of_nat (k_sublayersLength K) ->
     Z.of_nat (k_sublayersLength K) <= MAX_ARRAY_LENGTH ->
     well_formed (k_sublayersLength K) p ->
     length counts = k_sublayersLength K ->
     1 <= k_sublayers K ->
     0 <= j < k -> k <= MAX_ARRAY_LENGTH ->
     is_data K (js_index arr (j + si)) = true ->
     exists p' counts',
       cellValuesLoop K arr sub sf si k (Z.to_nat (j + 1)) 0 (p, counts)
         = Returns (p', counts') /\
       (array_get (values p') sub
          ≫= fun a => array_get a (j / k_sublayers K))
         = Some (transform K (js_index arr (j + si))) /\
       (array_get (dates p') sub
          ≫= fun d => array_get d (j / k_sublayers K))
         = Some (getIntervalTimestamp (k_cfg K)
                   (sf + k_tileStartFrame K + j))) /\
  (forall fuel rss options o range cfg t (s : nat) rs r (j : nat) v,
     configured options o range cfg t ->
     valid_input (sublayers o) rss ->
     enough_fuel fuel rss ->
     rss !! s = Some rs ->
     only_record rs r ->
     1 <= sublayers o ->
     rec_values r !! j = Some v ->
     v <> default NO_DATA_VALUE (noDataValue o) ->
     (forall (j' : nat) v', (j < j')%nat -> rec_values r !! j' = Some v' ->
        Z.of_nat j' / sublayers o = Z.of_nat j / sublayers o ->
        v' = default NO_DATA_VALUE (noDataValue o)) ->
     let K := callConstants o range cfg t (length rss) in
     let startFrame := rec_startFrame r - k_tileStartFrame K in
     exists fs f,
       getCellTimeseries fuel (intArrays_of rss) options = Returns fs /\
       f ∈ fs /\ cellNum (properties f) = Some (rec_cellNum r) /\
       (array_get (values (properties f)) (Z.of_nat s)
          ≫= fun a => array_get a (Z.of_nat j / sublayers o))
         = Some (transform K (Some v)) /\
       (array_get (dates (properties f)) (Z.of_nat s)
          ≫= fun d => array_get d (Z.of_nat j / sublayers o))
         = Some (getIntervalTimestamp cfg
                   (startFrame + k_tileStartFrame K + Z.of_nat j))).
Proof.
  split.
  - intros K arr sub sf si k j p counts Hsub Hmax Hwf Hlen Hbands Hj Hk Hdata.
    replace (Z.to_nat (j + 1)) with (Z.to_nat j + 1)%nat by lia.
    rewrite cellValuesLoop_app.
    destruct (cellValuesLoop_view K arr sub sf si k (Z.to_nat j) 0 p counts)
      as (p1 & c1 & -> & _ & _ & Hwf1 & Hlen1); try done; [right; lia|].
    cbn [obind cellValuesLoop].
    destruct (cellValueStep_view K arr sub sf si k (0 + Z.of_nat (Z.to_nat j))
                p1 c1) as (p2 & c2 & -> & Hview & _);
      try done; [right; lia|].
    replace (0 + Z.of_nat (Z.to_nat j)) with j in Hview by lia.
    exists p2, c2. split; [done|].
    pose proof (frame_index_bounds (k_sublayers K) j Hbands) as Hidx.
    destruct (view_step_stores K arr sf si k j (view p1 sub)
                (c1 !!! Z.to_nat sub)) as [Hv Hd]; try done; [|lia|].
    { apply Hwf1. }
    rewrite <- Hview in Hv, Hd. done.
  - intros fuel rss options o range cfg t s rs r j v Hconf Hvalid Hfuel Hs
      Honly Hbands Hv Hne Hlast K startFrame.
    destruct (decode_only_record fuel rss options o range cfg t s rs r)
      as (Hwhole & fs & f & Hget & Hf & Hnum & Hview); try done.
    fold K in Hview.
    exists fs, f. split; [done|]. split; [done|]. split; [done|].
    pose proof (record_data_value K r j v Hwhole Hv Hne) as Hin.
    unfold record_data in Hin. apply elem_of_data_positions in Hin as [Hj Hdata].
    destruct (data_positions_split K (rec_values r) 0 _ _ Hj Hdata)
      as (js1 & js2 & Hsplit & Hjs2).
    assert (record_data K r <> []) as Hnonempty.
    { unfold record_data. rewrite Hsplit. by destruct js1. }
    rewrite record_view_data in Hview by done.
    destruct (view_aggregate_arrays K
                (written K (rec_values r)
                   (rec_startFrame r - k_tileStartFrame K) 0
                   (declared_values (k_sublayers K) r) (record_data K r)))
      as (Hvs & Hds & _).
    rewrite <- Hview in Hvs, Hds. simpl in Hvs, Hds.
    rewrite Hvs, Hds. unfold record_data. rewrite Hsplit.
    change (k_sublayers K) with (sublayers o) in *.
    assert (Forall (fun j' => j' / sublayers o <> Z.of_nat j / sublayers o) js2)
      as Hother.
    { eapply Forall_impl; [exact Hjs2|]. intros j' [Hj' Hd'] Heq.
      cbv beta in Heq.
      destruct (js_index_values K r j' Hwhole) as (v' & Hv' & Hidx');
        [change (k_sublayers K) with (sublayers o); lia|].
      rewrite Hidx' in Hd'. simpl in Hd'.
      apply negb_true_iff, Z.eqb_neq in Hd'. apply Hd'.
      apply (Hlast (Z.to_nat j') v'); [lia|done|].
      by replace (Z.of_nat (Z.to_nat j')) with j' by lia. }
    pose proof (frame_index_bounds (sublayers o) (Z.of_nat j) Hbands) as Hidx.
    assert (0 <= Z.of_nat j / sublayers o < MAX_ARRAY_LENGTH) as Hidx'.
    { destruct Hvalid as [_ Hall]. rewrite Forall_forall in Hall.
      destruct (Hall rs) as [_ Hlen]; [by eapply list_elem_of_lookup_2|].
      assert (r ∈ rs) as Hr.
      { destruct Honly as (rs1 & rs2 & -> & _). apply elem_of_app. right.
        apply list_elem_of_here. }
      apply list_elem_of_split in Hr as (l1 & l2 & ->).
      rewrite stream_of_app, stream_of_cons, !length_app, length_encode in Hlen.
      pose proof (lookup_lt_Some _ _ _ Hv). lia. }
    simpl. unfold stored_values, stored_dates.
    change (k_sublayers K) with (sublayers o).
    rewrite (stored_last (fun j => j / sublayers o)
               (fun j => transform K (js_index (rec_values r) (j + 0)))
               js1 js2 (Z.of_nat j)) by done.
    rewrite (stored_last (fun j => j / sublayers o)
               (fun j => getIntervalTimestamp (k_cfg K)
                           (rec_startFrame r - k_tileStartFrame K
                            + k_tileStartFrame K + j))
               js1 js2 (Z.of_nat j)) by done.
    by rewrite Z.add_0_r, js_index_nat, Hv.
Qed.

(** C5, as amended. The sentinel is [4294967295] unless the options give
    another. An iteration of the loop over the values of a record that reads
    the sentinel leaves the dense arrays, the aggregate and its counter as
    they are. In the feature returned for a valid input, for a cell with one
    record in the stream of sublayer [s], a slot of the dense arrays of the
    sublayer is unset when all the positions of the slot hold the sentinel in
    the record; with one band per frame this is every position that holds the
    sentinel. *)
Theorem sentinel_values_are_skipped :
  (forall (o : ParseFourwingsOptions num) range cfg t n,
     noDataValue o = None ->
     k_noDataValue (callConstants o range cfg t n) = 4294967295) /\
  (forall (K : Constants num) arr sub sf si k j acc,
     js_index arr (j + si) = Some (k_noDataValue K) ->
     cellValueStep K arr sub sf si k j acc = Returns acc) /\
  (forall fuel rss options o range cfg t (s : nat) rs r q,
     configured options o range cfg t ->
     valid_input (sublayers o) rss ->
     enough_fuel fuel rss ->
     rss !! s = Some rs ->
     only_record rs r ->
     (forall (j : nat) v, rec_values r !! j = Some v ->
        Z.of_nat j / sublayers o = q ->
        v = default NO_DATA_VALUE (noDataValue o)) ->
     exists fs f,
       getCellTimeseries fuel (intArrays_of rss) options = Returns fs /\
       f ∈ fs /\ cellNum (properties f) = Some (rec_cellNum r) /\
       (array_get (values (properties f)) (Z.of_nat s)
          ≫= fun a => array_get a q) = None /\
       (array_get (dates (properties f)) (Z.of_nat s)
          ≫= fun d => array_get d q) = None) /\
  (forall fuel rss options o range cfg t (s : nat) rs r (j : nat),
     configured options o range cfg t ->
     valid_input (sublayers o) rss ->
     enough_fuel fuel rss ->
     rss !! s = Some rs ->
     only_record rs r ->
     sublayers o = 1 ->
     rec_values r !! j = Some (default NO_DATA_VALUE (noDataValue o)) ->
     exists fs f,
       getCellTimeseries fuel (intArrays_of rss) options = Returns fs /\
       f ∈ fs /\ cellNum (properties f) = Some (rec_cellNum r) /\
       (array_get (values (properties f)) (Z.of_nat s)
          ≫= fun a => array_get a (Z.of_nat j)) = None /\
       (array_get (dates (properties f)) (Z.of_nat s)
          ≫= fun d => array_get d (Z.of_nat j)) = None).
Proof.
  assert (forall fuel rss options o range cfg t (s : nat) rs r q,
     configured options o range cfg t ->
     valid_input (sublayers o) rss ->
     enough_fuel fuel rss ->
     rss !! s = Some rs ->
     only_record rs r ->
     (forall (j : nat) v, rec_values r !! j = Some v ->
        Z.of_nat j / sublayers o = q ->
        v = default NO_DATA_VALUE (noDataValue o)) ->
     exists fs f,
       getCellTimeseries fuel (intArrays_of rss) options = Returns fs /\
       f ∈ fs /\ cellNum (properties f) = Some (rec_cellNum r) /\
       (array_get (values (properties f)) (Z.of_nat s)
          ≫= fun a => array_get a q) = None /\
       (array_get (dates (properties f)) (Z.of_nat s)
          ≫= fun d => array_get d q) = None) as Hslot.
  { intros fuel rss options o range cfg t s rs r q Hconf Hvalid Hfuel Hs
      Honly Hgap.
    destruct (decode_only_record fuel rss options o range cfg t s rs r)
      as (Hwhole & fs & f & Hget & Hf & Hnum & Hview); try done.
    set (K := callConstants o range cfg t (length rss)) in *.
    exists fs, f. split; [done|]. split; [done|]. split; [done|].
    assert (Forall (fun j => j / k_sublayers K <> q) (record_data K r))
      as Hother.
    { apply Forall_forall. intros j Hj Heq. unfold record_data in Hj.
      apply elem_of_data_positions in Hj as [Hj Hdata].
      destruct (js_index_values K r j Hwhole Hj) as (v & Hv & Hidx).
      rewrite Hidx in Hdata. simpl in Hdata.
      apply negb_true_iff, Z.eqb_neq in Hdata. apply Hdata.
      apply (Hgap (Z.to_nat j) v); [done|].
      by replace (Z.of_nat (Z.to_nat j)) with j by lia. }
    destruct (record_view_gap K r q Hother) as [Hvs Hds].
    rewrite <- Hview in Hvs, Hds. done. }
  split; [|split; [|split; [exact Hslot|]]].
  - intros o range cfg t n Hnone. simpl. by rewrite Hnone.
  - intros K arr sub sf si k j [p counts] Hsentinel.
    unfold cellValueStep. rewrite Hsentinel. simpl. by rewrite Z.eqb_refl.
  - intros fuel rss options o range cfg t s rs r j Hconf Hvalid Hfuel Hs
      Honly Hone Hj.
    apply (Hslot fuel rss options o range cfg t s rs r (Z.of_nat j));
      try done.
    intros j' v Hv Hframe. rewrite Hone, Z.div_1_r in Hframe.
    apply Nat2Z.inj in Hframe. subst j'. congruence.
Qed.

(** C7, as amended. With [bandsPerFrame] equal to 0 the decoding does not
    fail: every record is taken to hold no value, so the stream is read three
    tokens at a time, and a feature is returned for each cell number read, with
    [values], [dates] and [startOffsets] unset for every sublayer. *)
Theorem zero_bands_yield_features_without_values fuel
    (arrays : list FourwingsRawData) options o range cfg t :
  configured options o range cfg t ->
  sublayers o = 0 ->
  Z.of_nat (length arrays) <= MAX_ARRAY_LENGTH ->
  Forall (fun arr => (length arr < fuel)%nat) arrays ->
  exists fs,
    getCellTimeseries fuel (Some <$> arrays) options = Returns fs /\
    cellNums fs
      ≡ₚ first_seen [] (arrays ≫= fun arr => rec_cellNum <$> (triples arr).1) /\
    forall f s, f ∈ fs ->
      array_get (values (properties f)) s = None /\
      array_get (dates (properties f)) s = None /\
      array_get (startOffsets (properties f)) s = None.
Proof.
  intros Hconf Hzero Hmax Hfuel.
  set (streams := triples <$> arrays).
  assert (parsed_arrays streams = Some <$> arrays) as Harrays.
  { unfold parsed_arrays, streams. rewrite <- list_fmap_compose.
    apply list_fmap_ext. intros i arr _. simpl.
    by destruct (triples_spec arr) as (-> & _). }
  assert (forall arr, parsed_records (triples arr) = (triples arr).1) as Hrecs.
  { intros arr. unfold parsed_records.
    destruct (triples_spec arr) as (_ & Hlen & _).
    by rewrite tail_records_short, app_nil_r. }
  assert (parsed_input (sublayers o) fuel streams) as Hparsed.
  { split; [unfold streams; by rewrite length_fmap|].
    unfold streams. rewrite Forall_fmap. apply Forall_forall. intros arr Harr.
    rewrite Forall_forall in Hfuel. specialize (Hfuel _ Harr). simpl.
    rewrite Hrecs. destruct (triples_spec arr) as (Heq & Hlen & Hall).
    rewrite Heq. unfold tail_ok. rewrite tail_records_short by done.
    split; [|split; [done|split; [|done]]].
    - eapply Forall_impl; [exact Hall|]. intros r Hr.
      unfold whole, declared_values. rewrite Hr, Hzero. simpl. lia.
    - eapply Forall_impl; [exact Hall|]. intros r Hr.
      unfold well_sized, declared_values, MAX_ARRAY_LENGTH. rewrite Hzero. lia. }
  destruct (decode_parsed fuel streams options o range cfg t Hconf Hparsed)
    as (st & _ & Hget & Hok & Hkeys & Hview & Hframe).
  rewrite Harrays in Hget.
  set (K := callConstants o range cfg t (length streams)) in *.
  assert (streams ≫= (fun s => rec_cellNum <$> parsed_records s)
          = arrays ≫= (fun arr => rec_cellNum <$> (triples arr).1)) as Hcells.
  { unfold streams. clear -Hrecs. induction arrays as [|arr arrays IH]; [done|].
    rewrite fmap_cons, !bind_cons, IH. by rewrite Hrecs. }
  exists (Object_values (features st)). split; [done|]. split.
  { by rewrite (output_cellNums_perm K st Hok), Hkeys, Hcells. }
  intros f s Hf.
  destruct (output_entry K st f Hok Hf) as (k & Hk & _ & _ & Hprior).
  assert (exists c, k = Some c) as [c ->].
  { assert (k ∈ (features st).*1) as Hin by (apply obj_get_is_Some; eauto).
    rewrite Hkeys, elem_of_first_seen in Hin.
    destruct Hin as [Hin|(c & -> & _)]; [by apply elem_of_nil in Hin|eauto]. }
  enough (view_values (view (properties f) s) = None /\
          view_dates (view (properties f) s) = None /\
          view_startOffset (view (properties f) s) = None) by done.
  rewrite Hprior.
  destruct (decide (0 <= s < Z.of_nat (length streams))) as [Hs|Hs].
  - destruct (lookup_lt_is_Some_2 streams (Z.to_nat s)) as [strm Hstrm]; [lia|].
    specialize (Hview c (Z.to_nat s) strm Hstrm).
    replace (Z.of_nat (Z.to_nat s)) with s in Hview by lia.
    rewrite Hview. by apply cell_view_at_zero_bands.
  - rewrite Hframe by lia. done.
Qed.

(** C6, as amended. When every stream is made of whole records followed by a
    truncated record, the decoding raises no error as long as no array has to
    be longer than a JavaScript array can be: it returns a feature for each
    cell number of the whole records and of the truncated records whose three
    leading tokens are there. The feature of a cell is the one created for the
    cell, and its entries for a sublayer are those written by the records of
    the cell in the stream of the sublayer, the truncated record included,
    whose missing values are read as [undefined]: with at least one band per
    frame, the slot of a frame with a missing value holds
    [NaN * scale - offset]. *)
Theorem truncated_stream_is_decoded fuel
    (streams : list (list CellRecord * FourwingsRawData))
    options o range cfg t :
  configured options o range cfg t ->
  Z.of_nat (length streams) <= MAX_ARRAY_LENGTH ->
  Forall (fun s => Forall (whole (sublayers o)) s.1 /\
                   truncated (sublayers o) s.2 /\
                   Z.of_nat (length (stream_of s.1)) <= MAX_ARRAY_LENGTH /\
                   (length (stream_of s.1 ++ s.2) < fuel)%nat) streams ->
  let K := callConstants o range cfg t (length streams) in
  exists fs,
    getCellTimeseries fuel (parsed_arrays streams) options = Returns fs /\
    cellNums fs
      ≡ₚ first_seen [] (streams ≫= fun s => rec_cellNum <$> parsed_records s) /\
    (forall f c, f ∈ fs -> cellNum (properties f) = Some c ->
       same_cell f (newFeature K (Some c)) /\
       forall (i : nat) s, streams !! i = Some s ->
         view (properties f) (Z.of_nat i)
         = cell_view_at K (stream_of s.1 ++ s.2) 0 (parsed_records s) c unset) /\
    (forall (i : nat) rs c s e vals j,
       streams !! i = Some (rs, c :: s :: e :: vals) ->
       1 <= sublayers o ->
       Z.of_nat (length vals) <= j < (e - s + 1) * sublayers o ->
       exists f, f ∈ fs /\ cellNum (properties f) = Some c /\
         (array_get (values (properties f)) (Z.of_nat i)
            ≫= fun a => array_get a (j / sublayers o))
         = Some (js_sub (js_mul NaN (k_scale K)) (k_offset K))).
Proof.
  intros Hconf Hmax Hall K.
  assert (parsed_input (sublayers o) fuel streams) as Hparsed.
  { split; [done|]. eapply Forall_impl; [exact Hall|].
    intros strm (Hwhole & Htrunc & Hlen & Hfuel).
    destruct (truncated_tail _ _ Htrunc) as [Htail Hsized].
    split; [done|]. split; [done|]. split; [|done].
    unfold parsed_records. apply Forall_app. split; [|done].
    by apply whole_well_sized. }
  destruct (decode_parsed fuel streams options o range cfg t Hconf Hparsed)
    as (st & _ & Hget & Hok & Hkeys & Hview & _).
  fold K in Hok, Hview.
  exists (Object_values (features st)). split; [done|].
  split; [by rewrite (output_cellNums_perm _ st Hok), Hkeys|].
  split.
  - intros f c Hf Hc.
    destruct (output_entry K st f Hok Hf) as (k & _ & Hnum & Hcell & ->).
    rewrite Hc in Hnum. subst k. split; [done|].
    intros i s Hi. by apply Hview.
  - intros i rs c s e vals j Hi Hbands Hj.
    destruct Hparsed as [_ Hstreams]. rewrite Forall_forall in Hstreams.
    destruct (Hstreams (rs, c :: s :: e :: vals)) as (_ & _ & Hsized & _);
      [by eapply list_elem_of_lookup_2|].
    unfold parsed_records in Hsized. simpl in Hsized.
    apply Forall_app in Hsized as [_ Hsized].
    rewrite Forall_singleton in Hsized.
    unfold well_sized, declared_values in Hsized. simpl in Hsized.
    assert (is_Some (obj_get (features st) (Some c))) as [f Hf].
    { apply obj_get_is_Some. rewrite Hkeys, elem_of_first_seen. right.
      exists c. split; [done|]. apply list_elem_of_bind.
      exists (rs, c :: s :: e :: vals).
      split; [|by eapply list_elem_of_lookup_2].
      unfold parsed_records. simpl. rewrite fmap_app. apply elem_of_app. right.
      apply list_elem_of_here. }
    pose proof (obj_get_Some_elem _ _ _ Hf) as Hin.
    destruct (state_ok_entry _ _ _ _ Hok Hin) as (_ & Hnum & _ & Hprior).
    exists f. split; [apply elem_of_Object_values; eauto|]. split; [done|].
    specialize (Hview c i _ Hi). rewrite <- Hprior in Hview.
    unfold parsed_records in Hview. simpl in Hview.
    rewrite cell_view_at_app in Hview.
    cbn [cell_view_at rec_cellNum rec_startFrame rec_endFrame] in Hview.
    rewrite decide_True in Hview by done.
    change (view_values (view (properties f) (Z.of_nat i))
              ≫= (fun a => array_get a (j / k_sublayers K))
            = Some (transform K None)).
    rewrite Hview.
    apply (view_cell_past_the_end K _ _ _ _ (Z.of_nat (length vals))).
    + apply cell_view_at_together, unset_together.
    + done.
    + change (k_sublayers K) with (sublayers o). lia.
    + intros j' Hj'. rewrite Z.add_0_l.
      rewrite reads_of_cut_record by lia. apply lookup_ge_None_2. lia.
    + lia.
    + change (k_sublayers K) with (sublayers o). lia.
Qed.

End Claims.


(** * Further properties of the decoder *)

Section BufferProperties.
Context {num : Type} `{JSNumber num} `{CellHelpers} `{TimeHelpers} `{PbfLibrary}.

Implicit Types (options : option (FourwingsLoaderOptions num)).

(** X1. When the lengths are not negative and add up to no more than the
    length of the buffer, [parseFourwings] reads the pieces of the buffer of
    these lengths one after the other, keeps the first field of each (an
    empty stream for the length 0, without a read), and returns what
    [getCellTimeseries] returns for these streams. The piece of a length
    holds that many bytes; together the pieces are the first bytes of the
    buffer, and the bytes after them are not read. *)
Theorem sub_buffers_are_read_in_sequence fuel datasetsBuffer options lengths :
  (options ≫= fourwings) ≫= buffersLength = Some lengths ->
  lengths <> [] ->
  Forall (fun n => 0 <= n) lengths ->
  total_length lengths <= Z.of_nat (length datasetsBuffer) ->
  parseFourwings fuel datasetsBuffer options =
    (let* intArrays := readStreams lengths (subBuffers datasetsBuffer lengths) in
     getCellTimeseries fuel intArrays options) /\
  Forall2 (fun n sub => Z.of_nat (length sub) = n) lengths
    (subBuffers datasetsBuffer lengths) /\
  concat (subBuffers datasetsBuffer lengths)
  = take (Z.to_nat (total_length lengths)) datasetsBuffer.
Proof.
  intros Hopt Hne Hpos Hlen. split; [|split].
  - by apply parseFourwings_streams.
  - by apply subBuffers_lengths.
  - by apply subBuffers_concat.
Qed.

(** X2. An exception of the reader on a sub-buffer is the outcome of
    [parseFourwings], when the reads of the sub-buffers before it return:
    the sub-buffers are read before the options are looked at, so this holds
    also for options without a time range. *)
Theorem reader_exception_propagates fuel datasetsBuffer options lengths
    (i : nat) n sub e :
  (options ≫= fourwings) ≫= buffersLength = Some lengths ->
  Forall (fun n => 0 <= n) lengths ->
  total_length lengths <= Z.of_nat (length datasetsBuffer) ->
  lengths !! i = Some n -> n <> 0 ->
  subBuffers datasetsBuffer lengths !! i = Some sub ->
  readFields_readData sub = Throws e ->
  (forall (i' : nat) n' sub', (i' < i)%nat -> lengths !! i' = Some n' ->
     subBuffers datasetsBuffer lengths !! i' = Some sub' -> n' <> 0 ->
     exists fields, readFields_readData sub' = Returns fields) ->
  parseFourwings fuel datasetsBuffer options = Throws e.
Proof.
  intros Hopt Hpos Hlen Hn Hne Hsub He Hbefore.
  rewrite (parseFourwings_streams fuel datasetsBuffer options lengths);
    try done.
  - by rewrite (readStreams_throws lengths _ i n sub e).
  - intros ->. done.
Qed.

(** X3. When every length is 0, [parseFourwings] does not call the reader:
    with options that hold a time range, a known interval and a tile it
    returns no feature. *)
Theorem zero_lengths_yield_no_feature fuel datasetsBuffer options o range cfg t
    lengths :
  configured options o range cfg t ->
  buffersLength o = Some lengths ->
  Forall (fun n => n = 0) lengths ->
  (0 < fuel)%nat ->
  parseFourwings fuel datasetsBuffer options = Returns [].
Proof.
  intros (Ho & Hrange & Hcfg & Htile) Hlen Hzero Hfuel.
  assert ((options ≫= fourwings) ≫= buffersLength = Some lengths) as Hopt
    by (by rewrite Ho).
  assert (forall bl index start,
            readBuffers datasetsBuffer bl lengths index start
            = Returns (replicate (length lengths) (Some []))) as Hread.
  { clear Hlen Hopt. intros bl.
    induction Hzero as [|n l -> Hz IH]; intros index start; [done|].
    cbn [readBuffers]. simpl. by rewrite IH. }
  unfold parseFourwings. rewrite Hopt.
  destruct lengths as [|n l] eqn:El; [done|].
  rewrite Hread. cbn [obind].
  unfold getCellTimeseries. rewrite Ho, Hrange, Hcfg, Htile.
  destruct fuel as [|fuel]; [lia|].
  by rewrite sublayersLoop_empty.
Qed.

End BufferProperties.

Section DecodeProperties.
Context {num : Type} `{JSNumber num} `{CellHelpers} `{TimeHelpers} `{PbfLibrary}.

Implicit Types (options : option (FourwingsLoaderOptions num)).

(** The state behind a result of [getCellTimeseries]. *)
Lemma decode_returned fuel intArrays options fs :
  Z.of_nat (length intArrays) <= MAX_ARRAY_LENGTH ->
  getCellTimeseries fuel intArrays options = Returns fs ->
  fs = [] \/
  exists o range cfg t st,
    configured options o range cfg t /\
    scan_invariant (callConstants o range cfg t (length intArrays)) st /\
    fs = Object_values (features st).
Proof.
  intros Hmax Hret. unfold getCellTimeseries in Hret.
  destruct (options ≫= fourwings) as [o|] eqn:Ho;
    [|left; by injection Hret as <-].
  destruct (initialTimeRange o) as [range|] eqn:Hrange;
    [|left; by injection Hret as <-].
  destruct (CONFIG_BY_INTERVAL (interval o)) as [cfg|] eqn:Hcfg; [|done].
  destruct (tile o) as [t|] eqn:Htile; [|done].
  destruct (sublayersLoop _ fuel intArrays 0 emptyState) as [st| |] eqn:Hloop;
    [|done..].
  cbn [obind] in Hret. injection Hret as <-.
  right. exists o, range, cfg, t, st. split; [done|]. split; [|done].
  eapply sublayersLoop_invariant; [| | |split|exact Hloop]; simpl; try lia.
  - apply emptyState_ok.
  - by intros c f s.
Qed.

(** X4. Every sequence that [getCellTimeseries] returns, whatever the
    streams hold, has one feature per cell number, whose four per-sublayer
    arrays have one slot per stream and whose other fields are those the cell
    helpers gave for its own cell number. *)
Theorem returned_features_are_well_formed fuel intArrays options fs :
  Z.of_nat (length intArrays) <= MAX_ARRAY_LENGTH ->
  getCellTimeseries fuel intArrays options = Returns fs ->
  NoDup (cellNums fs) /\
  forall f, f ∈ fs ->
    length (values (properties f)) = length intArrays /\
    length (dates (properties f)) = length intArrays /\
    length (startOffsets (properties f)) = length intArrays /\
    length (initialValues (properties f)).2 = length intArrays /\
    exists o range cfg t,
      configured options o range cfg t /\
      same_cell f
        (newFeature (callConstants o range cfg t (length intArrays))
           (cellNum (properties f))).
Proof.
  intros Hmax Hret.
  destruct (decode_returned fuel intArrays options fs Hmax Hret)
    as [->|(o & range & cfg & t & st & Hconf & [Hok _] & ->)].
  { split; [apply NoDup_nil_2|]. by intros f Hf%elem_of_nil. }
  split.
  - rewrite (output_cellNums_perm _ st Hok). apply Hok.
  - intros f Hf.
    destruct (output_entry _ st f Hok Hf) as (k & Hk & Hnum & Hcell & _).
    destruct Hok as (_ & _ & Hall).
    destruct (Hall _ _ Hk) as [(Hv & Hd & Hs & Hi & _) _].
    split; [done|]. split; [done|]. split; [done|]. split; [done|].
    exists o, range, cfg, t. split; [done|]. by rewrite Hnum.
Qed.

(** X5. In every feature that [getCellTimeseries] returns, whatever the
    streams hold, [values[s]], [dates[s]] and [startOffsets[s]] are all set
    or all unset, and [initialValues[timeRangeKey][s]] is set whenever they
    are. *)
Theorem sublayer_entries_are_set_together fuel intArrays options fs :
  Z.of_nat (length intArrays) <= MAX_ARRAY_LENGTH ->
  getCellTimeseries fuel intArrays options = Returns fs ->
  forall f s, f ∈ fs ->
    (is_Some (array_get (values (properties f)) s)
       <-> is_Some (array_get (dates (properties f)) s)) /\
    (is_Some (array_get (values (properties f)) s)
       <-> is_Some (array_get (startOffsets (properties f)) s)) /\
    (is_Some (array_get (values (properties f)) s)
       -> is_Some (array_get (initialValues (properties f)).2 s)).
Proof.
  intros Hmax Hret f s Hf.
  destruct (decode_returned fuel intArrays options fs Hmax Hret)
    as [->|(o & range & cfg & t & st & Hconf & [Hok Htog] & ->)].
  { by apply elem_of_nil in Hf. }
  destruct (output_entry _ st f Hok Hf) as (k & Hk & _).
  apply (Htog k f s Hk).
Qed.

(** X6. With a time range in the options, an interval that is not in the
    configuration table or a missing tile makes [getCellTimeseries] throw a
    [TypeError], whatever the streams are, and [parseFourwings] too once the
    sub-buffers were read. *)
Theorem missing_configuration_throws fuel datasetsBuffer intArrays options o
    range :
  options ≫= fourwings = Some o ->
  initialTimeRange o = Some range ->
  CONFIG_BY_INTERVAL (interval o) = None \/ tile o = None ->
  getCellTimeseries fuel intArrays options = Throws TypeError /\
  forall lengths arrays,
    buffersLength o = Some lengths -> lengths <> [] ->
    readBuffers datasetsBuffer lengths lengths 0 0 = Returns arrays ->
    parseFourwings fuel datasetsBuffer options = Throws TypeError.
Proof.
  intros Ho Hrange Hmissing.
  assert (forall arrays, getCellTimeseries fuel arrays options = Throws TypeError)
    as Hthrows.
  { intros arrays. unfold getCellTimeseries. rewrite Ho, Hrange.
    destruct Hmissing as [-> | Htile]; [done|].
    rewrite Htile. by destruct (CONFIG_BY_INTERVAL _). }
  split; [done|]. intros lengths arrays Hlen Hne Hread.
  unfold parseFourwings. rewrite Ho. simpl. rewrite Hlen.
  destruct lengths; [done|]. rewrite Hread. simpl. apply Hthrows.
Qed.

(** The state after the streams of a parsed input that are followed by
    other streams. *)
Lemma decode_prefix fuel streams (n : nat) options o range cfg t :
  configured options o range cfg t ->
  parsed_input (sublayers o) fuel streams ->
  (length streams <= n)%nat -> Z.of_nat n <= MAX_ARRAY_LENGTH ->
  exists st,
    sublayersLoop (callConstants o range cfg t n) fuel (parsed_arrays streams)
      0 emptyState = Returns st /\
    state_ok (callConstants o range cfg t n) st /\
    forall c s', Z.of_nat (length streams) <= s' ->
      view (prior_properties (callConstants o range cfg t n) st c) s' = unset.
Proof.
  intros Hconf [_ Hall] Hn Hmax.
  set (K := callConstants o range cfg t n).
  set (prs := (fun s : list CellRecord * FourwingsRawData =>
                 (stream_of s.1 ++ s.2, parsed_records s)) <$> streams).
  destruct (processSublayers_spec K prs 0 emptyState) as
    (st & Hps & Hok & _ & _ & Hframe); try done.
  { unfold prs. rewrite length_fmap. unfold K. simpl. lia. }
  { apply emptyState_ok. }
  { unfold prs. rewrite Forall_fmap. eapply Forall_impl; [exact Hall|].
    by intros s (_ & _ & ? & _). }
  exists st. split; [|split; [done|]].
  - unfold parsed_arrays. rewrite sublayersLoop_parsed; [done|].
    eapply Forall_impl; [exact Hall|]. by intros s (? & ? & _ & ?).
  - intros c s' Hs'. rewrite Hframe.
    + change (prior_properties K emptyState c)
        with (properties (newFeature K c)).
      apply newFeature_view.
    + unfold prs. rewrite length_fmap. lia.
Qed.

(** X7. An [undefined] entry among the streams (the reader found no field
    in the sub-buffer) makes [getCellTimeseries] throw a [TypeError] after the
    streams before it were decoded, when the options hold a time range, a
    known interval and a tile. *)
Theorem undefined_stream_throws fuel streams rest options o range cfg t :
  configured options o range cfg t ->
  parsed_input (sublayers o) fuel streams ->
  Z.of_nat (length streams + S (length rest)) <= MAX_ARRAY_LENGTH ->
  getCellTimeseries fuel (parsed_arrays streams ++ None :: rest) options
  = Throws TypeError.
Proof.
  intros Hconf Hparsed Hmax.
  destruct (decode_prefix fuel streams (length streams + S (length rest))
              options o range cfg t Hconf Hparsed) as (st & Hloop & _);
    [lia|done|].
  destruct Hconf as (Ho & Hrange & Hcfg & Htile).
  unfold getCellTimeseries. rewrite Ho, Hrange, Hcfg, Htile.
  rewrite length_app, length_cons. unfold parsed_arrays at 1.
  rewrite length_fmap, sublayersLoop_app.
  fold (parsed_arrays streams). by rewrite Hloop.
Qed.

(** X8. A record that declares more values than a JavaScript array can
    hold, for a cell without a record before it in its stream, makes
    [getCellTimeseries] throw a [RangeError]: the arrays of the sublayer are
    created with that length at the first value that is not the sentinel,
    and the positions after the end of the stream read as such values. *)
Theorem oversized_record_is_a_range_error fuel streams rs c s e
    (tl : FourwingsRawData) rest options o range cfg t :
  configured options o range cfg t ->
  parsed_input (sublayers o) fuel streams ->
  Z.of_nat (length streams + S (length rest)) <= MAX_ARRAY_LENGTH ->
  Forall (whole (sublayers o)) rs ->
  Z.of_nat (length (stream_of rs)) <= MAX_ARRAY_LENGTH ->
  c ∉ rec_cellNum <$> rs ->
  MAX_ARRAY_LENGTH < (e - s + 1) * sublayers o ->
  Z.of_nat (length tl) <= MAX_ARRAY_LENGTH ->
  (3 * length rs + 3 <= fuel)%nat ->
  getCellTimeseries fuel
    (parsed_arrays streams
       ++ Some (stream_of rs ++ c :: s :: e :: tl) :: rest) options
  = Throws RangeError.
Proof.
  intros Hconf Hparsed Hmax Hwhole Hlen Hc Hk Htl Hfuel.
  set (n := (length streams + S (length rest))%nat) in *.
  destruct (decode_prefix fuel streams n options o range cfg t Hconf Hparsed)
    as (st1 & Hloop & Hok1 & Hfresh1); [lia|done|].
  destruct Hconf as (Ho & Hrange & Hcfg & Htile).
  unfold getCellTimeseries. rewrite Ho, Hrange, Hcfg, Htile.
  rewrite length_app, length_cons. unfold parsed_arrays at 1.
  rewrite length_fmap, sublayersLoop_app. fold n.
  fold (parsed_arrays streams). rewrite Hloop. cbn [obind sublayersLoop].
  unfold parsed_arrays. rewrite length_fmap.
  set (K := callConstants o range cfg t n) in *.
  set (sub := 0 + Z.of_nat (length streams)).
  set (arr := stream_of rs ++ c :: s :: e :: tl).
  assert (0 <= sub < Z.of_nat (k_sublayersLength K)) as Hsub
    by (unfold sub, K, n; simpl; lia).
  destruct (scanLoop_records K rs [] (c :: s :: e :: tl) sub initialScanVars
              eq_refl Hwhole) as (v' & Hv' & Hscan).
  specialize (Hscan st1 (fuel - 3 * length rs)%nat).
  replace (3 * length rs + (fuel - 3 * length rs))%nat with fuel in Hscan by lia.
  cbn [app length] in Hscan. change (Z.of_nat 0) with 0 in Hscan.
  fold arr in Hscan. rewrite Hscan.
  destruct (processRecords_spec K arr sub rs 0 st1)
    as (st2 & -> & Hok2 & _ & Hview2 & _); try done.
  { by apply whole_well_sized. }
  cbn [obind].
  destruct (fuel - 3 * length rs)%nat as [|[|[|fuel']]] eqn:Hf; [lia..|].
  rewrite Z.add_0_l.
  assert (length arr = (length (stream_of rs) + 3 + length tl)%nat) as Harr.
  { unfold arr. rewrite length_app. simpl. lia. }
  rewrite scanLoop_record; [|done|lia].
  assert (js_index arr (Z.of_nat (length (stream_of rs))) = Some c) as ->.
  { unfold arr. rewrite <- (Z.add_0_r (Z.of_nat (length (stream_of rs)))).
    by rewrite js_index_app_r. }
  assert (js_index arr (Z.of_nat (length (stream_of rs)) + 1) = Some s) as ->.
  { unfold arr. by rewrite js_index_app_r. }
  assert (js_index arr (Z.of_nat (length (stream_of rs)) + 2) = Some e) as ->.
  { unfold arr. by rewrite js_index_app_r. }
  simpl fmap.
  assert (forall a, e - a - (s - a) + 1 = e - s + 1) as Hframes
    by (intros a; lia).
  rewrite (processCell_too_long K arr sub (Some c) _ _ _ st2
             (Z.of_nat (length tl))); try done.
  - rewrite Hview2, cell_view_at_other by done.
    rewrite Hfresh1; [done|]. unfold sub. lia.
  - rewrite Hframes. exact Hk.
  - rewrite Hframes. change (k_sublayers K) with (sublayers o). lia.
  - assert (js_index arr (Z.of_nat (length tl)
              + (Z.of_nat (length (stream_of rs)) + CELL_VALUES_START_INDEX))
            = None) as ->; [|done].
    unfold js_index, CELL_VALUES_START_INDEX.
    destruct (0 <=? _); [|done]. apply lookup_ge_None_2. lia.
Qed.

End DecodeProperties.

Section ValueProperties.
Context {num : Type} `{JSNumber num} `{CellHelpers} `{TimeHelpers}.

Implicit Types (options : option (FourwingsLoaderOptions num)).

Lemma valid_input_record bands rss (s : nat) rs r :
  valid_input bands rss -> rss !! s = Some rs -> r ∈ rs ->
  whole bands r /\ Z.of_nat (length (rec_values r)) <= MAX_ARRAY_LENGTH.
Proof.
  intros [_ Hall] Hs Hr. rewrite Forall_forall in Hall.
  destruct (Hall rs) as [Hrs Hlen]; [by eapply list_elem_of_lookup_2|].
  rewrite Forall_forall in Hrs. split; [by apply Hrs|].
  apply list_elem_of_split in Hr as (l1 & l2 & ->).
  rewrite stream_of_app, stream_of_cons, !length_app, length_encode in Hlen.
  lia.
Qed.

(** X9. For a valid input, when a cell has several records in the stream
    of sublayer [s], the arrays of the sublayer are created by the first of
    them that holds a value other than the sentinel, and
    [startOffsets[s]] is the start frame of that record, counted from the
    start frame of the tile; the records after it do not change it. *)
Theorem start_offset_is_that_of_first_record_with_data fuel rss options o
    range cfg t (s : nat) rs c l1 r l2 :
  configured options o range cfg t ->
  valid_input (sublayers o) rss ->
  enough_fuel fuel rss ->
  rss !! s = Some rs ->
  let K := callConstants o range cfg t (length rss) in
  filter (fun r' => rec_cellNum r' = c) rs = l1 ++ r :: l2 ->
  Forall (fun r' => ~ has_data K r') l1 ->
  has_data K r ->
  exists fs f,
    getCellTimeseries fuel (intArrays_of rss) options = Returns fs /\
    f ∈ fs /\ cellNum (properties f) = Some c /\
    is_Some (array_get (values (properties f)) (Z.of_nat s)) /\
    array_get (startOffsets (properties f)) (Z.of_nat s)
      = Some (rec_startFrame r - k_tileStartFrame K).
Proof.
  intros Hconf Hvalid Hfuel Hs K Hfilter Hl1 Hr.
  assert (forall r', r' ∈ l1 ++ r :: l2 -> r' ∈ rs /\ rec_cellNum r' = c)
    as Hin.
  { intros r' Hr'. rewrite <- Hfilter in Hr'.
    by apply list_elem_of_filter in Hr' as [? ?]. }
  assert (r ∈ l1 ++ r :: l2) as Hrin.
  { apply elem_of_app. right. apply list_elem_of_here. }
  destruct (Hin r Hrin) as [Hrs Hc].
  destruct (decode_cell fuel rss options o range cfg t s rs c)
    as (fs & f & Hget & Hf & Hnum & Hview); try done.
  { apply list_elem_of_fmap. by exists r. }
  fold K in Hview.
  destruct (cell_view_first_data K rs c l1 l2 r Hfilter) as (Hv & Hso & _).
  { apply Forall_forall. intros r' Hr'. rewrite Forall_forall in Hl1.
    apply no_data_record_data; [|by apply Hl1].
    destruct (Hin r') as [Hr'rs _]; [apply elem_of_app; by left|].
    by destruct (valid_input_record _ _ _ _ _ Hvalid Hs Hr'rs). }
  { apply has_data_record_data; [|done].
    by destruct (valid_input_record _ _ _ _ _ Hvalid Hs Hrs). }
  rewrite <- Hview in Hv, Hso.
  exists fs, f. split; [done|]. split; [done|]. split; [done|]. by split.
Qed.

(** X10. For a valid input and an aggregation other than ['avg'], the
    records of a cell in the stream of sublayer [s] add up: when one of them
    holds a value other than the sentinel,
    [initialValues[timeRangeKey][s]] is the sum, over all of them in order,
    of the transformed values counted in the time range; when none does, it
    is unset. *)
Theorem sum_aggregate_adds_up_the_records fuel rss options o range cfg t
    (s : nat) rs c :
  configured options o range cfg t ->
  valid_input (sublayers o) rss ->
  enough_fuel fuel rss ->
  rss !! s = Some rs ->
  c ∈ rec_cellNum <$> rs ->
  default "sum"%string (aggregationOperation o) <> "avg"%string ->
  let K := callConstants o range cfg t (length rss) in
  let l := filter (fun r => rec_cellNum r = c) rs in
  exists fs f,
    getCellTimeseries fuel (intArrays_of rss) options = Returns fs /\
    f ∈ fs /\ cellNum (properties f) = Some c /\
    (Exists (has_data K) l ->
     array_get (initialValues (properties f)).2 (Z.of_nat s)
       = Some (summed K l (of_int 0))) /\
    (Forall (fun r => ~ has_data K r) l ->
     array_get (initialValues (properties f)).2 (Z.of_nat s) = None).
Proof.
  intros Hconf Hvalid Hfuel Hs Hc Hagg K l.
  destruct (decode_cell fuel rss options o range cfg t s rs c)
    as (fs & f & Hget & Hf & Hnum & Hview); try done.
  fold K in Hview.
  assert (String.eqb (k_aggregationOperation K) "avg" = false) as Hsum
    by (by apply String.eqb_neq).
  assert (forall r', r' ∈ l -> whole (k_sublayers K) r') as Hwhole.
  { intros r' [_ Hr']%list_elem_of_filter.
    by destruct (valid_input_record _ _ _ _ _ Hvalid Hs Hr'). }
  exists fs, f. split; [done|]. split; [done|]. split; [done|].
  change (array_get (initialValues (properties f)).2 (Z.of_nat s))
    with (view_initialValue (view (properties f) (Z.of_nat s))).
  rewrite Hview. split.
  - intros Hdata.
    destruct (Exists_first _ l (has_data_decidable K) Hdata)
      as (l1 & r & l2 & Hl & Hl1 & Hr).
    destruct (cell_view_first_data K rs c l1 l2 r Hl) as (_ & _ & Hiv).
    + apply Forall_forall. intros r' Hr'. rewrite Forall_forall in Hl1.
      apply no_data_record_data; [|by apply Hl1].
      apply Hwhole. rewrite Hl. apply elem_of_app. by left.
    + apply has_data_record_data; [|done].
      apply Hwhole. rewrite Hl. apply elem_of_app. right. apply list_elem_of_here.
    + rewrite Hiv by done. by rewrite <- Hl.
  - intros Hnone. unfold cell_view. fold l.
    destruct (records_without_data K l unset eq_refl) as (_ & _ & Heq).
    + apply Forall_forall. intros r' Hr'. rewrite Forall_forall in Hnone.
      apply no_data_record_data; [by apply Hwhole|by apply Hnone].
    + by rewrite Heq.
Qed.

(** X11. For a valid input with one band per frame, when a cell has one
    record in the stream of sublayer [s] and the record holds a value other
    than the sentinel, [values[s]] holds, slot by slot, the transformed
    values of the record, and [dates[s]] the timestamps of the frames from
    the start frame of the record on; the slots of the sentinel are unset in
    both. *)
Theorem single_band_arrays_mirror_the_record fuel rss options o range cfg t
    (s : nat) rs r :
  configured options o range cfg t ->
  valid_input (sublayers o) rss ->
  enough_fuel fuel rss ->
  rss !! s = Some rs ->
  only_record rs r ->
  sublayers o = 1 ->
  let K := callConstants o range cfg t (length rss) in
  has_data K r ->
  exists fs f,
    getCellTimeseries fuel (intArrays_of rss) options = Returns fs /\
    f ∈ fs /\ cellNum (properties f) = Some (rec_cellNum r) /\
    array_get (values (properties f)) (Z.of_nat s)
      = Some (value_slot K <$> rec_values r) /\
    array_get (dates (properties f)) (Z.of_nat s)
      = Some (imap (date_slot K (rec_startFrame r)) (rec_values r)).
Proof.
  intros Hconf Hvalid Hfuel Hs Honly Hone K Hdata.
  destruct (decode_only_record fuel rss options o range cfg t s rs r)
    as (Hwhole & fs & f & Hget & Hf & Hnum & Hview); try done.
  fold K in Hview.
  assert (r ∈ rs) as Hr.
  { destruct Honly as (rs1 & rs2 & -> & _). apply elem_of_app. right.
    apply list_elem_of_here. }
  destruct (valid_input_record _ _ _ _ _ Hvalid Hs Hr) as [_ Hlen].
  destruct (stored_single_band K r Hone Hwhole Hlen) as [Hvs Hds].
  rewrite record_view_data in Hview
    by (done || by apply has_data_record_data).
  destruct (view_aggregate_arrays K
              (written K (rec_values r)
                 (rec_startFrame r - k_tileStartFrame K) 0
                 (declared_values (k_sublayers K) r) (record_data K r)))
    as (Hv & Hd & _).
  rewrite <- Hview in Hv, Hd.
  cbn [written fst view view_values view_dates] in Hv, Hd.
  exists fs, f. split; [done|]. split; [done|]. split; [done|].
  split; [by rewrite Hv, Hvs|by rewrite Hd, Hds].
Qed.

(** X12. For a valid input with at least one band per frame, when a cell
    has one record in the stream of sublayer [s], the slots of [values[s]]
    and [dates[s]] whose index is not below the number of frames of the
    record, [endFrame - startFrame + 1], are unset: the values are stored
    in the slots of the frames only. *)
Theorem slots_past_the_frames_are_unset fuel rss options o range cfg t
    (s : nat) rs r q :
  configured options o range cfg t ->
  valid_input (sublayers o) rss ->
  enough_fuel fuel rss ->
  rss !! s = Some rs ->
  only_record rs r ->
  1 <= sublayers o ->
  rec_endFrame r - rec_startFrame r + 1 <= q ->
  exists fs f,
    getCellTimeseries fuel (intArrays_of rss) options = Returns fs /\
    f ∈ fs /\ cellNum (properties f) = Some (rec_cellNum r) /\
    (array_get (values (properties f)) (Z.of_nat s)
       ≫= fun a => array_get a q) = None /\
    (array_get (dates (properties f)) (Z.of_nat s)
       ≫= fun d => array_get d q) = None.
Proof.
  intros Hconf Hvalid Hfuel Hs Honly Hbands Hq.
  destruct (decode_only_record fuel rss options o range cfg t s rs r)
    as (Hwhole & fs & f & Hget & Hf & Hnum & Hview); try done.
  set (K := callConstants o range cfg t (length rss)) in *.
  exists fs, f. split; [done|]. split; [done|]. split; [done|].
  destruct (record_view_gap K r q) as [Hvs Hds].
  { pose proof (record_data_bounds K r) as Hbounds.
    eapply Forall_impl; [exact Hbounds|]. intros j Hj Heq.
    change (k_sublayers K) with (sublayers o) in *.
    unfold declared_values in Hj. cbv beta in Hj.
    assert (j / sublayers o < rec_endFrame r - rec_startFrame r + 1); [|lia].
    apply Z.div_lt_upper_bound; [lia|]. lia. }
  rewrite <- Hview in Hvs, Hds. done.
Qed.

(** X13. For a valid input the returned sequence holds the features of the
    cell numbers that are array indices (from 0 to [2^32 - 2]) first, in
    ascending order, then those of the other cell numbers in the order in
    which they are first met in the streams. *)
Theorem features_follow_the_key_order_of_objects fuel rss options o range cfg
    t :
  configured options o range cfg t ->
  valid_input (sublayers o) rss ->
  enough_fuel fuel rss ->
  exists fs cs,
    getCellTimeseries fuel (intArrays_of rss) options = Returns fs /\
    cellNums fs
      = (Some <$> cs)
        ++ filter (fun k => is_array_index k <> true)
             (first_seen [] (rss ≫= fmap rec_cellNum)) /\
    StronglySorted Z.lt cs /\
    Some <$> cs ≡ₚ filter (fun k => is_array_index k = true)
                     (first_seen [] (rss ≫= fmap rec_cellNum)).
Proof.
  intros Hconf Hvalid Hfuel.
  destruct (decode_whole fuel rss options o range cfg t Hconf Hvalid Hfuel)
    as (st & Hloop & Hget & Hok & Hkeys & Hview).
  destruct (own_properties_keys (features st)) as (cs & Hcs & Hsorted & Hperm);
    [apply Hok|].
  exists (Object_values (features st)), cs. split; [done|].
  rewrite (output_cellNums _ _ Hok), <- Hkeys. done.
Qed.

End ValueProperties.

Section TailProperties.
Context {num : Type} `{JSNumber num} `{CellHelpers} `{TimeHelpers}.

Implicit Types (options : option (FourwingsLoaderOptions num)).

(** X14. One or two tokens after the last whole record of a stream are not
    read as a record: [getCellTimeseries] has the same outcome as for the
    streams without them. *)
Theorem stray_tokens_are_ignored fuel
    (streams : list (list CellRecord * FourwingsRawData)) options o :
  options ≫= fourwings = Some o ->
  Forall (fun s => Forall (whole (sublayers o)) s.1 /\
                   (length s.2 < 3)%nat /\
                   (length (stream_of s.1 ++ s.2) < fuel)%nat) streams ->
  getCellTimeseries fuel (parsed_arrays streams) options
  = getCellTimeseries fuel (intArrays_of (fst <$> streams)) options.
Proof.
  intros Ho Hall. unfold getCellTimeseries. rewrite Ho.
  destruct (initialTimeRange o) as [range|]; [|done].
  destruct (CONFIG_BY_INTERVAL (interval o)) as [cfg|]; [|done].
  destruct (tile o) as [t|]; [|done].
  unfold parsed_arrays, intArrays_of. rewrite !length_fmap.
  set (K := callConstants o range cfg t (length streams)).
  enough (forall sub st,
            sublayersLoop K fuel
              ((fun s : list CellRecord * FourwingsRawData =>
                  Some (stream_of s.1 ++ s.2)) <$> streams) sub st
            = sublayersLoop K fuel
                ((fun rs => Some (stream_of rs)) <$> (fst <$> streams)) sub st)
    as -> by done.
  assert (k_sublayers K = sublayers o) as HK by done. clearbody K.
  induction Hall as [|[rs tl] l (Hrs & Htl & Hfuel) Hl IH];
    intros sub st; [done|].
  rewrite !fmap_cons. cbn [sublayersLoop fst snd].
  rewrite scanLoop_stray by (rewrite ?HK; done).
  destruct (scanLoop K fuel (stream_of rs) sub 0 initialScanVars st)
    as [st'| |]; [|done..].
  cbn [obind]. apply IH.
Qed.

(** X15. With one band per frame, a record that is cut short at the end of
    its stream, for a cell without a record before it in the stream, is
    decoded as if [undefined] stood for the values that are missing. The
    slot of a value that is there holds its transform in [values] and the
    timestamp of its frame in [dates], or is a hole in both when the value
    is the sentinel; the slot of each frame that is left holds the transform
    of [undefined] in [values] and the timestamp of the frame in [dates]. *)
Theorem cut_record_is_padded_with_undefined fuel streams (i : nat) rs c s e
    (vals : list Z) options o range cfg t :
  configured options o range cfg t ->
  parsed_input (sublayers o) fuel streams ->
  sublayers o = 1 ->
  streams !! i = Some (rs, c :: s :: e :: vals) ->
  c ∉ rec_cellNum <$> rs ->
  Z.of_nat (length vals) < e - s + 1 ->
  let K := callConstants o range cfg t (length streams) in
  let missing := e - s + 1 - Z.of_nat (length vals) in
  exists fs f,
    getCellTimeseries fuel (parsed_arrays streams) options = Returns fs /\
    f ∈ fs /\ cellNum (properties f) = Some c /\
    array_get (values (properties f)) (Z.of_nat i)
      = Some ((value_slot K <$> vals)
              ++ replicate (Z.to_nat missing) (Some (transform K None))) /\
    array_get (dates (properties f)) (Z.of_nat i)
      = Some (imap (date_slot K s) vals
              ++ ((fun j => Some (getIntervalTimestamp cfg (s + j)))
                    <$> seqZ (Z.of_nat (length vals)) missing)).
Proof.
  intros Hconf Hparsed Hone Hi Hc Hcut K missing.
  destruct (decode_parsed fuel streams options o range cfg t Hconf Hparsed)
    as (st & _ & Hget & Hok & Hkeys & Hview & _).
  fold K in Hok, Hview.
  destruct Hparsed as [_ Hall]. rewrite Forall_forall in Hall.
  destruct (Hall (rs, c :: s :: e :: vals)) as (Hwhole & Htail & Hsized & _);
    [by eapply list_elem_of_lookup_2|].
  simpl in Hwhole. unfold parsed_records in Hsized. simpl in Hsized.
  apply Forall_app in Hsized as [_ Hsized]. rewrite Forall_singleton in Hsized.
  unfold well_sized, declared_values in Hsized. simpl in Hsized.
  rewrite Hone, Z.mul_1_r in Hsized.
  assert (is_Some (obj_get (features st) (Some c))) as [f Hf].
  { apply obj_get_is_Some. rewrite Hkeys, elem_of_first_seen. right.
    exists c. split; [done|]. apply list_elem_of_bind.
    exists (rs, c :: s :: e :: vals).
    split; [|by eapply list_elem_of_lookup_2].
    unfold parsed_records. simpl. rewrite fmap_app. apply elem_of_app. right.
    apply list_elem_of_here. }
  pose proof (obj_get_Some_elem _ _ _ Hf) as Hin.
  destruct (state_ok_entry _ _ _ _ Hok Hin) as (_ & Hnum & _ & Hprior).
  exists (Object_values (features st)), f.
  split; [done|]. split; [apply elem_of_Object_values; eauto|].
  split; [done|].
  specialize (Hview c i _ Hi). rewrite <- Hprior in Hview.
  unfold parsed_records in Hview. simpl in Hview.
  rewrite cell_view_at_app, (cell_view_at_other K _ rs) in Hview by done.
  cbn [cell_view_at rec_cellNum rec_startFrame rec_endFrame] in Hview.
  rewrite decide_True in Hview by done.
  unfold view_cell in Hview.
  replace (e - k_tileStartFrame K - (s - k_tileStartFrame K) + 1)
    with (e - s + 1) in Hview by lia.
  change (k_sublayers K) with (sublayers o) in Hview.
  rewrite Hone, Z.mul_1_r in Hview.
  set (arr := stream_of rs ++ c :: s :: e :: vals) in *.
  set (si := 0 + Z.of_nat (length (stream_of rs)) + CELL_VALUES_START_INDEX) in *.
  rewrite view_loop_fresh in Hview by done.
  assert (forall j, 0 <= j -> js_index arr (j + si) = vals !! Z.to_nat j)
    as Hread.
  { intros j Hj. unfold arr, si. rewrite Z.add_0_l.
    by apply reads_of_cut_record. }
  assert (Z.of_nat (length vals) ∈ data_positions K arr si (e - s + 1)) as Hdata.
  { apply elem_of_data_positions. split; [lia|].
    rewrite Hread by lia. rewrite Nat2Z.id.
    by rewrite lookup_ge_None_2. }
  destruct (data_positions K arr si (e - s + 1)) as [|j0 js] eqn:Ejs;
    [by apply elem_of_nil in Hdata|].
  rewrite <- Ejs in Hview.
  destruct (view_aggregate_arrays K
              (written K arr (s - k_tileStartFrame K) si (e - s + 1)
                 (data_positions K arr si (e - s + 1)))) as (Hv & Hd & _).
  rewrite <- Hview in Hv, Hd.
  cbn [written fst view view_values view_dates] in Hv, Hd.
  destruct (stored_reads K arr si (e - s + 1) (s - k_tileStartFrame K))
    as [Hvs Hds]; [done|lia|].
  assert (forall (i' : nat) v, vals !! i' = Some v ->
            js_index arr (Z.of_nat i' + si) = Some v) as Hthere.
  { intros i' v Hv'. rewrite Hread by lia. by rewrite Nat2Z.id. }
  assert (forall i', Z.of_nat (length vals) <= i' ->
            js_index arr (i' + si) = None) as Hmissing.
  { intros i' Hlen. rewrite Hread by lia. apply lookup_ge_None_2. lia. }
  rewrite Hv, Hd, Hvs, Hds. split; f_equal.
  - rewrite (padded_slots _ (fun _ v => value_slot K v)
               (fun _ => Some (transform K None)) vals (e - s + 1)).
    + fold missing. f_equal.
      * clear. induction vals as [|v vals IH] using rev_ind; [done|].
        rewrite imap_app, fmap_app. simpl. by rewrite IH.
      * rewrite <- (Z2Nat.id missing) at 1 by (unfold missing; lia).
        generalize (Z.to_nat missing) as n. generalize (Z.of_nat (length vals)).
        intros z n. revert z. induction n as [|n IH]; intros z; [done|].
        rewrite Nat2Z.inj_succ, seqZ_cons by lia. simpl. f_equal.
        rewrite Z.pred_succ. apply IH.
    + lia.
    + intros i' v Hv'. rewrite (Hthere _ _ Hv'). unfold value_slot, is_data.
      destruct (Z.eqb_spec v (k_noDataValue K)) as [Heq|Hne]; cbn [negb].
      * by rewrite decide_True.
      * by rewrite decide_False.
    + intros i' Hi'. by rewrite Hmissing by lia.
  - fold missing.
    apply (padded_slots _ (date_slot K s)
             (fun j => Some (getIntervalTimestamp cfg (s + j))) vals); [lia|..].
    + intros i' v Hv'. rewrite (Hthere _ _ Hv'). unfold date_slot, is_data.
      destruct (Z.eqb_spec v (k_noDataValue K)) as [Heq|Hne]; cbn [negb].
      * by rewrite decide_True.
      * rewrite decide_False by done. do 2 f_equal. lia.
    + intros i' Hi'. rewrite Hmissing by lia. cbn [is_data].
      do 2 f_equal. lia.
Qed.

(** X16. When the first record of a stream declares [-3] values (one
    frame and [-3] bands per frame, for instance), the end of the record
    sends the scan back to its first token, and the loop over the stream
    does not end: the decoding runs out of every fuel. *)
Theorem backward_jump_never_ends fuel c s e (tl : FourwingsRawData) rest
    options o range cfg t :
  configured options o range cfg t ->
  (e - s + 1) * sublayers o = -3 ->
  Z.of_nat (S (length rest)) <= MAX_ARRAY_LENGTH ->
  getCellTimeseries fuel (Some (c :: s :: e :: tl) :: rest) options = OutOfFuel.
Proof.
  intros (Ho & Hrange & Hcfg & Htile) Hk Hmax.
  unfold getCellTimeseries. rewrite Ho, Hrange, Hcfg, Htile.
  set (K := callConstants o range cfg t (length (Some (c :: s :: e :: tl) :: rest))).
  set (arr := c :: s :: e :: tl).
  enough (forall n v st, v_indexInCell v = 0 -> state_ok K st ->
            scanLoop K n arr 0 0 v st = OutOfFuel) as Hscan.
  { cbn [sublayersLoop]. rewrite Hscan; [done..|apply emptyState_ok]. }
  assert (forall i, 0 <= i < 3 -> (i <? Z.of_nat (length arr)) = true) as Hlt.
  { intros i Hi. apply Z.ltb_lt. unfold arr. simpl length. lia. }
  assert (forall a, e - a - (s - a) + 1 = e - s + 1) as Hframes
    by (intros a; lia).
  induction n as [n IH] using lt_wf_ind. intros v st Hv Hok.
  destruct n as [|[|[|n]]].
  - reflexivity.
  - destruct v as [? ? ? ? ic]. simpl in Hv. subst ic.
    cbn [scanLoop]. rewrite Hlt by lia. reflexivity.
  - destruct v as [? ? ? ? ic]. simpl in Hv. subst ic.
    cbn [scanLoop]. rewrite Hlt by lia. unfold scanStep at 1. simpl.
    rewrite Hlt by lia. reflexivity.
  - rewrite scanLoop_record by (done || (unfold arr; simpl; lia)).
    change (js_index arr 0) with (Some c).
    change (js_index arr (0 + 1)) with (Some s).
    change (js_index arr (0 + 2)) with (Some e).
    cbn [fmap option_fmap option_map].
    destruct (processCell_spec K arr 0 (Some c) (Some (s - k_tileStartFrame K))
                (Some (e - k_tileStartFrame K))
                (0 + CELL_VALUES_START_INDEX) st)
      as (st' & f' & -> & Hok' & _); try done.
    { intros k [= <-]. right.
      change (k_sublayers K) with (sublayers o). rewrite Hframes, Hk.
      unfold MAX_ARRAY_LENGTH. lia. }
    cbn [obind]. unfold numCellValues_of. simpl.
    rewrite Hframes, Hk. apply IH; [lia|done..].
Qed.

End TailProperties.

Section ReferenceProperties.
Context {num : Type} `{JSNumber num} `{CellHelpers} `{TimeHelpers}.

Implicit Types (options : option (FourwingsLoaderOptions num)).

(** X17. For a valid input, [getCellTimeseries] returns exactly the
    features that the records describe: one for each cell number met in the
    streams, made of what the cell helpers give for the cell and, for each
    sublayer, of the entries that the records of the cell in the stream of
    that sublayer write, whatever the other streams hold. *)
Theorem decoding_follows_the_records fuel rss options o range cfg t :
  configured options o range cfg t ->
  valid_input (sublayers o) rss ->
  enough_fuel fuel rss ->
  let K := callConstants o range cfg t (length rss) in
  exists cs,
    getCellTimeseries fuel (intArrays_of rss) options
      = Returns (expected_feature K rss <$> cs) /\
    NoDup cs /\
    forall c, c ∈ cs <-> c ∈ rss ≫= fmap rec_cellNum.
Proof.
  intros Hconf Hvalid Hfuel K.
  destruct (decode_whole fuel rss options o range cfg t Hconf Hvalid Hfuel)
    as (st & Hloop & Hget & Hok & Hkeys & Hview).
  fold K in Hok, Hview.
  set (props := own_properties (features st)).
  assert (forall k f, (k, f) ∈ props ->
            exists c, k = Some c /\ f = expected_feature K rss c) as Hentry.
  { intros k f Hin. unfold props in Hin. rewrite own_properties_perm in Hin.
    destruct (state_ok_entry _ _ _ _ Hok Hin) as (Hk & _ & Hcell & Hprior).
    assert (k ∈ (features st).*1) as Hkin.
    { apply list_elem_of_fmap. by exists (k, f). }
    rewrite Hkeys, elem_of_first_seen in Hkin.
    destruct Hkin as [Hnil|(c & -> & _)]; [by apply elem_of_nil in Hnil|].
    exists c. split; [done|]. apply feature_eq_expected; [done| |].
    - destruct Hok as (_ & _ & Hall). by destruct (Hall _ _ Hk).
    - intros s rs Hs. rewrite Hprior. by apply Hview. }
  set (cs := index_of_key <$> props.*1).
  exists cs.
  assert (Some <$> cs = props.*1) as Hsome.
  { unfold cs. rewrite <- !list_fmap_compose. apply list_fmap_ext.
    intros i [k f] Hi. simpl.
    destruct (Hentry k f) as (c & -> & _); [by eapply list_elem_of_lookup_2|].
    done. }
  assert (props.*1 ≡ₚ first_seen [] (rss ≫= fmap rec_cellNum)) as Hperm.
  { unfold props. by rewrite own_properties_perm, Hkeys. }
  split; [|split].
  - rewrite Hget. f_equal. unfold Object_values, cs. fold props.
    rewrite <- !list_fmap_compose. apply list_fmap_ext.
    intros i [k f] Hi. simpl.
    destruct (Hentry k f) as (c & -> & ->); [by eapply list_elem_of_lookup_2|].
    done.
  - apply (NoDup_fmap_1 Some). rewrite Hsome, Hperm.
    apply first_seen_NoDup, NoDup_nil_2.
  - intros c.
    assert (c ∈ cs <-> Some c ∈ props.*1) as ->.
    { clearbody cs. rewrite <- Hsome. split.
      - intros Hc. apply list_elem_of_fmap. by exists c.
      - intros (c' & [= <-] & Hc')%list_elem_of_fmap. done. }
    rewrite Hperm, elem_of_first_seen. split.
    + intros [Hnil|(c' & [= <-] & Hc)]; [by apply elem_of_nil in Hnil|done].
    + intros Hc. right. by exists c.
Qed.

End ReferenceProperties.

Section ExceptionProperties.
Context {num : Type} `{JSNumber num} `{CellHelpers} `{TimeHelpers}.

Implicit Types (options : option (FourwingsLoaderOptions num)).

(** X18. With options that hold a time range, a known interval and a tile,
    and streams that are all defined, the only exception that
    [getCellTimeseries] throws, whatever the streams hold, is the
    [RangeError] of an array that cannot be created: no feature, array or
    entry is used before it exists. *)
Theorem scan_throws_range_errors_only fuel (arrays : list FourwingsRawData)
    options o range cfg t :
  configured options o range cfg t ->
  Z.of_nat (length arrays) <= MAX_ARRAY_LENGTH ->
  (exists fs, getCellTimeseries fuel (Some <$> arrays) options = Returns fs) \/
  getCellTimeseries fuel (Some <$> arrays) options = Throws RangeError \/
  getCellTimeseries fuel (Some <$> arrays) options = OutOfFuel.
Proof.
  intros (Ho & Hrange & Hcfg & Htile) Hmax.
  unfold getCellTimeseries. rewrite Ho, Hrange, Hcfg, Htile.
  rewrite length_fmap.
  set (K := callConstants o range cfg t (length arrays)).
  destruct (sublayersLoop K fuel (Some <$> arrays) 0 emptyState)
    as [st|e|] eqn:Hloop.
  - left. by eexists.
  - right. left. cbn [obind]. f_equal.
    eapply (sublayersLoop_throws K); [| | | |exact Hloop]; try done.
    split; [apply emptyState_ok|by intros c f s].
  - right. by right.
Qed.

End ExceptionProperties.

(** * Witnesses and counterexamples

    The theorems above at inputs of the [Sample] instance. *)

Import Sample.
Import Scenarios.

(** C8: the time range is missing and the reader refuses the second
    sub-buffer, which is read before the time range is looked at:
    [parseFourwings] throws. *)
Lemma absent_time_range_counterexample :
  (bufferOptions [4; 4] None ≫= fourwings) ≫= initialTimeRange = None /\
  @parseFourwings qnum _ _ _ byte_reader 100 brokenBuffers
    (bufferOptions [4; 4] None) = Throws LibraryError.
Proof. split; reflexivity. Qed.

Lemma empty_input_yields_no_feature_witness :
  parseFourwings (num := qnum) 10 [] None = Returns [] /\
  getCellTimeseries 10 [Some [7; 0; 0; 5]] noRangeOptions = Returns [] /\
  @parseFourwings qnum _ _ _ byte_reader 100 twoBuffers
    (bufferOptions [4; 4] None) = Returns [].
Proof.
  split; [|split].
  - apply (proj1 (empty_input_yields_no_feature (num := qnum) 10 [] [] None)).
    left. reflexivity.
  - apply (proj2 (empty_input_yields_no_feature 10 [] [Some [7; 0; 0; 5]]
                    noRangeOptions)).
    reflexivity.
  - destruct (proj2 (@empty_input_yields_no_feature qnum _ _ _ byte_reader
                       100 twoBuffers [] (bufferOptions [4; 4] None))
                eq_refl) as [_ Hparse].
    rewrite (Hparse [4; 4] eq_refl). reflexivity.
Defined.

Lemma one_feature_per_cell_witness :
  exists st fs,
    sublayersLoop (sampleConstants 1 0 2 None 2) 100
      (intArrays_of twoSublayers) 0 emptyState = Returns st /\
    getCellTimeseries 100 (intArrays_of twoSublayers) (sampleOptions 1 0 2 None)
      = Returns fs /\
    NoDup (cellNums fs) /\
    (forall c, Some c ∈ cellNums fs <-> c ∈ twoSublayers ≫= fmap rec_cellNum) /\
    materialized st = first_seen [] (twoSublayers ≫= fmap rec_cellNum) /\
    NoDup (materialized st) /\
    forall f c, f ∈ fs -> cellNum (properties f) = Some c ->
      same_cell f (newFeature (sampleConstants 1 0 2 None 2) (Some c)) /\
      forall (s : nat) rs, twoSublayers !! s = Some rs ->
        view (properties f) (Z.of_nat s)
        = cell_view (sampleConstants 1 0 2 None 2) rs c.
Proof.
  apply (one_feature_per_cell 100 twoSublayers (sampleOptions 1 0 2 None)
           (sampleParse 1 0 2 None) (sampleRange 0 2) HOUR sampleTile);
    by_evaluation.
Defined.

(** C3: cell 5 is met before cell 3, and the returned sequence holds cell 3
    first. *)
Lemma first_seen_order_counterexample :
  exists fs,
    getCellTimeseries 100 (intArrays_of twoSublayers) (sampleOptions 1 0 2 None)
      = Returns fs /\
    first_seen [] (twoSublayers ≫= fmap rec_cellNum) = [Some 5; Some 3] /\
    cellNums fs = [Some 3; Some 5].
Proof.
  eexists. split; [vm_compute; reflexivity|]. split; reflexivity.
Qed.

Lemma features_in_ascending_cell_order_witness :
  exists fs cs,
    getCellTimeseries 100 (intArrays_of twoSublayers) (sampleOptions 1 0 2 None)
      = Returns fs /\
    cellNums fs = Some <$> cs /\
    StronglySorted Z.lt cs /\
    Some <$> cs ≡ₚ first_seen [] (twoSublayers ≫= fmap rec_cellNum).
Proof.
  apply (features_in_ascending_cell_order 100 twoSublayers
           (sampleOptions 1 0 2 None) (sampleParse 1 0 2 None)
           (sampleRange 0 2) HOUR sampleTile);
    by_evaluation.
Defined.

(** C1: with two bands per frame and the time range of frames 0 and 1, the
    four values lie in frames of the range, and the values at positions 2 and
    3 are not accumulated. *)
Lemma range_by_frame_index_counterexample :
  let K := sampleConstants 2 0 2 None 1 in
  let r := record 7 0 1 [1; 2; 3; 4] in
  exists f,
    getCellTimeseries 100 (intArrays_of twoBands) (sampleOptions 2 0 2 None)
      = Returns [f] /\
    claimed_counted K r = [0; 1; 2; 3] /\
    accumulated K (rec_values r) 0 (claimed_counted K r) (of_int 0)
      = Fin (10 # 1) /\
    array_get (initialValues (properties f)).2 0 = Some (Fin (3 # 1)).
Proof.
  eexists. split; [vm_compute; reflexivity|]. by repeat split.
Qed.

(** Three records of cell 7 under ['avg']: the first holds no value and
    leaves [NaN], the second starts from 0 and leaves [(1 + 2) / 2], the third
    leaves [(1.5 + 9) / 1]. With two bands per frame, the one record of cell 7
    leaves [1 + 2]. *)
Lemma range_aggregate_counts_raw_positions_witness :
  (exists fs f,
     getCellTimeseries 100 (intArrays_of repeatedCell)
       (sampleOptions 1 0 9 (Some "avg"%string)) = Returns fs /\
     f ∈ fs /\ cellNum (properties f) = Some 7 /\
     array_get (initialValues (properties f)).2 0 = Some (Fin (21 # 2))) /\
  (exists fs f,
     getCellTimeseries 100 (intArrays_of twoBands) (sampleOptions 2 0 2 None)
       = Returns fs /\
     f ∈ fs /\ cellNum (properties f) = Some 7 /\
     array_get (initialValues (properties f)).2 0 = Some (Fin (3 # 1))).
Proof.
  destruct (range_aggregate_counts_raw_positions (num := qnum))
    as (_ & _ & Hcell & Hrecord).
  split.
  - destruct (Hcell 100%nat repeatedCell
                (sampleOptions 1 0 9 (Some "avg"%string))
                (sampleParse 1 0 9 (Some "avg"%string))
                (sampleRange 0 9) HOUR sampleTile 0%nat
                [record 7 0 0 [4294967295]; record 7 2 3 [1; 2];
                 record 7 5 5 [9]] 7)
      as [_ (fs & f & Hget & Hf & Hnum & Hiv)]; [by_evaluation..|].
    exists fs, f. split; [exact Hget|]. split; [exact Hf|].
    split; [exact Hnum|]. exact Hiv.
  - destruct (Hrecord 100%nat twoBands
                (sampleOptions 2 0 2 None) (sampleParse 2 0 2 None)
                (sampleRange 0 2) HOUR sampleTile 0%nat
                [record 7 0 1 [1; 2; 3; 4]] (record 7 0 1 [1; 2; 3; 4]))
      as (fs & f & Hget & Hf & Hnum & Hiv); [by_evaluation..|].
    exists fs, f. split; [exact Hget|]. split; [exact Hf|].
    split; [exact Hnum|]. exact Hiv.
Defined.

(** C2: with two bands per frame, a record of two frames yields arrays of
    four slots. *)
Lemma dense_arrays_length_counterexample :
  let r := record 7 0 1 [1; 2; 3; 4] in
  exists f vs ds,
    getCellTimeseries 100 (intArrays_of twoBands) (sampleOptions 2 0 2 None)
      = Returns [f] /\
    array_get (values (properties f)) 0 = Some vs /\
    array_get (dates (properties f)) 0 = Some ds /\
    length vs = 4%nat /\ length ds = 4%nat /\
    rec_endFrame r - rec_startFrame r + 1 = 2.
Proof.
  eexists _, _, _. split; [vm_compute; reflexivity|]. by repeat split.
Qed.

Lemma dense_arrays_hold_one_slot_per_value_witness :
  exists fs f vs ds,
    getCellTimeseries 100 (intArrays_of twoBands) (sampleOptions 2 0 2 None)
      = Returns fs /\
    f ∈ fs /\ cellNum (properties f) = Some 7 /\
    array_get (values (properties f)) 0 = Some vs /\
    array_get (dates (properties f)) 0 = Some ds /\
    Z.of_nat (length vs) = (1 - 0 + 1) * 2 /\
    length ds = length vs.
Proof.
  apply (dense_arrays_hold_one_slot_per_value 100 twoBands
           (sampleOptions 2 0 2 None) (sampleParse 2 0 2 None)
           (sampleRange 0 2) HOUR sampleTile 0
           [record 7 0 1 [1; 2; 3; 4]] (record 7 0 1 [1; 2; 3; 4]));
    by_evaluation.
Defined.

Lemma sentinel_records_leave_sublayer_unset_witness :
  exists fs f,
    getCellTimeseries 100 (intArrays_of sentinelSublayer)
      (sampleOptions 1 0 2 None) = Returns fs /\
    f ∈ fs /\ cellNum (properties f) = Some 7 /\
    array_get (values (properties f)) 1 = None /\
    array_get (dates (properties f)) 1 = None /\
    array_get (startOffsets (properties f)) 1 = None.
Proof.
  apply (sentinel_records_leave_sublayer_unset 100 sentinelSublayer
           (sampleOptions 1 0 2 None) (sampleParse 1 0 2 None)
           (sampleRange 0 2) HOUR sampleTile 1
           [record 7 0 1 [4294967295; 4294967295]] 7);
    by_evaluation.
Defined.

Lemma value_and_date_stored_at_frame_slot_witness :
  (exists p' counts',
     cellValuesLoop (sampleConstants 2 0 2 None 1) [7; 0; 1; 1; 2; 3; 4] 0 0 3 4
       (Z.to_nat (2 + 1)) 0
       (properties (newFeature (sampleConstants 2 0 2 None 1) (Some 7)), [0])
       = Returns (p', counts') /\
     (array_get (values p') 0 ≫= fun a => array_get a (2 / 2))
       = Some (Fin (3 # 1)) /\
     (array_get (dates p') 0 ≫= fun d => array_get d (2 / 2))
       = Some (2 * 3600000)) /\
  (exists fs f,
     getCellTimeseries 100 (intArrays_of twoBands) (sampleOptions 2 0 2 None)
       = Returns fs /\
     f ∈ fs /\ cellNum (properties f) = Some 7 /\
     (array_get (values (properties f)) 0 ≫= fun a => array_get a (1 / 2))
       = Some (Fin (2 # 1)) /\
     (array_get (dates (properties f)) 0 ≫= fun d => array_get d (1 / 2))
       = Some (1 * 3600000)).
Proof.
  destruct (value_and_date_stored_at_frame_slot (num := qnum)) as [Hstep Hout].
  split.
  - apply (Hstep (sampleConstants 2 0 2 None 1) [7; 0; 1; 1; 2; 3; 4] 0 0 3 4 2);
      try apply newFeature_well_formed; by_evaluation.
  - apply (Hout 100%nat twoBands (sampleOptions 2 0 2 None) (sampleParse 2 0 2 None)
             (sampleRange 0 2) HOUR sampleTile 0%nat
             [record 7 0 1 [1; 2; 3; 4]] (record 7 0 1 [1; 2; 3; 4]) 1%nat 2);
      try by_evaluation.
    intros [|[|[|[|j']]]] v' Hlt Hv' Hframe; simpl in *;
      try lia; try discriminate.
Defined.

(** C5: with two bands per frame the sentinel at position 1 shares slot
    [floor(1 / 2) = 0] with the value 5 at position 0, and the slot holds the
    value and its timestamp. *)
Lemma sentinel_slot_counterexample :
  let r := record 7 0 0 [5; 4294967295] in
  whole 2 r /\
  rec_values r !! 1%nat = Some NO_DATA_VALUE /\
  1 / 2 = 0 /\
  exists f,
    getCellTimeseries 100 (intArrays_of sentinelBand) (sampleOptions 2 0 2 None)
      = Returns [f] /\
    (array_get (values (properties f)) 0 ≫= fun a => array_get a (1 / 2))
      = Some (Fin (5 # 1)) /\
    (array_get (dates (properties f)) 0 ≫= fun d => array_get d (1 / 2))
      = Some 0.
Proof.
  split; [reflexivity|]. split; [reflexivity|]. split; [reflexivity|].
  eexists. split; [vm_compute; reflexivity|]. by split.
Qed.

Lemma sentinel_values_are_skipped_witness :
  k_noDataValue (sampleConstants 1 0 2 None 2) = 4294967295 /\
  (forall acc,
     cellValueStep (sampleConstants 1 0 2 None 2)
       [5; 0; 1; 1; 4294967295; 3; 0; 0; 2] 0 0 3 2 1 acc = Returns acc) /\
  (exists fs f,
     getCellTimeseries 100 (intArrays_of twoSublayers) (sampleOptions 1 0 2 None)
       = Returns fs /\
     f ∈ fs /\ cellNum (properties f) = Some 5 /\
     (array_get (values (properties f)) 0 ≫= fun a => array_get a 1) = None /\
     (array_get (dates (properties f)) 0 ≫= fun d => array_get d 1) = None) /\
  (exists fs f,
     getCellTimeseries 100 (intArrays_of sentinelSublayer)
       (sampleOptions 1 0 2 None) = Returns fs /\
     f ∈ fs /\ cellNum (properties f) = Some 7 /\
     (array_get (values (properties f)) 1 ≫= fun a => array_get a 0) = None /\
     (array_get (dates (properties f)) 1 ≫= fun d => array_get d 0) = None).
Proof.
  destruct (sentinel_values_are_skipped (num := qnum))
    as (Hdefault & Hstep & Hgap & Hband).
  split; [|split; [|split]].
  - by apply (Hdefault (sampleParse 1 0 2 None) (sampleRange 0 2) HOUR
                sampleTile 2%nat).
  - intros acc. by apply Hstep.
  - apply (Hgap 100%nat twoSublayers (sampleOptions 1 0 2 None)
             (sampleParse 1 0 2 None) (sampleRange 0 2) HOUR sampleTile 0%nat
             [record 5 0 1 [1; 4294967295]; record 3 0 0 [2]]
             (record 5 0 1 [1; 4294967295]) 1);
      try by_evaluation.
    intros [|[|j]] v Hv Hframe; simpl in *; try discriminate.
    by injection Hv as <-.
  - apply (Hband 100%nat sentinelSublayer (sampleOptions 1 0 2 None)
             (sampleParse 1 0 2 None) (sampleRange 0 2) HOUR sampleTile 1%nat
             [record 7 0 1 [4294967295; 4294967295]]
             (record 7 0 1 [4294967295; 4294967295]) 0%nat);
      by_evaluation.
Defined.

(** C7: with no band per frame the three tokens are read as a record without
    values, and its feature is returned. *)
Lemma zero_bands_counterexample :
  sublayers (sampleParse 0 0 2 None) = 0 /\
  exists f,
    getCellTimeseries 100 [Some [7; 0; 1]] (sampleOptions 0 0 2 None)
      = Returns [f] /\
    cellNum (properties f) = Some 7 /\ values (properties f) = [None].
Proof.
  split; [reflexivity|]. eexists. split; [vm_compute; reflexivity|]. by split.
Qed.

Lemma zero_bands_yield_features_without_values_witness :
  exists fs,
    getCellTimeseries 100 (Some <$> [[7; 0; 1; 9]]) (sampleOptions 0 0 2 None)
      = Returns fs /\
    cellNums fs
      ≡ₚ first_seen []
           ([[7; 0; 1; 9]] ≫= fun arr => rec_cellNum <$> (triples arr).1) /\
    forall f s, f ∈ fs ->
      array_get (values (properties f)) s = None /\
      array_get (dates (properties f)) s = None /\
      array_get (startOffsets (properties f)) s = None.
Proof.
  apply (zero_bands_yield_features_without_values 100 [[7; 0; 1; 9]]
           (sampleOptions 0 0 2 None) (sampleParse 0 0 2 None)
           (sampleRange 0 2) HOUR sampleTile);
    by_evaluation.
Defined.

(** C6: the stream declares a record of two values and holds one; no list of
    whole records encodes it, and the decoding returns the feature, with
    [NaN] for the missing value. *)
Lemma truncated_stream_counterexample :
  ~ aligned 1 [7; 0; 1; 5] /\
  exists f,
    getCellTimeseries 100 [Some [7; 0; 1; 5]] (sampleOptions 1 0 2 None)
      = Returns [f] /\
    values (properties f) = [Some [Some (Fin (5 # 1)); Some Nan]].
Proof.
  split.
  - intros (rs & Hwhole & Heq). destruct rs as [|[c s e vals] rs]; [done|].
    apply Forall_cons in Hwhole as [Hr _].
    rewrite stream_of_cons in Heq. unfold encode in Heq. simpl in Heq.
    injection Heq as <- <- <- Hvals.
    unfold whole, declared_values in Hr. simpl in Hr.
    assert (length (vals ++ stream_of rs) = 1%nat) as Hlen by (by rewrite <- Hvals).
    rewrite length_app in Hlen. lia.
  - eexists. split; [vm_compute; reflexivity|]. reflexivity.
Qed.

Lemma truncated_stream_is_decoded_witness :
  exists fs,
    getCellTimeseries 100 (parsed_arrays cutStream) (sampleOptions 1 0 2 None)
      = Returns fs /\
    cellNums fs
      ≡ₚ first_seen [] (cutStream ≫= fun s => rec_cellNum <$> parsed_records s) /\
    exists f, f ∈ fs /\ cellNum (properties f) = Some 7 /\
      (array_get (values (properties f)) 0 ≫= fun a => array_get a 1)
      = Some Nan.
Proof.
  destruct (truncated_stream_is_decoded 100 cutStream (sampleOptions 1 0 2 None)
              (sampleParse 1 0 2 None) (sampleRange 0 2) HOUR sampleTile)
    as (fs & Hget & Hcells & _ & Hmissing); try by_evaluation.
  { exists (record 7 0 1 [5; 6]), 4%nat. by_evaluation. }
  exists fs. split; [exact Hget|]. split; [exact Hcells|].
  apply (Hmissing 0%nat [record 3 0 0 [2]] 7 0 1 [5] 1); by_evaluation.
Defined.

(** ** Exceptions and divergence of the decoder

    The two ways in which [getCellTimeseries] itself does not return. *)

(** A record that declares [2^32] values: the first value is missing, is
    taken as data, and the dense array cannot be allocated. *)
Lemma oversized_record_throws :
  getCellTimeseries 100 [Some [7; 0; 4294967295]] (sampleOptions 1 0 2 None)
    = Throws RangeError.
Proof. lazy. reflexivity. Qed.

(** With [-3] bands per frame a record of one frame moves [i] back to the
    first token of the record: the scan does not end, whatever the fuel. *)
Lemma negative_bands_scan_forever fuel :
  getCellTimeseries fuel [Some [7; 0; 0]] (sampleOptions (-3) 0 2 None)
    = OutOfFuel.
Proof.
  set (K := sampleConstants (-3) 0 2 None 1).
  assert (forall n v st, v_indexInCell v = 0 -> state_ok K st ->
            scanLoop K n [7; 0; 0] 0 0 v st = OutOfFuel) as Hscan.
  { induction n as [n IH] using lt_wf_ind. intros v st Hv Hok.
    destruct n as [|[|[|n]]].
    - reflexivity.
    - destruct v as [? ? ? ? ic]. simpl in Hv. subst ic. reflexivity.
    - destruct v as [? ? ? ? ic]. simpl in Hv. subst ic. reflexivity.
    - rewrite scanLoop_record by done.
      change (js_index [7; 0; 0] 0) with (Some 7).
      change (js_index [7; 0; 0] (0 + 1)) with (Some 0).
      change (js_index [7; 0; 0] (0 + 2)) with (Some 0).
      destruct (processCell_spec K [7; 0; 0] 0 (Some 7)
                  ((fun x => x - k_tileStartFrame K) <$> Some 0)
                  ((fun x => x - k_tileStartFrame K) <$> Some 0)
                  (0 + CELL_VALUES_START_INDEX) st)
        as (st' & f' & -> & Hok' & _); [done..| |].
      { intros k [= <-]. by right. }
      apply IH; [lia|done..]. }
  unfold getCellTimeseries. simpl. fold K.
  by rewrite Hscan; [|done|apply emptyState_ok].
Qed.

(** * Witnesses of the further properties *)

Lemma sub_buffers_are_read_in_sequence_witness :
  let options := bufferOptions [4; 4] (Some (sampleRange 0 2)) in
  @parseFourwings qnum _ _ _ byte_reader 100 twoBuffers options =
    (let* intArrays :=
       @readStreams byte_reader [4; 4] (subBuffers twoBuffers [4; 4]) in
     getCellTimeseries 100 intArrays options) /\
  Forall2 (fun n sub => Z.of_nat (length sub) = n) [4; 4]
    (subBuffers twoBuffers [4; 4]) /\
  concat (subBuffers twoBuffers [4; 4])
  = take (Z.to_nat (total_length [4; 4])) twoBuffers.
Proof.
  apply (@sub_buffers_are_read_in_sequence qnum _ _ _ byte_reader 100
           twoBuffers (bufferOptions [4; 4] (Some (sampleRange 0 2))) [4; 4]);
    by_evaluation.
Defined.

Lemma reader_exception_propagates_witness :
  @parseFourwings qnum _ _ _ byte_reader 100 brokenBuffers
    (bufferOptions [4; 4] None) = Throws LibraryError.
Proof.
  apply (@reader_exception_propagates qnum _ _ _ byte_reader 100 brokenBuffers
           (bufferOptions [4; 4] None) [4; 4] 1 4
           [Byte.x07; Byte.xff; Byte.x01; Byte.x09] LibraryError);
    try by_evaluation.
  intros [|i'] n' sub' Hi' Hn' Hsub' _; [|lia].
  injection Hsub' as <-. eexists. reflexivity.
Defined.

Lemma zero_lengths_yield_no_feature_witness :
  parseFourwings 10 twoBuffers (bufferOptions [0; 0] (Some (sampleRange 0 2)))
  = Returns [].
Proof.
  eapply (zero_lengths_yield_no_feature 10 twoBuffers
            (bufferOptions [0; 0] (Some (sampleRange 0 2))) _
            (sampleRange 0 2) HOUR sampleTile [0; 0]);
    by_evaluation.
Defined.

Lemma returned_features_are_well_formed_witness :
  exists fs,
    getCellTimeseries 100 brokenStreams (sampleOptions 1 0 2 None)
      = Returns fs /\
    cellNums fs = [Some 3; Some 7] /\
    NoDup (cellNums fs) /\
    forall f, f ∈ fs ->
      length (values (properties f)) = length brokenStreams /\
      length (dates (properties f)) = length brokenStreams /\
      length (startOffsets (properties f)) = length brokenStreams /\
      length (initialValues (properties f)).2 = length brokenStreams /\
      exists o range cfg t,
        configured (sampleOptions 1 0 2 None) o range cfg t /\
        same_cell f
          (newFeature (callConstants o range cfg t (length brokenStreams))
             (cellNum (properties f))).
Proof.
  eexists. split; [vm_compute; reflexivity|]. split; [reflexivity|].
  apply (returned_features_are_well_formed 100 brokenStreams
           (sampleOptions 1 0 2 None)); [by_evaluation|vm_compute; reflexivity].
Defined.

Lemma sublayer_entries_are_set_together_witness :
  exists fs,
    getCellTimeseries 100 brokenStreams (sampleOptions 1 0 2 None)
      = Returns fs /\
    forall f s, f ∈ fs ->
      (is_Some (array_get (values (properties f)) s)
         <-> is_Some (array_get (dates (properties f)) s)) /\
      (is_Some (array_get (values (properties f)) s)
         <-> is_Some (array_get (startOffsets (properties f)) s)) /\
      (is_Some (array_get (values (properties f)) s)
         -> is_Some (array_get (initialValues (properties f)).2 s)).
Proof.
  eexists. split; [vm_compute; reflexivity|].
  apply (sublayer_entries_are_set_together 100 brokenStreams
           (sampleOptions 1 0 2 None)); [by_evaluation|vm_compute; reflexivity].
Defined.

Lemma missing_configuration_throws_witness :
  getCellTimeseries 100 (intArrays_of twoSublayers) noTileOptions
    = Throws TypeError /\
  forall lengths arrays,
    buffersLength noTileParse = Some lengths -> lengths <> [] ->
    readBuffers twoBuffers lengths lengths 0 0 = Returns arrays ->
    parseFourwings 100 twoBuffers noTileOptions = Throws TypeError.
Proof.
  apply (missing_configuration_throws 100 twoBuffers (intArrays_of twoSublayers)
           noTileOptions noTileParse (sampleRange 0 2)); try reflexivity.
  right. reflexivity.
Defined.

Lemma undefined_stream_throws_witness :
  getCellTimeseries 100 (parsed_arrays cutStream ++ [None])
    (sampleOptions 1 0 2 None) = Throws TypeError.
Proof.
  apply (undefined_stream_throws 100 cutStream [] (sampleOptions 1 0 2 None)
           (sampleParse 1 0 2 None) (sampleRange 0 2) HOUR sampleTile);
    by_evaluation.
Defined.

Lemma oversized_record_is_a_range_error_witness :
  getCellTimeseries 100
    (parsed_arrays cutStream
       ++ [Some (stream_of [record 3 0 0 [2]] ++ [7; 0; 4294967295; 5])])
    (sampleOptions 1 0 2 None) = Throws RangeError.
Proof.
  apply (oversized_record_is_a_range_error 100 cutStream [record 3 0 0 [2]]
           7 0 4294967295 [5] [] (sampleOptions 1 0 2 None)
           (sampleParse 1 0 2 None) (sampleRange 0 2) HOUR sampleTile);
    by_evaluation.
Defined.

Lemma start_offset_is_that_of_first_record_with_data_witness :
  exists fs f,
    getCellTimeseries 100 (intArrays_of repeatedCell) (sampleOptions 1 0 9 None)
      = Returns fs /\
    f ∈ fs /\ cellNum (properties f) = Some 7 /\
    is_Some (array_get (values (properties f)) 0) /\
    array_get (startOffsets (properties f)) 0 = Some 2.
Proof.
  apply (start_offset_is_that_of_first_record_with_data 100 repeatedCell
           (sampleOptions 1 0 9 None) (sampleParse 1 0 9 None)
           (sampleRange 0 9) HOUR sampleTile 0
           [record 7 0 0 [4294967295]; record 7 2 3 [1; 2]; record 7 5 5 [9]]
           7 [record 7 0 0 [4294967295]] (record 7 2 3 [1; 2])
           [record 7 5 5 [9]]);
    unfold has_data; by_evaluation.
Defined.

Lemma sum_aggregate_adds_up_the_records_witness :
  exists fs f,
    getCellTimeseries 100 (intArrays_of repeatedCell) (sampleOptions 1 0 9 None)
      = Returns fs /\
    f ∈ fs /\ cellNum (properties f) = Some 7 /\
    array_get (initialValues (properties f)).2 0 = Some (Fin (12 # 1)).
Proof.
  destruct (sum_aggregate_adds_up_the_records 100 repeatedCell
              (sampleOptions 1 0 9 None) (sampleParse 1 0 9 None)
              (sampleRange 0 9) HOUR sampleTile 0
              [record 7 0 0 [4294967295]; record 7 2 3 [1; 2]; record 7 5 5 [9]]
              7) as (fs & f & Hget & Hf & Hnum & Hsum & _);
    [by_evaluation..|].
  exists fs, f. split; [exact Hget|]. split; [exact Hf|]. split; [exact Hnum|].
  apply Hsum. apply Exists_cons_tl, Exists_cons_hd. unfold has_data.
  by_evaluation.
Defined.

Lemma single_band_arrays_mirror_the_record_witness :
  exists fs f,
    getCellTimeseries 100 (intArrays_of twoSublayers) (sampleOptions 1 0 2 None)
      = Returns fs /\
    f ∈ fs /\ cellNum (properties f) = Some 5 /\
    array_get (values (properties f)) 0 = Some [Some (Fin (1 # 1)); None] /\
    array_get (dates (properties f)) 0 = Some [Some 0; None].
Proof.
  destruct (single_band_arrays_mirror_the_record 100 twoSublayers
              (sampleOptions 1 0 2 None) (sampleParse 1 0 2 None)
              (sampleRange 0 2) HOUR sampleTile 0
              [record 5 0 1 [1; 4294967295]; record 3 0 0 [2]]
              (record 5 0 1 [1; 4294967295]))
    as (fs & f & Hget & Hf & Hnum & Hvs & Hds);
    [unfold has_data; by_evaluation..|].
  exists fs, f. split; [exact Hget|]. split; [exact Hf|]. split; [exact Hnum|].
  split; [exact Hvs|exact Hds].
Defined.

Lemma slots_past_the_frames_are_unset_witness :
  exists fs f,
    getCellTimeseries 100 (intArrays_of twoBands) (sampleOptions 2 0 2 None)
      = Returns fs /\
    f ∈ fs /\ cellNum (properties f) = Some 7 /\
    (array_get (values (properties f)) 0 ≫= fun a => array_get a 2) = None /\
    (array_get (dates (properties f)) 0 ≫= fun d => array_get d 2) = None.
Proof.
  apply (slots_past_the_frames_are_unset 100 twoBands
           (sampleOptions 2 0 2 None) (sampleParse 2 0 2 None)
           (sampleRange 0 2) HOUR sampleTile 0
           [record 7 0 1 [1; 2; 3; 4]] (record 7 0 1 [1; 2; 3; 4]) 2);
    by_evaluation.
Defined.

Lemma features_follow_the_key_order_of_objects_witness :
  exists fs cs,
    getCellTimeseries 100 (intArrays_of largeCells) (sampleOptions 1 0 2 None)
      = Returns fs /\
    cellNums fs
      = (Some <$> cs)
        ++ filter (fun k => is_array_index k <> true)
             (first_seen [] (largeCells ≫= fmap rec_cellNum)) /\
    StronglySorted Z.lt cs /\
    Some <$> cs ≡ₚ filter (fun k => is_array_index k = true)
                     (first_seen [] (largeCells ≫= fmap rec_cellNum)).
Proof.
  apply (features_follow_the_key_order_of_objects 100 largeCells
           (sampleOptions 1 0 2 None) (sampleParse 1 0 2 None)
           (sampleRange 0 2) HOUR sampleTile);
    by_evaluation.
Defined.

Lemma stray_tokens_are_ignored_witness :
  getCellTimeseries 100 (parsed_arrays strayTokens) (sampleOptions 1 0 2 None)
  = getCellTimeseries 100 (intArrays_of (fst <$> strayTokens))
      (sampleOptions 1 0 2 None).
Proof.
  apply (stray_tokens_are_ignored 100 strayTokens (sampleOptions 1 0 2 None)
           (sampleParse 1 0 2 None));
    by_evaluation.
Defined.

Lemma cut_record_is_padded_with_undefined_witness :
  exists fs f,
    getCellTimeseries 100 (parsed_arrays cutStream) (sampleOptions 1 0 2 None)
      = Returns fs /\
    f ∈ fs /\ cellNum (properties f) = Some 7 /\
    array_get (values (properties f)) 0 = Some [Some (Fin (5 # 1)); Some Nan] /\
    array_get (dates (properties f)) 0 = Some [Some 0; Some 3600000].
Proof.
  destruct (cut_record_is_padded_with_undefined 100 cutStream 0
              [record 3 0 0 [2]] 7 0 1 [5] (sampleOptions 1 0 2 None)
              (sampleParse 1 0 2 None) (sampleRange 0 2) HOUR sampleTile)
    as (fs & f & Hget & Hf & Hnum & Hvs & Hds); [by_evaluation..|].
  exists fs, f. split; [exact Hget|]. split; [exact Hf|]. split; [exact Hnum|].
  split; [exact Hvs|exact Hds].
Defined.

Lemma backward_jump_never_ends_witness :
  getCellTimeseries 1000 [Some [7; 0; 0; 1; 2]] (sampleOptions (-3) 0 2 None)
  = OutOfFuel.
Proof.
  apply (backward_jump_never_ends 1000 7 0 0 [1; 2] []
           (sampleOptions (-3) 0 2 None) (sampleParse (-3) 0 2 None)
           (sampleRange 0 2) HOUR sampleTile);
    by_evaluation.
Defined.

Lemma decoding_follows_the_records_witness :
  exists cs,
    getCellTimeseries 100 (intArrays_of twoSublayers) (sampleOptions 1 0 2 None)
      = Returns (expected_feature (sampleConstants 1 0 2 None 2) twoSublayers
                   <$> cs) /\
    NoDup cs /\
    forall c, c ∈ cs <-> c ∈ twoSublayers ≫= fmap rec_cellNum.
Proof.
  apply (decoding_follows_the_records 100 twoSublayers
           (sampleOptions 1 0 2 None) (sampleParse 1 0 2 None)
           (sampleRange 0 2) HOUR sampleTile);
    by_evaluation.
Defined.

Lemma scan_throws_range_errors_only_witness :
  (exists fs,
     getCellTimeseries 100 (Some <$> [[7; 0; 4294967295]])
       (sampleOptions 1 0 2 None) = Returns fs) \/
  getCellTimeseries 100 (Some <$> [[7; 0; 4294967295]])
    (sampleOptions 1 0 2 None) = Throws RangeError \/
  getCellTimeseries 100 (Some <$> [[7; 0; 4294967295]])
    (sampleOptions 1 0 2 None) = OutOfFuel.
Proof.
  apply (scan_throws_range_errors_only 100 [[7; 0; 4294967295]]
           (sampleOptions 1 0 2 None) (sampleParse 1 0 2 None)
           (sampleRange 0 2) HOUR sampleTile);
    by_evaluation.
Defined.
